(** * Sprint and capacity aggregation engine of ado-duedate-generator

    A shallow embedding of the calendar logic of [main.go]: the working-day
    counter [calculateWorkingDays], the sprint scan and display window of
    the [/sprints] handler, the capacity computation of the [/developers]
    handler and the date normaliser [parseDate]. *)

From Stdlib Require Import ZArith List Bool Lia String Ascii PrimFloat Uint63.
From stdpp Require Import base list strings gmap.

Local Open Scope Z_scope.

(** ** Go's [time] package, as far as [main.go] uses it *)

Module GoTime.

(** A [*time.Location] is read through its [lookup] only: the offset in
    seconds east of UTC that is in force at an instant.  The instant is
    given in seconds since 0001-01-01T00:00:00Z (the library passes seconds
    since 1970, a shift of the argument).  A location with daylight saving,
    such as [time.Local] on most hosts, has an offset that changes with the
    instant; [UTC] and the locations made by [time.FixedZone] do not. *)
Definition Location : Type := Z -> Z.

Definition UTC : Location := fun _ => 0.
Definition FixedZone (offset : Z) : Location := fun _ => offset.

(** A [time.Time] is an instant plus a location.  The instant is kept as the
    number of nanoseconds elapsed since 0001-01-01T00:00:00Z, which is the
    zero value [time.Time{}], in [UTC].  Go stores the instant in signed
    64-bit seconds and [Add] saturates at the ends of that range (about
    292e9 years away from year 1); dates read from text have years 0 to
    9999, so the instant is an unbounded [Z] here. *)
Record Time : Type := mkTime { instant : Z; location : Location }.

Definition zeroTime : Time := mkTime 0 UTC.

(** [time.Duration] counts nanoseconds. *)
Definition Duration : Type := Z.
Definition Nanosecond : Duration := 1.
Definition Second : Duration := 1000000000 * Nanosecond.
Definition Minute : Duration := 60 * Second.
Definition Hour : Duration := 60 * Minute.

Definition Before (t u : Time) : bool := instant t <? instant u.
Definition After (t u : Time) : bool := instant u <? instant t.
Definition Equal (t u : Time) : bool := instant t =? instant u.
Definition IsZero (t : Time) : bool := instant t =? 0.

(** [Add] moves the instant and keeps the location. *)
Definition Add (t : Time) (d : Duration) : Time :=
  mkTime (instant t + d) (location t).

Inductive Weekday : Type :=
  | Sunday | Monday | Tuesday | Wednesday | Thursday | Friday | Saturday.

Definition weekdayOfZ (n : Z) : Weekday :=
  match n with
  | 0 => Sunday | 1 => Monday | 2 => Tuesday | 3 => Wednesday
  | 4 => Thursday | 5 => Friday | _ => Saturday
  end.

Definition secondsPerDay : Z := 86400.

(** The offset of the time's location at the time's own instant, as
    [Time.Zone] returns it. *)
Definition zoneOffset (t : Time) : Z := location t (instant t / Second).

(** Seconds on the wall clock of the time's own location. *)
Definition localSeconds (t : Time) : Z := instant t / Second + zoneOffset t.

(** Day number on the wall clock of the time's own location; day 0 is
    0001-01-01. *)
Definition localDay (t : Time) : Z := localSeconds t / secondsPerDay.

(** 0001-01-01 was a Monday. *)
Definition WeekdayOf (t : Time) : Weekday := weekdayOfZ ((localDay t + 1) mod 7).

Definition isWeekend (t : Time) : bool :=
  match WeekdayOf t with
  | Saturday | Sunday => true
  | _ => false
  end.

(** *** [time.Date] on fields that are already in range *)

Definition isLeap (year : Z) : bool :=
  (year mod 4 =? 0) && (negb (year mod 100 =? 0) || (year mod 400 =? 0)).

(** Days of a non-leap year before the first of [month] (1 to 12; 13 gives
    the length of the year), the table [daysBefore] of the library. *)
Definition daysBefore (month : Z) : Z :=
  match month with
  | 1 => 0 | 2 => 31 | 3 => 59 | 4 => 90 | 5 => 120 | 6 => 151 | 7 => 181
  | 8 => 212 | 9 => 243 | 10 => 273 | 11 => 304 | 12 => 334 | _ => 365
  end.

Definition daysIn (month year : Z) : Z :=
  if (month =? 2) && isLeap year then 29
  else daysBefore (month + 1) - daysBefore month.

(** Days from 0001-01-01 to the first of January of [year]. *)
Definition daysSinceEpoch (year : Z) : Z :=
  let y := year - 1 in 365 * y + y / 4 - y / 100 + y / 400.

(** [time.Date(year, month, day, hour, min, sec, nsec, loc)] for a location
    of fixed offset, [UTC] when the offset is 0.  The library first
    normalises fields that are out of range; every caller here has
    validated them before. *)
Definition Date (year month day hour min sec nsec : Z) (offset : Z) : Time :=
  let d := daysSinceEpoch year + daysBefore month
           + (if isLeap year && (3 <=? month) then 1 else 0) + (day - 1) in
  let wallSeconds := d * secondsPerDay + hour * 3600 + min * 60 + sec in
  mkTime ((wallSeconds - offset) * Second + nsec) (FixedZone offset).

End GoTime.
Export GoTime.

(** ** Data model of [main.go] *)

Record DayOff : Type := mkDayOff { Start : Time; End : Time }.

(** ** [calculateWorkingDays] *)

(** The test of the inner loop: [current] lies in the closed interval of
    [off]. *)
Definition coversDay (current : Time) (off : DayOff) : bool :=
  (Equal current (Start off) || After current (Start off))
  && (Equal current (End off) || Before current (End off)).

(** The inner [for _, off := range daysOff] with its [break]. *)
Fixpoint isDayOff (current : Time) (daysOff : list DayOff) : bool :=
  match daysOff with
  | [] => false
  | off :: rest => if coversDay current off then true else isDayOff current rest
  end.

(** One turn of the outer loop: the new value of [workingDays]. *)
Definition countDay (current : Time) (daysOff : list DayOff) (workingDays : Z) : Z :=
  if negb (isWeekend current) then
    if negb (isDayOff current daysOff) then workingDays + 1 else workingDays
  else workingDays.

(** The outer loop [for current.Before(end) || current.Equal(end)], with
    fuel; [None] means that the fuel ran out before the loop left. *)
Fixpoint workingDaysLoop (fuel : nat) (current finish : Time) (daysOff : list DayOff)
    (workingDays : Z) : option Z :=
  if Before current finish || Equal current finish then
    match fuel with
    | O => None
    | S fuel' =>
        workingDaysLoop fuel' (Add current (24 * Hour)) finish daysOff
          (countDay current daysOff workingDays)
    end
  else Some workingDays.

(** Number of turns the loop takes from [start]. *)
Definition loopTurns (start finish : Time) : nat :=
  if instant start <=? instant finish
  then Z.to_nat ((instant finish - instant start) / (24 * Hour) + 1)
  else O.

Definition calculateWorkingDays (start finish : Time) (daysOff : list DayOff) : Z :=
  match workingDaysLoop (loopTurns start finish) start finish daysOff 0 with
  | Some n => n
  | None => 0
  end.

(** *** The loop, unrolled

    The instants the loop visits are [start], [start] plus 24 hours, and so
    on, as long as they are not after [finish]. *)
Definition visitedDays (start finish : Time) : list Time :=
  map (fun k => Add start (Z.of_nat k * (24 * Hour)))
      (seq 0 (loopTurns start finish)).

Definition withinExclusion (d : Time) (x : DayOff) : bool :=
  (instant (Start x) <=? instant d) && (instant d <=? instant (End x)).

Definition isWorkingDay (exclusions : list DayOff) (d : Time) : bool :=
  negb (isWeekend d) && negb (existsb (withinExclusion d) exclusions).

Definition visitedWorkingDays (start finish : Time) (exclusions : list DayOff) : Z :=
  Z.of_nat (length (List.filter (isWorkingDay exclusions) (visitedDays start finish))).

(** The instants visited from [current] in [n] turns. *)
Definition daysFrom (current : Time) (n : nat) : list Time :=
  map (fun k => Add current (Z.of_nat k * (24 * Hour))) (seq 0 n).

Definition countWorking (daysOff : list DayOff) (days : list Time) : Z :=
  Z.of_nat (length (List.filter (isWorkingDay daysOff) days)).

(** *** The counter, as the specification words it

    The specification counts calendar days.  A calendar day is numbered on
    the wall clock of its timestamp: day 0 is 0001-01-01, and a timestamp
    lies on the day given by its wall-clock nanoseconds since the midnight
    that began day 0, divided by the nanoseconds of a day. *)
Definition specCalendarDay (t : Time) : Z :=
  (instant t + zoneOffset t * Second) / (24 * Hour).

(** Nanoseconds since midnight on the wall clock. *)
Definition specTimeOfDay (t : Time) : Z :=
  (instant t + zoneOffset t * Second) mod (24 * Hour).

(** 0001-01-01 is a Monday of the proleptic Gregorian calendar and the
    days of the week repeat every seven days: of each seven days from day
    0 on, the sixth is the Saturday and the seventh the Sunday. *)
Definition specWeekend (d : Z) : bool := 5 <=? d mod 7.

(** The calendar days of the inclusive range from [start] to [finish]; none
    when [start] is after [finish]. *)
Definition specDays (start finish : Time) : list Z :=
  if instant finish <? instant start then []
  else map (fun k => specCalendarDay start + Z.of_nat k)
           (seq 0 (Z.to_nat (specCalendarDay finish - specCalendarDay start + 1))).

(** Day [d] lies within the inclusive range of the exclusion interval. *)
Definition specExcluded (d : Z) (x : DayOff) : bool :=
  (specCalendarDay (Start x) <=? d) && (d <=? specCalendarDay (End x)).

Definition specCounted (exclusions : list DayOff) (d : Z) : bool :=
  negb (specWeekend d) && negb (existsb (specExcluded d) exclusions).

Definition specWorkingDays (start finish : Time) (exclusions : list DayOff) : Z :=
  Z.of_nat (length (List.filter (specCounted exclusions) (specDays start finish))).

(** What the code counts in place of a calendar day: an instant [t] whose
    calendar day is neither a Saturday nor a Sunday and which no exclusion
    interval holds between its bounds, all three compared as instants. *)
Definition countedInstant (exclusions : list DayOff) (t : Time) : bool :=
  negb (specWeekend (specCalendarDay t))
  && forallb (fun x => negb ((instant (Start x) <=? instant t)
                             && (instant t <=? instant (End x)))) exclusions.

(** The inputs on which the instants visited are the calendar days of the
    range: the location of [start] has one offset at the instants visited;
    [finish] is written at that offset and at a time of day that is not
    before that of [start]; every exclusion interval is written at that
    offset, begins at a time of day that is not after that of [start] and
    ends at one that is not before it.  Timestamps that are all at
    midnight UTC are aligned. *)
Definition aligned (start finish : Time) (exclusions : list DayOff) : Prop :=
  (forall k : Z, 0 <= k -> instant start + k * (24 * Hour) <= instant finish ->
     zoneOffset (Add start (k * (24 * Hour))) = zoneOffset start)
  /\ zoneOffset finish = zoneOffset start
  /\ specTimeOfDay start <= specTimeOfDay finish
  /\ Forall (fun x =>
               zoneOffset (Start x) = zoneOffset start
               /\ zoneOffset (End x) = zoneOffset start
               /\ specTimeOfDay (Start x) <= specTimeOfDay start <= specTimeOfDay (End x))
            exclusions.

(** A calendar date at midnight UTC. *)
Definition day (year month d : Z) : Time := Date year month d 0 0 0 0 0.

(** ** The [/sprints] handler: scan and display window *)

(** The iteration records of the Azure DevOps client (package [work]); every
    field is a pointer there, hence an [option] here. *)
Module work.

Record TeamIterationAttributes : Type :=
  mkAttributes { StartDate : option Time; FinishDate : option Time }.

Record TeamSettingsIteration : Type := mkIteration {
  Name : option string;
  Path : option string;
  Attributes : option TeamIterationAttributes
}.

End work.

(** [Sprint] of [main.go].  The field [ID] is left out: it is filled from
    [Path] when that parses as a UUID and is read by nothing in the
    handler. *)
Record Sprint : Type := mkSprint {
  Name : string;
  StartDate : Time;
  EndDate : Time;
  IsCurrent : bool
}.

(** A Go panic ends the handler; [Ok] carries its normal result. *)
Inductive result (A : Type) : Type :=
  | Ok (a : A)
  | Panic (msg : string).
Arguments Ok {A} a.
Arguments Panic {A} msg.

Definition len {A} (s : list A) : Z := Z.of_nat (length s).

(** The slice expression [s[low:high]] on a slice whose capacity is not
    smaller than [high]: it panics unless [0 <= low <= high <= cap(s)], and
    every [high] below is at most [len(s)]. *)
Definition slice {A} (s : list A) (low high : Z) : result (list A) :=
  if (0 <=? low) && (low <=? high) && (high <=? len s)
  then Ok (firstn (Z.to_nat (high - low)) (skipn (Z.to_nat low) s))
  else Panic "slice bounds out of range".

(** The dates copied from the attributes; a field that is nil leaves the
    zero time. *)
Definition sprintDates (attrs : option work.TeamIterationAttributes) : Time * Time :=
  match attrs with
  | None => (zeroTime, zeroTime)
  | Some a =>
      (match work.StartDate a with Some t => t | None => zeroTime end,
       match work.FinishDate a with Some t => t | None => zeroTime end)
  end.

(** The test of lines 245-246. *)
Definition currentCheck (now startDate endDate : Time) : bool :=
  if negb (IsZero startDate) && negb (IsZero endDate) then
    After now startDate && Before now endDate
  else false.

(** The sprint built from one iteration; [None] for the [continue] taken
    when the name is nil. *)
Definition toSprint (now : Time) (iteration : work.TeamSettingsIteration) : option Sprint :=
  match work.Name iteration with
  | None => None
  | Some name =>
      let '(startDate, endDate) := sprintDates (work.Attributes iteration) in
      Some (mkSprint name startDate endDate
              (match work.Attributes iteration with
               | None => false
               | Some _ => currentCheck now startDate endDate
               end))
  end.

(** The two variables the scan updates. *)
Record ScanState : Type := mkScan {
  allSprints : list Sprint;
  currentSprintIndex : Z
}.

(** One turn of [for i, iteration := range *iterations]. *)
Definition scanStep (now : Time) (st : ScanState) (i : Z)
    (iteration : work.TeamSettingsIteration) : ScanState :=
  match toSprint now iteration with
  | None => st
  | Some sprint =>
      mkScan (allSprints st ++ [sprint])
             (if IsCurrent sprint then i else currentSprintIndex st)
  end.

Fixpoint scanFrom (now : Time) (i : Z) (iterations : list work.TeamSettingsIteration)
    (st : ScanState) : ScanState :=
  match iterations with
  | [] => st
  | iteration :: rest => scanFrom now (i + 1) rest (scanStep now st i iteration)
  end.

Definition scan (now : Time) (iterations : list work.TeamSettingsIteration) : ScanState :=
  scanFrom now 0 iterations (mkScan [] (-1)).

(** Lines 256-275: the window around the current sprint, or the last seven. *)
Definition filterSprints (allSprints : list Sprint) (currentSprintIndex : Z)
    : result (list Sprint) :=
  if 0 <=? currentSprintIndex then
    let startIndex := currentSprintIndex - 3 in
    let startIndex := if startIndex <? 0 then 0 else startIndex in
    let endIndex := currentSprintIndex + 4 in
    let endIndex := if len allSprints <? endIndex then len allSprints else endIndex in
    slice allSprints startIndex endIndex
  else
    if 7 <? len allSprints
    then slice allSprints (len allSprints - 7) (len allSprints)
    else Ok allSprints.

(** The body of the handler after the iterations were fetched; the argument
    is the pointer [iterations], [None] when nil. *)
Definition sprintsHandler (iterations : option (list work.TeamSettingsIteration))
    (now : Time) : result (list Sprint) :=
  match iterations with
  | Some its =>
      if 0 <? len its then
        let st := scan now its in
        filterSprints (allSprints st) (currentSprintIndex st)
      else Ok []
  | None => Ok []
  end.

(** *** The scan, as the specification words it *)

(** Both dates are present and [now] lies strictly between them. *)
Definition strictlyInside (now : Time) (iteration : work.TeamSettingsIteration) : Prop :=
  exists a s e,
    work.Attributes iteration = Some a
    /\ work.StartDate a = Some s /\ work.FinishDate a = Some e
    /\ instant s <> 0 /\ instant e <> 0
    /\ instant s < instant now /\ instant now < instant e.

(** The iteration has a name and is marked current by the scan. *)
Definition marked (now : Time) (iteration : work.TeamSettingsIteration) : bool :=
  match toSprint now iteration with
  | Some sprint => IsCurrent sprint
  | None => false
  end.

(** The slice [s[max(0, i-3) : min(len, i+4)]] of the specification. *)
Definition windowAround {A} (s : list A) (i : Z) : list A :=
  firstn (Z.to_nat (Z.min (len s) (i + 4) - Z.max 0 (i - 3)))
         (skipn (Z.to_nat (Z.max 0 (i - 3))) s).

(** The reading of the specification: both dates are present and [now] lies
    in the half-open interval from the start, included, to the end,
    excluded. *)
Definition halfOpenInside (now : Time) (iteration : work.TeamSettingsIteration) : Prop :=
  exists a s e,
    work.Attributes iteration = Some a
    /\ work.StartDate a = Some s /\ work.FinishDate a = Some e
    /\ instant s <> 0 /\ instant e <> 0
    /\ instant s <= instant now /\ instant now < instant e.

(** *** Iterations for the examples *)

Definition datedIteration (name : option string) (startDate finishDate : Time)
    : work.TeamSettingsIteration :=
  work.mkIteration name None
    (Some (work.mkAttributes (Some startDate) (Some finishDate))).

Definition undatedIteration (name : option string) : work.TeamSettingsIteration :=
  work.mkIteration name None None.

(** Ten named iterations; the ranges of [S1], [S5] and [S6] overlap. *)
Definition overlappingIterations : list work.TeamSettingsIteration :=
  [ undatedIteration (Some "S0");
    datedIteration (Some "S1") (day 2024 5 1) (day 2024 7 1);
    undatedIteration (Some "S2");
    undatedIteration (Some "S3");
    undatedIteration (Some "S4");
    datedIteration (Some "S5") (day 2024 6 1) (day 2024 6 15);
    datedIteration (Some "S6") (day 2024 6 8) (day 2024 6 22);
    undatedIteration (Some "S7");
    undatedIteration (Some "S8");
    undatedIteration (Some "S9") ]%string.

(** Noon of 2024-06-10, UTC. *)
Definition noon_2024_06_10 : Time := Date 2024 6 10 12 0 0 0 0.

(** Nameless iterations in front of the only named one, which is current at
    [noon_2024_06_10]. *)
Definition namelessThenCurrent (n : nat) : list work.TeamSettingsIteration :=
  replicate n (undatedIteration None)
  ++ [datedIteration (Some "Sprint 1"%string) (day 2024 6 3) (day 2024 6 17)].

(** ** The [/developers] handler: capacity aggregation *)

(** The conversion [float64(n)] of an [int]; the counts converted here are
    far below 2^63. *)
Definition float64_of_int (n : Z) : float :=
  if n <? 0 then PrimFloat.opp (PrimFloat.of_uint63 (Uint63.of_Z (- n)))
  else PrimFloat.of_uint63 (Uint63.of_Z n).

Module Capacity.

(** The anonymous struct of the field [Activities]. *)
Record Activity : Type := mkActivity { CapacityPerDay : float; Name : string }.

Record TeamMemberCapacity : Type := mkCapacity {
  Activities : list Activity;
  DaysOff : list DayOff
}.

End Capacity.

Module Dev.

Record Developer : Type := mkDeveloper {
  Name : string;
  Email : string;
  Tasks : Z;
  CapacityPerDay : float;
  TotalCapacity : float;
  DaysOff : Z
}.

End Dev.

Module Response.

Record DevelopersResponse : Type := mkResponse {
  Developers : list Dev.Developer;
  SprintStart : Time;
  SprintEnd : Time;
  TotalCapacity : float;
  TotalDaysOff : Z;
  WorkingDays : Z
}.

End Response.

(** Lines 563-571: the range of the sprint that was asked for. *)
Definition sprintRange (targetIteration : work.TeamSettingsIteration) : Time * Time :=
  match work.Attributes targetIteration with
  | None => (zeroTime, zeroTime)
  | Some attrs =>
      (match work.StartDate attrs with Some t => t | None => zeroTime end,
       match work.FinishDate attrs with Some t => t | None => zeroTime end)
  end.

(** Lines 664-675, one task: [assignedTo] is the value of the field
    [System.AssignedTo].  The map holds pointers in the source and each
    pointer is reachable through its key only. *)
Definition countTask (devMap : gmap string Dev.Developer) (assignedTo : string)
    : gmap string Dev.Developer :=
  if decide (assignedTo = ""%string) then devMap
  else
    match devMap !! assignedTo with
    | Some dev =>
        <[assignedTo :=
            Dev.mkDeveloper (Dev.Name dev) (Dev.Email dev) (Dev.Tasks dev + 1)
              (Dev.CapacityPerDay dev) (Dev.TotalCapacity dev) (Dev.DaysOff dev)]> devMap
    | None =>
        <[assignedTo := Dev.mkDeveloper assignedTo "" 1 0 0 0]> devMap
    end.

Definition countTasks (assigned : list string) : gmap string Dev.Developer :=
  foldl countTask ∅ assigned.

(** Lines 685-696. *)
Definition defaultCapacity : Capacity.TeamMemberCapacity :=
  Capacity.mkCapacity [Capacity.mkActivity 8 "Desenvolvimento"] [].

(** Lines 681-697: [for _, dev := range devMap]; [order] is the order in
    which this [range] yields the entries, which Go leaves unspecified. *)
Definition setDefaultCapacities (order : list (string * Dev.Developer))
    : gmap string Capacity.TeamMemberCapacity :=
  foldl (fun devCapacities entry => <[Dev.Name entry.2 := defaultCapacity]> devCapacities)
        ∅ order.

(** Lines 715-717. *)
Definition sumCapacityPerDay (activities : list Capacity.Activity) : float :=
  foldl (fun acc activity => PrimFloat.add acc (Capacity.CapacityPerDay activity))
        0%float activities.

(** The daily capacity as the specification words it, the sum of the
    per-day allocations of the activities: the sum of the first [n] terms
    of a sequence is 0 for [n = 0] and otherwise the sum of the terms
    before the last plus the last.  The terms are [float64] values, whose
    addition rounds, so the order of the terms is part of the sum. *)
Fixpoint specSumOfFirst (n : nat) (term : nat -> float) : float :=
  match n with
  | O => 0%float
  | S k => PrimFloat.add (specSumOfFirst k term) (term k)
  end.

Definition specDailyCapacityHours (activities : list Capacity.Activity) : float :=
  specSumOfFirst (length activities)
    (fun i => nth i (map Capacity.CapacityPerDay activities) 0%float).

(** Lines 708-727: the entry computed for one developer. *)
Definition developerOf (sprintStart sprintEnd : Time)
    (devCapacities : gmap string Capacity.TeamMemberCapacity) (dev : Dev.Developer)
    : Dev.Developer :=
  match devCapacities !! Dev.Name dev with
  | Some capacity =>
      let capacityPerDay := sumCapacityPerDay (Capacity.Activities capacity) in
      let workingDays := calculateWorkingDays sprintStart sprintEnd (Capacity.DaysOff capacity) in
      Dev.mkDeveloper (Dev.Name dev) "" (Dev.Tasks dev) capacityPerDay
        (PrimFloat.mul (float64_of_int workingDays) capacityPerDay)
        (len (Capacity.DaysOff capacity))
  | None => Dev.mkDeveloper (Dev.Name dev) "" (Dev.Tasks dev) 0 0 0
  end.

(** The variables the second loop updates. *)
Record Aggregate : Type := mkAggregate {
  developers : list Dev.Developer;
  totalDaysOff : Z;
  totalCapacity : float
}.

(** Lines 707-730, one turn.  A developer without capacity adds nothing to
    the totals. *)
Definition aggregateStep (sprintStart sprintEnd : Time)
    (devCapacities : gmap string Capacity.TeamMemberCapacity)
    (st : Aggregate) (entry : string * Dev.Developer) : Aggregate :=
  let developer := developerOf sprintStart sprintEnd devCapacities entry.2 in
  match devCapacities !! Dev.Name entry.2 with
  | Some _ =>
      mkAggregate (developers st ++ [developer])
        (totalDaysOff st + Dev.DaysOff developer)
        (PrimFloat.add (totalCapacity st) (Dev.TotalCapacity developer))
  | None => mkAggregate (developers st ++ [developer]) (totalDaysOff st) (totalCapacity st)
  end.

(** [sort.Slice] with the comparison of line 734, bytewise [<] on the
    names, as an insertion sort. *)
Fixpoint insertByName (d : Dev.Developer) (sorted : list Dev.Developer)
    : list Dev.Developer :=
  match sorted with
  | [] => [d]
  | x :: rest =>
      if String.ltb (Dev.Name d) (Dev.Name x) then d :: sorted
      else x :: insertByName d rest
  end.

Definition sortByName (l : list Dev.Developer) : list Dev.Developer :=
  foldr insertByName [] l.

(** Lines 680-740 for a given [devMap]; [order1] and [order2] are the
    orders in which the two [range devMap] loops yield its entries. *)
Definition developersResponse (sprintStart sprintEnd : Time)
    (order1 order2 : list (string * Dev.Developer)) : Response.DevelopersResponse :=
  let devCapacities := setDefaultCapacities order1 in
  let st := foldl (aggregateStep sprintStart sprintEnd devCapacities)
                  (mkAggregate [] 0 0%float) order2 in
  Response.mkResponse (sortByName (developers st)) sprintStart sprintEnd
    (totalCapacity st) (totalDaysOff st)
    (calculateWorkingDays sprintStart sprintEnd []).

(** Lines 562-571 and 680-742: the handler, from the iteration found for
    the sprint name on. *)
Definition developersHandler (targetIteration : work.TeamSettingsIteration)
    (order1 order2 : list (string * Dev.Developer)) : Response.DevelopersResponse :=
  developersResponse (sprintRange targetIteration).1 (sprintRange targetIteration).2
    order1 order2.

(** [order] is a possible iteration order of [devMap]. *)
Definition iterationOrder (devMap : gmap string Dev.Developer)
    (order : list (string * Dev.Developer)) : Prop :=
  order ≡ₚ map_to_list devMap.

(** *** Developers for the examples *)

Definition ana (tasks : Z) : string * Dev.Developer :=
  ("Ana"%string, Dev.mkDeveloper "Ana" "" tasks 0 0 0).

Definition bia (tasks : Z) : string * Dev.Developer :=
  ("Bia"%string, Dev.mkDeveloper "Bia" "" tasks 0 0 0).

(** A configuration of two activities, of 4.5 and 3 hours a day, with one
    interval off of two working days. *)
Definition twoActivitiesOfAna : Capacity.TeamMemberCapacity :=
  Capacity.mkCapacity
    [Capacity.mkActivity 4.5 "Desenvolvimento"; Capacity.mkActivity 3 "Suporte"]
    [mkDayOff (day 2024 6 10) (day 2024 6 11)].

Definition twoActivities : gmap string Capacity.TeamMemberCapacity :=
  {[ "Ana"%string := twoActivitiesOfAna ]}.

(** An iteration whose finish date is missing. *)
Definition openEndedIteration : work.TeamSettingsIteration :=
  work.mkIteration (Some "Sprint 1"%string) None
    (Some (work.mkAttributes (Some (day 2024 6 3)) None)).

(** ** [time.Parse], for the layouts of [parseDate]

    The layout elements that occur in the layouts of [parseDate] are
    modelled after the library ([format.go], Go 1.21): the tokeniser
    [nextStdChunk], the helpers [getnum], [skip], [lookup] and the loop of
    [parse]; a parse error of any kind is [None].  Elements that none of
    those layouts uses (Jan, Mon, MST, 03, PM, fractional seconds in the
    layout, day of year, ...) are not recognised by this tokeniser. *)

Module TimeParse.

Local Open Scope string_scope.
Local Open Scope Z_scope.

Inductive chunk : Type :=
  | stdLongYear          (* "2006" *)
  | stdZeroMonth         (* "01" *)
  | stdNumMonth          (* "1" *)
  | stdLongMonth         (* "January" *)
  | stdZeroDay           (* "02" *)
  | stdDay               (* "2" *)
  | stdHour              (* "15" *)
  | stdZeroMinute        (* "04" *)
  | stdZeroSecond        (* "05" *)
  | stdNumColonTZ        (* "-07:00" *)
  | stdISO8601ColonTZ    (* "Z07:00" *)
  | literal (prefix : string).

(** The layout element that starts at the head of [layout], with its
    length. *)
Definition stdAt (layout : string) : option (chunk * nat) :=
  if String.prefix "January" layout then Some (stdLongMonth, 7%nat)
  else if String.prefix "01" layout then Some (stdZeroMonth, 2%nat)
  else if String.prefix "02" layout then Some (stdZeroDay, 2%nat)
  else if String.prefix "04" layout then Some (stdZeroMinute, 2%nat)
  else if String.prefix "05" layout then Some (stdZeroSecond, 2%nat)
  else if String.prefix "15" layout then Some (stdHour, 2%nat)
  else if String.prefix "1" layout then Some (stdNumMonth, 1%nat)
  else if String.prefix "2006" layout then Some (stdLongYear, 4%nat)
  else if String.prefix "2" layout then Some (stdDay, 1%nat)
  else if String.prefix "-07:00:00" layout then None
  else if String.prefix "-07:00" layout then Some (stdNumColonTZ, 6%nat)
  else if String.prefix "Z07:00:00" layout then None
  else if String.prefix "Z07:00" layout then Some (stdISO8601ColonTZ, 6%nat)
  else None.

Definition flush (pending : string) : list chunk :=
  match pending with
  | EmptyString => []
  | _ => [literal pending]
  end.

(** The successive calls of [nextStdChunk]: [pending] is the literal text
    read since the last element, [inside] the number of characters of the
    current element that are still to be passed. *)
Fixpoint chunksFrom (inside : nat) (pending : string) (layout : string) : list chunk :=
  match layout with
  | EmptyString => flush pending
  | String c rest =>
      match inside with
      | S n => chunksFrom n pending rest
      | O =>
          match stdAt layout with
          | Some (std, n) => flush pending ++ std :: chunksFrom (Nat.pred n) EmptyString rest
          | None => chunksFrom O (pending ++ String c EmptyString) rest
          end
      end
  end.

Definition layoutChunks (layout : string) : list chunk := chunksFrom O EmptyString layout.

(** The variables of [parse]. *)
Record fields : Type := mkFields {
  year : Z; month : Z; day : Z;
  hour : Z; min : Z; sec : Z; nsec : Z;
  zUTC : bool;          (* [z != nil]; the only location set is UTC *)
  zoneOffset : Z
}.

Definition initialFields : fields := mkFields 0 (-1) (-1) 0 0 0 0 false (-1).

Definition isDigit (c : ascii) : bool :=
  ((48 <=? N_of_ascii c) && (N_of_ascii c <=? 57))%N.

Definition digit (c : ascii) : Z := Z.of_N (N_of_ascii c) - 48.

(** [getnum(s, fixed)]: one or two digits, two when [fixed]. *)
Definition getnum (s : string) (fixed : bool) : option (Z * string) :=
  match s with
  | String c0 rest0 =>
      if isDigit c0 then
        match rest0 with
        | String c1 rest1 =>
            if isDigit c1 then Some (digit c0 * 10 + digit c1, rest1)
            else if fixed then None else Some (digit c0, rest0)
        | EmptyString => if fixed then None else Some (digit c0, rest0)
        end
      else None
  | EmptyString => None
  end.

(** The case [stdLongYear]: four digits. *)
Definition getyear (value : string) : option (Z * string) :=
  match value with
  | String a (String b (String c (String d rest))) =>
      if isDigit a && isDigit b && isDigit c && isDigit d
      then Some (digit a * 1000 + digit b * 100 + digit c * 10 + digit d, rest)
      else None
  | _ => None
  end.

Fixpoint cutspace (s : string) : string :=
  match s with
  | String c rest => if Ascii.eqb c " " then cutspace rest else s
  | EmptyString => s
  end.

(** [skip(value, prefix)].  [spaces] is set while the run of spaces of
    [prefix] that [cutspace(prefix)] removes at once is being passed. *)
Fixpoint skipFrom (spaces : bool) (prefix value : string) : option string :=
  match prefix with
  | EmptyString => Some value
  | String p prefix' =>
      if Ascii.eqb p " " then
        if spaces then skipFrom true prefix' value
        else
          match value with
          | EmptyString => skipFrom true prefix' value
          | String v _ =>
              if Ascii.eqb v " " then skipFrom true prefix' (cutspace value) else None
          end
      else
        match value with
        | EmptyString => None
        | String v value' => if Ascii.eqb v p then skipFrom false prefix' value' else None
        end
  end.

Definition skip (value prefix : string) : option string := skipFrom false prefix value.

Definition longMonthNames : list string :=
  ["January"; "February"; "March"; "April"; "May"; "June"; "July"; "August";
   "September"; "October"; "November"; "December"].

(** One character of [match]: equal, or equal letters up to case. *)
Definition matchChar (c1 c2 : ascii) : bool :=
  Ascii.eqb c1 c2
  || (let l1 := N.lor (N_of_ascii c1) 32 in
      let l2 := N.lor (N_of_ascii c2) 32 in
      (l1 =? l2) && (97 <=? l1) && (l1 <=? 122))%N.

(** [len(val) >= len(v) && match(val[0:len(v)], v)], with the rest of
    [val]. *)
Fixpoint matchName (v val : string) : option string :=
  match v with
  | EmptyString => Some val
  | String c2 v' =>
      match val with
      | EmptyString => None
      | String c1 val' => if matchChar c1 c2 then matchName v' val' else None
      end
  end.

Fixpoint lookupFrom (i : Z) (tab : list string) (val : string) : option (Z * string) :=
  match tab with
  | [] => None
  | v :: tab' =>
      match matchName v val with
      | Some rest => Some (i, rest)
      | None => lookupFrom (i + 1) tab' val
      end
  end.

Definition lookup (tab : list string) (val : string) : option (Z * string) :=
  lookupFrom 0 tab val.

Definition commaOrPeriod (c : ascii) : bool := Ascii.eqb c "." || Ascii.eqb c ",".

(** The digits at the head of [s] and what follows them. *)
Fixpoint spanDigits (s : string) : list Z * string :=
  match s with
  | String c rest =>
      if isDigit c then let '(ds, rest') := spanDigits rest in (digit c :: ds, rest')
      else ([], s)
  | EmptyString => ([], s)
  end.

(** [parseNanoseconds]: the first nine digits of the fraction, scaled to
    nanoseconds. *)
Definition nanoseconds (ds : list Z) : Z :=
  let kept := firstn 9 ds in
  fold_left (fun acc d => acc * 10 + d) kept 0 * 10 ^ (9 - Z.of_nat (length kept)).

(** A fraction of a second in the input that the layout does not have:
    its nanoseconds and the rest of the input, [None] when the input does
    not go on with a fraction. *)
Definition fraction (value : string) : option (Z * string) :=
  match value with
  | String c0 (String c1 rest) =>
      if commaOrPeriod c0 && isDigit c1
      then let '(ds, rest') := spanDigits (String c1 rest) in Some (nanoseconds ds, rest')
      else None
  | _ => None
  end.

(** An offset written as sign, two digits, colon, two digits. *)
Definition getoffset (value : string) : option (Z * string) :=
  match value with
  | String sign (String h0 (String h1 (String colon (String m0 (String m1 rest))))) =>
      if Ascii.eqb colon ":" then
        match getnum (String h0 (String h1 EmptyString)) true,
              getnum (String m0 (String m1 EmptyString)) true with
        | Some (hr, _), Some (mm, _) =>
            if (24 <? hr) || (60 <? mm) then None
            else if Ascii.eqb sign "+" then Some ((hr * 60 + mm) * 60, rest)
            else if Ascii.eqb sign "-" then Some (- ((hr * 60 + mm) * 60), rest)
            else None
        | _, _ => None
        end
      else None
  | _ => None
  end.

Definition withZone (f : fields) (utc : bool) (offset : Z) : fields :=
  mkFields (year f) (month f) (day f) (hour f) (min f) (sec f) (nsec f) utc offset.

(** One turn of the loop of [parse] after [nextStdChunk]. *)
Definition parseChunk (c : chunk) (value : string) (f : fields) : option (fields * string) :=
  match c with
  | literal prefix =>
      match skip value prefix with
      | Some value' => Some (f, value')
      | None => None
      end
  | stdLongYear =>
      match getyear value with
      | Some (y, value') =>
          Some (mkFields y (month f) (day f) (hour f) (min f) (sec f) (nsec f)
                  (zUTC f) (zoneOffset f), value')
      | None => None
      end
  | stdZeroMonth | stdNumMonth =>
      match getnum value (match c with stdZeroMonth => true | _ => false end) with
      | Some (m, value') =>
          if (m <=? 0) || (12 <? m) then None
          else Some (mkFields (year f) m (day f) (hour f) (min f) (sec f) (nsec f)
                       (zUTC f) (zoneOffset f), value')
      | None => None
      end
  | stdLongMonth =>
      match lookup longMonthNames value with
      | Some (m, value') =>
          Some (mkFields (year f) (m + 1) (day f) (hour f) (min f) (sec f) (nsec f)
                  (zUTC f) (zoneOffset f), value')
      | None => None
      end
  | stdZeroDay | stdDay =>
      match getnum value (match c with stdZeroDay => true | _ => false end) with
      | Some (d, value') =>
          Some (mkFields (year f) (month f) d (hour f) (min f) (sec f) (nsec f)
                  (zUTC f) (zoneOffset f), value')
      | None => None
      end
  | stdHour =>
      match getnum value false with
      | Some (h, value') =>
          if (h <? 0) || (24 <=? h) then None
          else Some (mkFields (year f) (month f) (day f) h (min f) (sec f) (nsec f)
                       (zUTC f) (zoneOffset f), value')
      | None => None
      end
  | stdZeroMinute =>
      match getnum value true with
      | Some (m, value') =>
          if (m <? 0) || (60 <=? m) then None
          else Some (mkFields (year f) (month f) (day f) (hour f) m (sec f) (nsec f)
                       (zUTC f) (zoneOffset f), value')
      | None => None
      end
  | stdZeroSecond =>
      match getnum value true with
      | Some (s, value') =>
          if (s <? 0) || (60 <=? s) then None
          else
            match fraction value' with
            | Some (ns, value'') =>
                Some (mkFields (year f) (month f) (day f) (hour f) (min f) s ns
                        (zUTC f) (zoneOffset f), value'')
            | None =>
                Some (mkFields (year f) (month f) (day f) (hour f) (min f) s (nsec f)
                        (zUTC f) (zoneOffset f), value')
            end
      | None => None
      end
  | stdNumColonTZ =>
      match getoffset value with
      | Some (offset, value') => Some (withZone f (zUTC f) offset, value')
      | None => None
      end
  | stdISO8601ColonTZ =>
      match value with
      | String c value' =>
          if Ascii.eqb c "Z" then Some (withZone f true (zoneOffset f), value')
          else
            match getoffset value with
            | Some (offset, value') => Some (withZone f (zUTC f) offset, value')
            | None => None
            end
      | EmptyString => None
      end
  end.

Fixpoint parseChunks (chunks : list chunk) (value : string) (f : fields)
    : option (fields * string) :=
  match chunks with
  | [] => Some (f, value)
  | c :: rest =>
      match parseChunk c value f with
      | Some (f', value') => parseChunks rest value' f'
      | None => None
      end
  end.

(** The end of [parse]: the day of the month is validated, then the time is
    built in UTC, or at the offset that was read.  For an offset that was
    read the library gives the time the location [time.Local] when that
    has the same offset at the instant, and a fixed zone otherwise; the
    instant and the offset at it are the same in both cases, and the fixed
    zone is kept here.  [main.go] encodes a parsed time and does not call
    [Add] on it. *)
Definition finish (f : fields) : option Time :=
  let month := if month f <? 0 then 1 else month f in
  let day := if day f <? 0 then 1 else day f in
  if (day <? 1) || (daysIn month (year f) <? day) then None
  else if zUTC f then Some (Date (year f) month day (hour f) (min f) (sec f) (nsec f) 0)
  else if negb (zoneOffset f =? -1)
  then Some (Date (year f) month day (hour f) (min f) (sec f) (nsec f) (zoneOffset f))
  else Some (Date (year f) month day (hour f) (min f) (sec f) (nsec f) 0).

Definition parse (chunks : list chunk) (value : string) : option Time :=
  match parseChunks chunks value initialFields with
  | Some (f, EmptyString) => finish f
  | _ => None
  end.

(** [time.Parse(layout, value)]. *)
Definition Parse (layout value : string) : option Time :=
  parse (layoutChunks layout) value.

Definition RFC3339 : string := "2006-01-02T15:04:05Z07:00".

End TimeParse.

(** ** [parseDate] *)

(** Lines 125-135. *)
Definition layouts : list string :=
  [ "2006-01-02T15:04:05Z";
    "2006-01-02T15:04:05";
    "2006-01-02T15:04:05-07:00";
    "2006-01-02";
    "02/01/2006 15:04";
    "02/01/2006";
    "1/2/2006";
    "January 2, 2006";
    "2006/01/02" ]%string.

(** Lines 137-142: the first layout that parses. *)
Fixpoint tryLayouts (layouts : list string) (dateStr : string) : option Time :=
  match layouts with
  | [] => None
  | layout :: rest =>
      match TimeParse.Parse layout dateStr with
      | Some t => Some t
      | None => tryLayouts rest dateStr
      end
  end.

(** The error of line 149. *)
Definition unrecognized (dateStr : string) : string :=
  ("formato de data não reconhecido: " ++ dateStr)%string.

(** [parseDate] over a given list of layouts; the result is the pair of
    the source, the error being [None] for nil. *)
Definition parseDateWith (layouts : list string) (dateStr : string)
    : Time * option string :=
  match tryLayouts layouts dateStr with
  | Some t => (t, None)
  | None =>
      match TimeParse.Parse TimeParse.RFC3339 dateStr with
      | Some t => (t, None)
      | None => (zeroTime, Some (unrecognized dateStr))
      end
  end.

Definition parseDate (dateStr : string) : Time * option string :=
  parseDateWith layouts dateStr.

(** The layouts with "1/2/2006" moved in front of "02/01/2006". *)
Definition layoutsMonthFirst : list string :=
  [ "2006-01-02T15:04:05Z";
    "2006-01-02T15:04:05";
    "2006-01-02T15:04:05-07:00";
    "2006-01-02";
    "02/01/2006 15:04";
    "1/2/2006";
    "02/01/2006";
    "January 2, 2006";
    "2006/01/02" ]%string.

(** *** Pieces of the tokenised layouts *)

Definition dateChunks : list TimeParse.chunk :=
  [ TimeParse.stdLongYear; TimeParse.literal "-"; TimeParse.stdZeroMonth;
    TimeParse.literal "-"; TimeParse.stdZeroDay ].

Definition clockChunks : list TimeParse.chunk :=
  [ TimeParse.literal "T"; TimeParse.stdHour; TimeParse.literal ":";
    TimeParse.stdZeroMinute; TimeParse.literal ":"; TimeParse.stdZeroSecond ].

Definition dayFirstChunks : list TimeParse.chunk :=
  [ TimeParse.stdZeroDay; TimeParse.literal "/"; TimeParse.stdZeroMonth;
    TimeParse.literal "/"; TimeParse.stdLongYear ].

Definition monthFirstChunks : list TimeParse.chunk :=
  [ TimeParse.stdNumMonth; TimeParse.literal "/"; TimeParse.stdDay;
    TimeParse.literal "/"; TimeParse.stdLongYear ].

(** The elements that leave the time zone alone. *)
Definition zoneFree (c : TimeParse.chunk) : bool :=
  match c with
  | TimeParse.stdNumColonTZ | TimeParse.stdISO8601ColonTZ => false
  | _ => true
  end.

(** What the head of an input looks like; it tells the layouts apart. *)
Inductive shape : Type :=
  | YearDash | YearSlash | TwoDigitsSlash | DigitSlash | NoDigit | OtherShape.

Definition shapeOf (s : string) : shape :=
  match s with
  | String a rest1 =>
      if TimeParse.isDigit a then
        match rest1 with
        | String b rest2 =>
            if Ascii.eqb b "/" then DigitSlash
            else if TimeParse.isDigit b then
              match rest2 with
              | String c rest3 =>
                  if Ascii.eqb c "/" then TwoDigitsSlash
                  else if TimeParse.isDigit c then
                    match rest3 with
                    | String d (String e _) =>
                        if TimeParse.isDigit d then
                          if Ascii.eqb e "-" then YearDash
                          else if Ascii.eqb e "/" then YearSlash
                          else OtherShape
                        else OtherShape
                    | _ => OtherShape
                    end
                  else OtherShape
              | EmptyString => OtherShape
              end
            else OtherShape
        | EmptyString => OtherShape
        end
      else NoDigit
  | EmptyString => OtherShape
  end.

(** The shapes of the inputs that a layout of [layouts] can accept. *)
Definition layoutShapes (layout : string) : list shape :=
  if String.prefix "2006-" layout then [YearDash]
  else if String.prefix "2006/" layout then [YearSlash]
  else if String.prefix "02/" layout then [TwoDigitsSlash]
  else if String.prefix "1/" layout then [DigitSlash; TwoDigitsSlash]
  else [NoDigit].

From Stdlib Require Import Sorted.

(** ** Further parts of the [/developers] and [/user-stories] handlers *)

(** Lines 549-555 (the same loop is at lines 318-324): the search for the
    iteration called [sprintName].  [iterations] is the pointer returned by
    the client, [None] when nil; [*iterations] and [*iteration.Name] are
    dereferenced without a test. *)
Fixpoint findByName (iterations : list work.TeamSettingsIteration) (sprintName : string)
    : result (option work.TeamSettingsIteration) :=
  match iterations with
  | [] => Ok None
  | iteration :: rest =>
      match work.Name iteration with
      | None => Panic "invalid memory address or nil pointer dereference"
      | Some name =>
          if String.eqb name sprintName then Ok (Some iteration)
          else findByName rest sprintName
      end
  end.

Definition findIteration (iterations : option (list work.TeamSettingsIteration))
    (sprintName : string) : result (option work.TeamSettingsIteration) :=
  match iterations with
  | None => Panic "invalid memory address or nil pointer dereference"
  | Some its => findByName its sprintName
  end.

(** The iterations that the search passes over: named, with another
    name. *)
Definition otherName (sprintName : string) (iteration : work.TeamSettingsIteration)
    : Prop :=
  exists name, work.Name iteration = Some name /\ name <> sprintName.

(** The sum of the task counts of a list of developers. *)
Definition totalTasks (developers : list Dev.Developer) : Z :=
  fold_right (fun d acc => Dev.Tasks d + acc) 0 developers.

(** The comparison of line 734. *)
Definition nameBefore (a b : Dev.Developer) : Prop :=
  String.ltb (Dev.Name a) (Dev.Name b) = true.

(** The assignees that are counted: the non-empty ones. *)
Definition assignees (assigned : list string) : list string :=
  List.filter (fun assignedTo => negb (String.eqb assignedTo "")) assigned.

(** The sum of the task counts of the entries of the map. *)
Definition entryTasks (entries : list (string * Dev.Developer)) : Z :=
  totalTasks (snd <$> entries).


(** *** [getFieldValue] and the [/user-stories] loop *)

Section Fields.

(** The values of the field map are of type [interface{}]: [asString] and
    [asMap] are the two type assertions that the code makes on them,
    [sprintV] is [fmt.Sprintf("%v", value)]. *)
Variable Value : Type.
Variable asString : Value -> option string.
Variable asMap : Value -> option (gmap string Value).
Variable sprintV : Value -> string.

(** Lines 77-101; [fields] is the pointer to the map, [None] when nil.  In
    the type switch the case [string] comes first. *)
Definition getFieldValue (fields : option (gmap string Value)) (fieldName : string)
    : string :=
  match fields with
  | None => ""
  | Some m =>
      match m !! fieldName with
      | Some value =>
          match asString value with
          | Some v => v
          | None =>
              match asMap value with
              | Some v =>
                  match v !! "displayName"%string ≫= asString with
                  | Some displayName => displayName
                  | None =>
                      match v !! "value"%string ≫= asString with
                      | Some val => val
                      | None => sprintV value
                      end
                  end
              | None => sprintV value
              end
          end
      | None => ""
      end
  end.

(** Lines 402-406. *)
Definition dateFields : list string :=
  [ "Microsoft.VSTS.Scheduling.DueDate";
    "Microsoft.VSTS.Scheduling.TargetDate";
    "Microsoft.VSTS.Common.DueDate" ]%string.

(** Lines 408-415: the value of [dueDateStr] when the loop is left. *)
Fixpoint firstDateText (fields : option (gmap string Value)) (names : list string)
    : string :=
  match names with
  | [] => ""
  | field :: rest =>
      let dueDateStr := getFieldValue fields field in
      if negb (String.eqb dueDateStr "") then dueDateStr
      else firstDateText fields rest
  end.

(** Lines 417-427: the field [DueDate] of the item, nil when there is no
    text or when [parseDate] fails. *)
Definition dueDateOf (fields : option (gmap string Value)) : option Time :=
  let dueDateStr := firstDateText fields dateFields in
  if negb (String.eqb dueDateStr "") then
    match parseDate dueDateStr with
    | (dueDate, None) => Some dueDate
    | (_, Some _) => None
    end
  else None.

(** A work item as the client returns it; [Id] and [Fields] are pointers. *)
Record WorkItemDetail : Type := mkDetail {
  Id : option Z;
  Fields : option (gmap string Value)
}.

End Fields.

Arguments mkDetail {_} _ _.
Arguments Id {_} _.
Arguments Fields {_} _.

Module Story.

(** [WorkItem] of [main.go]. *)
Record WorkItem : Type := mkWorkItem {
  ID : Z;
  Title : string;
  Type_ : string;
  State : string;
  DueDate : option Time
}.

End Story.

Section UserStories.

Variable Value : Type.
Variable asString : Value -> option string.
Variable asMap : Value -> option (gmap string Value).
Variable sprintV : Value -> string.

Definition isUserStory (detail : WorkItemDetail Value) : bool :=
  String.eqb (getFieldValue Value asString asMap sprintV (Fields detail)
                "System.WorkItemType")
             "User Story".

(** Lines 383-430, one work item: [None] when it is not a user story;
    [*detail.Id] panics on a nil pointer. *)
Definition userStoryOf (detail : WorkItemDetail Value)
    : result (option Story.WorkItem) :=
  let field := getFieldValue Value asString asMap sprintV (Fields detail) in
  let workItemType := field "System.WorkItemType"%string in
  if String.eqb workItemType "User Story" then
    match Id detail with
    | None => Panic "invalid memory address or nil pointer dereference"
    | Some id =>
        Ok (Some (Story.mkWorkItem id (field "System.Title"%string) workItemType
                    (field "System.State"%string)
                    (dueDateOf Value asString asMap sprintV (Fields detail))))
    end
  else Ok None.

(** Lines 360 and 382-431: the loop over the work items. *)
Fixpoint userStoriesFrom (details : list (WorkItemDetail Value))
    (result_ : list Story.WorkItem) : result (list Story.WorkItem) :=
  match details with
  | [] => Ok result_
  | detail :: rest =>
      match userStoryOf detail with
      | Panic msg => Panic msg
      | Ok None => userStoriesFrom rest result_
      | Ok (Some item) => userStoriesFrom rest (result_ ++ [item])
      end
  end.

Definition userStories (details : list (WorkItemDetail Value))
    : result (list Story.WorkItem) :=
  userStoriesFrom details [].

(** The identifier of a work item that is a user story. *)
Definition storyId (detail : WorkItemDetail Value) : option Z :=
  if isUserStory detail then Id detail else None.

End UserStories.

(** *** Date texts

    Numbers written with leading zeros, to state what [parseDate] returns
    on the usual forms of a date. *)

Definition digitChar (n : Z) : ascii := ascii_of_N (Z.to_N (48 + n)).

(** [n] in two digits, followed by [rest]. *)
Definition pad2 (n : Z) (rest : string) : string :=
  String (digitChar (n / 10)) (String (digitChar (n mod 10)) rest).

(** [n] in four digits, followed by [rest]. *)
Definition pad4 (n : Z) (rest : string) : string :=
  String (digitChar (n / 1000))
    (String (digitChar (n / 100 mod 10))
       (String (digitChar (n / 10 mod 10))
          (String (digitChar (n mod 10)) rest))).

(** "YYYY-MM-DD". *)
Definition isoDateText (y m d : Z) : string :=
  pad4 y (String "-" (pad2 m (String "-" (pad2 d EmptyString)))).

(** "YYYY-MM-DDTHH:MM:SSZ". *)
Definition isoUTCText (y m d h mi s : Z) : string :=
  pad4 y (String "-" (pad2 m (String "-" (pad2 d (String "T"
    (pad2 h (String ":" (pad2 mi (String ":" (pad2 s (String "Z" EmptyString))))))))))).

(** "AA/BB/YYYY". *)
Definition slashDateText (a b y : Z) : string :=
  pad2 a (String "/" (pad2 b (String "/" (pad4 y EmptyString)))).

(** The day [d] exists in month [m] of year [y]. *)
Definition validDate (y m d : Z) : bool :=
  (1 <=? m) && (m <=? 12) && (1 <=? d) && (d <=? daysIn m y).

(** "YYYY-MM-DDTHH:MM:SS+hh:mm", or with "-" when [east] is false. *)
Definition isoOffsetText (y m d h mi s : Z) (east : bool) (oh om : Z) : string :=
  pad4 y (String "-" (pad2 m (String "-" (pad2 d (String "T"
    (pad2 h (String ":" (pad2 mi (String ":" (pad2 s
       (String (if east then "+" else "-")%char
          (pad2 oh (String ":" (pad2 om EmptyString)))))))))))))).

(** The offset in seconds east of UTC that the text gives. *)
Definition offsetSeconds (east : bool) (oh om : Z) : Z :=
  if east then (oh * 60 + om) * 60 else - ((oh * 60 + om) * 60).

(** ** A location with daylight saving

    One hour east of UTC until 2024-03-31T01:00:00Z and two hours from then
    on, as the locations of central Europe are in that spring. *)
Definition springForward2024 : Location :=
  fun sec => if sec <? instant (Date 2024 3 31 1 0 0 0 0) / Second then 3600 else 7200.

(** Monday 25 March 2024 at 23:30 on the wall clock of that location. *)
Definition mondayBeforeClockChange : Time :=
  mkTime (instant (Date 2024 3 25 22 30 0 0 0)) springForward2024.


(** ** Properties of [calculateWorkingDays] *)

Section WorkingDays.

Implicit Types (start finish current d : Time) (daysOff : list DayOff) (x : DayOff).

Lemma day_positive : 0 < 24 * Hour.
Proof. reflexivity. Qed.

Lemma coversDay_within current x : coversDay current x = withinExclusion current x.
Proof.
  unfold coversDay, withinExclusion, Equal, After, Before.
  destruct (Z.eqb_spec (instant current) (instant (Start x)));
  destruct (Z.ltb_spec (instant (Start x)) (instant current));
  destruct (Z.leb_spec (instant (Start x)) (instant current));
  destruct (Z.eqb_spec (instant current) (instant (End x)));
  destruct (Z.ltb_spec (instant current) (instant (End x)));
  destruct (Z.leb_spec (instant current) (instant (End x)));
  simpl; try reflexivity; lia.
Qed.

Lemma isDayOff_existsb current daysOff :
  isDayOff current daysOff = existsb (withinExclusion current) daysOff.
Proof.
  induction daysOff as [|off rest IH]; simpl; [reflexivity|].
  rewrite coversDay_within, IH. destruct (withinExclusion current off); reflexivity.
Qed.

Lemma countDay_spec current daysOff acc :
  countDay current daysOff acc =
  acc + (if isWorkingDay daysOff current then 1 else 0).
Proof.
  unfold countDay, isWorkingDay. rewrite isDayOff_existsb.
  destruct (isWeekend current), (existsb _ daysOff); simpl; lia.
Qed.

Lemma loop_guard current finish :
  Before current finish || Equal current finish = (instant current <=? instant finish).
Proof.
  unfold Before, Equal.
  destruct (Z.ltb_spec (instant current) (instant finish));
  destruct (Z.eqb_spec (instant current) (instant finish));
  destruct (Z.leb_spec (instant current) (instant finish)); simpl; try reflexivity; lia.
Qed.

Lemma loopTurns_zero current finish :
  instant finish < instant current -> loopTurns current finish = O.
Proof.
  intros H. unfold loopTurns.
  destruct (Z.leb_spec (instant current) (instant finish)); [lia|reflexivity].
Qed.

Lemma loopTurns_step current finish :
  instant current <= instant finish ->
  loopTurns current finish = S (loopTurns (Add current (24 * Hour)) finish).
Proof.
  intros H. unfold loopTurns. simpl instant.
  pose proof day_positive as HD. set (D := 24 * Hour) in *.
  destruct (Z.leb_spec (instant current) (instant finish)); [|lia].
  destruct (Z.leb_spec (instant current + D) (instant finish)) as [Hle|Hgt].
  - replace (instant finish - instant current)
      with ((instant finish - (instant current + D)) + 1 * D) by lia.
    rewrite Z.div_add by lia.
    assert (0 <= (instant finish - (instant current + D)) / D)
      by (apply Z.div_pos; lia).
    rewrite <- Z2Nat.inj_succ by lia. f_equal; lia.
  - rewrite Z.div_small by lia. reflexivity.
Qed.

Lemma Add_Add current (a b : Z) : Add (Add current a) b = Add current (a + b).
Proof. unfold Add. simpl. f_equal. lia. Qed.

Lemma Add_zero current : Add current 0 = current.
Proof. destruct current. unfold Add. simpl. f_equal. lia. Qed.


Lemma daysFrom_S current n :
  daysFrom current (S n) = current :: daysFrom (Add current (24 * Hour)) n.
Proof.
  unfold daysFrom. simpl seq. rewrite map_cons. f_equal.
  - apply Add_zero.
  - rewrite <- seq_shift, map_map. apply map_ext. intros k.
    rewrite Add_Add. f_equal. lia.
Qed.


Lemma countWorking_cons daysOff d days :
  countWorking daysOff (d :: days) =
  (if isWorkingDay daysOff d then 1 else 0) + countWorking daysOff days.
Proof.
  unfold countWorking. simpl. destruct (isWorkingDay daysOff d); simpl length; lia.
Qed.

(** With at least [loopTurns] units of fuel the loop leaves, and its
    result is the accumulator plus the number of working days visited. *)
Lemma workingDaysLoop_enough daysOff finish n :
  forall current acc (fuel : nat),
    loopTurns current finish = n -> (n <= fuel)%nat ->
    workingDaysLoop fuel current finish daysOff acc =
    Some (acc + countWorking daysOff (daysFrom current n)).
Proof.
  induction n as [|n IH]; intros current acc fuel Hn Hfuel.
  - assert (Hlt : instant finish < instant current).
    { destruct (Z.lt_ge_cases (instant finish) (instant current)) as [|Hle]; [assumption|].
      rewrite (loopTurns_step _ _ Hle) in Hn. discriminate. }
    destruct fuel; simpl; rewrite loop_guard;
      (destruct (Z.leb_spec (instant current) (instant finish)); [lia|]);
      unfold countWorking; simpl; f_equal; lia.
  - assert (Hle : instant current <= instant finish).
    { destruct (Z.lt_ge_cases (instant finish) (instant current)) as [Hlt|]; [|assumption].
      rewrite (loopTurns_zero _ _ Hlt) in Hn. discriminate. }
    rewrite (loopTurns_step _ _ Hle) in Hn. injection Hn as Hn.
    destruct fuel as [|fuel]; [lia|].
    simpl. rewrite loop_guard.
    destruct (Z.leb_spec (instant current) (instant finish)); [|lia].
    rewrite (IH _ _ fuel Hn) by lia.
    rewrite daysFrom_S, countWorking_cons, countDay_spec. f_equal. lia.
Qed.

Lemma calculateWorkingDays_spec start finish daysOff :
  calculateWorkingDays start finish daysOff = visitedWorkingDays start finish daysOff.
Proof.
  unfold calculateWorkingDays.
  rewrite (workingDaysLoop_enough daysOff finish _ start 0 _ eq_refl) by lia.
  reflexivity.
Qed.

Lemma calculateWorkingDays_fuel start finish daysOff (fuel : nat) :
  (loopTurns start finish <= fuel)%nat ->
  workingDaysLoop fuel start finish daysOff 0 =
  Some (calculateWorkingDays start finish daysOff).
Proof.
  intros Hfuel. rewrite calculateWorkingDays_spec.
  rewrite (workingDaysLoop_enough daysOff finish _ start 0 fuel eq_refl Hfuel).
  reflexivity.
Qed.

Lemma turns_reach start finish (k : nat) :
  (k < loopTurns start finish)%nat <->
  instant start + Z.of_nat k * (24 * Hour) <= instant finish.
Proof.
  unfold loopTurns. pose proof day_positive as HD. set (D := 24 * Hour) in *.
  destruct (Z.leb_spec (instant start) (instant finish)) as [Hle|Hgt].
  - assert (Hq : 0 <= (instant finish - instant start) / D) by (apply Z.div_pos; lia).
    pose proof (Z.mul_div_le (instant finish - instant start) D HD) as Hlow.
    split; intros H.
    + assert (Z.of_nat k <= (instant finish - instant start) / D) by lia. nia.
    + assert (Z.of_nat k <= (instant finish - instant start) / D)
        by (apply Z.div_le_lower_bound; lia).
      lia.
  - split; intros H; [lia|]. nia.
Qed.

Lemma visitedDays_In start finish d :
  In d (visitedDays start finish) <->
  exists k : Z, 0 <= k /\ d = Add start (k * (24 * Hour)) /\ instant d <= instant finish.
Proof.
  unfold visitedDays. rewrite in_map_iff. split.
  - intros (k & <- & Hk). apply in_seq in Hk. exists (Z.of_nat k).
    split; [lia|]. split; [reflexivity|]. simpl. apply turns_reach. lia.
  - intros (k & Hk & -> & Hle). exists (Z.to_nat k).
    rewrite Z2Nat.id by lia. split; [reflexivity|].
    apply in_seq. split; [lia|]. simpl. apply turns_reach.
    rewrite Z2Nat.id by lia. exact Hle.
Qed.

Lemma visitedDays_NoDup start finish : List.NoDup (visitedDays start finish).
Proof.
  unfold visitedDays. apply Finite.Injective_map_NoDup_in; [|apply seq_NoDup].
  intros a b _ _ Heq. injection Heq as Heq. pose proof day_positive. nia.
Qed.

Lemma localDay_Add current (k : Z) :
  zoneOffset (Add current (k * (24 * Hour))) = zoneOffset current ->
  localDay (Add current (k * (24 * Hour))) = localDay current + k.
Proof.
  intros Hzone. unfold localDay, localSeconds. rewrite Hzone.
  unfold Add. simpl instant.
  replace (k * (24 * Hour)) with (k * 86400 * Second) by (unfold Hour, Minute; lia).
  rewrite Z.div_add by (compute; discriminate).
  replace (instant current / Second + k * 86400 + zoneOffset current)
    with (instant current / Second + zoneOffset current + k * secondsPerDay)
    by (unfold secondsPerDay; lia).
  rewrite Z.div_add by (compute; discriminate). reflexivity.
Qed.

(** The calendar day of the specification is the day number from which
    [Weekday] is computed. *)
Lemma specCalendarDay_localDay d : specCalendarDay d = localDay d.
Proof.
  unfold specCalendarDay, localDay, localSeconds, secondsPerDay.
  rewrite <- (Z.div_add (instant d) (zoneOffset d) Second) by (compute; discriminate).
  rewrite Z.div_div by (compute; try discriminate; reflexivity).
  reflexivity.
Qed.

(** [Weekday] gives Saturday or Sunday on the sixth and seventh of each
    seven days from 0001-01-01 on. *)
Lemma isWeekend_spec d : isWeekend d = specWeekend (specCalendarDay d).
Proof.
  rewrite specCalendarDay_localDay. unfold isWeekend, WeekdayOf, specWeekend.
  pose proof (Z.mod_pos_bound (localDay d) 7 eq_refl) as Hr.
  rewrite <- (Z.add_mod_idemp_l (localDay d) 1 7) by lia.
  set (r := localDay d mod 7) in *. clearbody r.
  assert (Hk : (Z.to_nat r < 7)%nat) by lia.
  rewrite <- (Z2Nat.id r) by lia. clear Hr.
  generalize dependent (Z.to_nat r). intros n Hn.
  do 7 (destruct n as [|n]; [reflexivity|]). lia.
Qed.

Lemma countedInstant_isWorkingDay daysOff d :
  countedInstant daysOff d = isWorkingDay daysOff d.
Proof.
  unfold countedInstant, isWorkingDay. rewrite <- isWeekend_spec. f_equal.
  unfold withinExclusion.
  induction daysOff as [|x rest IH]; [reflexivity|].
  cbn [forallb existsb]. rewrite IH, negb_orb. reflexivity.
Qed.

Lemma specCalendarDay_Add start (k : Z) :
  zoneOffset (Add start (k * (24 * Hour))) = zoneOffset start ->
  specCalendarDay (Add start (k * (24 * Hour))) = specCalendarDay start + k.
Proof. rewrite !specCalendarDay_localDay. apply localDay_Add. Qed.

(** The wall clock of a timestamp, cut into its day and its time of day. *)
Lemma wallClock_split d :
  instant d + zoneOffset d * Second =
  24 * Hour * specCalendarDay d + specTimeOfDay d
  /\ 0 <= specTimeOfDay d < 24 * Hour.
Proof.
  unfold specCalendarDay, specTimeOfDay. split.
  - apply Z.div_mod. compute. discriminate.
  - apply Z.mod_pos_bound. reflexivity.
Qed.

(** When [finish] is written at the offset of [start] and at a time of day
    that is not before that of [start], the loop takes one turn for each
    calendar day from that of [start] to that of [finish]. *)
Lemma loopTurns_aligned start finish :
  zoneOffset finish = zoneOffset start ->
  specTimeOfDay start <= specTimeOfDay finish ->
  instant start <= instant finish ->
  loopTurns start finish =
  Z.to_nat (specCalendarDay finish - specCalendarDay start + 1).
Proof.
  intros Hzone Htod Hle. unfold loopTurns.
  destruct (Z.leb_spec (instant start) (instant finish)); [|lia].
  destruct (wallClock_split start) as [Hs Hsr].
  destruct (wallClock_split finish) as [Hf Hfr].
  rewrite Hzone in Hf. do 2 f_equal. symmetry.
  apply (Z.div_unique_pos _ _ _ (specTimeOfDay finish - specTimeOfDay start)); lia.
Qed.

(** An exclusion interval written at the offset of [start], from a time
    of day that is not after that of [start] to one that is not before it,
    holds the instant visited on a day exactly when that day is one of its
    calendar days. *)
Lemma withinExclusion_aligned start x (k : Z) :
  zoneOffset (Start x) = zoneOffset start ->
  zoneOffset (End x) = zoneOffset start ->
  specTimeOfDay (Start x) <= specTimeOfDay start <= specTimeOfDay (End x) ->
  withinExclusion (Add start (k * (24 * Hour))) x =
  specExcluded (specCalendarDay start + k) x.
Proof.
  intros Hzs Hze Htod. unfold withinExclusion, specExcluded.
  destruct (wallClock_split start) as [Hs Hsr].
  destruct (wallClock_split (Start x)) as [Hxs Hxsr].
  destruct (wallClock_split (End x)) as [Hxe Hxer].
  rewrite Hzs in Hxs. rewrite Hze in Hxe. unfold Add. simpl instant.
  change (24 * Hour) with 86400000000000 in *.
  destruct (Z.leb_spec (instant (Start x)) (instant start + k * 86400000000000)),
    (Z.leb_spec (specCalendarDay (Start x)) (specCalendarDay start + k)),
    (Z.leb_spec (instant start + k * 86400000000000) (instant (End x))),
    (Z.leb_spec (specCalendarDay start + k) (specCalendarDay (End x)));
    simpl; try reflexivity; lia.
Qed.

Lemma filter_map_length {A B} (p : B -> bool) (f : A -> B) (l : list A) :
  length (List.filter p (map f l)) = length (List.filter (fun a => p (f a)) l).
Proof.
  induction l as [|a l IH]; [reflexivity|].
  cbn [map List.filter]. destruct (p (f a)); simpl; rewrite IH; reflexivity.
Qed.

Lemma filter_length_ext_in {A} (p q : A -> bool) (l : list A) :
  (forall a, In a l -> p a = q a) ->
  length (List.filter p l) = length (List.filter q l).
Proof.
  intros H. induction l as [|a l IH]; [reflexivity|].
  cbn [List.filter]. rewrite (H a) by (left; reflexivity).
  destruct (q a); simpl; rewrite IH; try reflexivity;
    intros b Hb; apply H; right; exact Hb.
Qed.

(** On aligned inputs the loop counts the calendar days of the
    specification. *)
Lemma calculateWorkingDays_aligned start finish daysOff :
  aligned start finish daysOff ->
  calculateWorkingDays start finish daysOff = specWorkingDays start finish daysOff.
Proof.
  intros (Hloc & Hzone & Htod & Hoff).
  rewrite calculateWorkingDays_spec. unfold visitedWorkingDays, specWorkingDays, specDays.
  destruct (Z.ltb_spec (instant finish) (instant start)) as [Hlt|Hle].
  { unfold visitedDays. rewrite (loopTurns_zero _ _ Hlt). reflexivity. }
  unfold visitedDays. rewrite <- (loopTurns_aligned start finish Hzone Htod Hle).
  rewrite !filter_map_length. f_equal. apply filter_length_ext_in.
  intros k Hk. apply in_seq in Hk.
  assert (Hreach : instant start + Z.of_nat k * (24 * Hour) <= instant finish)
    by (apply turns_reach; lia).
  pose proof (Hloc (Z.of_nat k) ltac:(lia) Hreach) as Hk0.
  unfold isWorkingDay, specCounted.
  rewrite isWeekend_spec, (specCalendarDay_Add _ _ Hk0). f_equal. f_equal.
  induction Hoff as [|x rest (Hzs & Hze & Hx) _ IH]; [reflexivity|].
  cbn [existsb]. rewrite IH.
  rewrite (withinExclusion_aligned start x (Z.of_nat k) Hzs Hze Hx). reflexivity.
Qed.

Lemma filter_length_le {A} (p q : A -> bool) (l : list A) :
  (forall a, p a = true -> q a = true) ->
  (length (List.filter p l) <= length (List.filter q l))%nat.
Proof.
  intros Hpq. induction l as [|a l IH]; simpl; [lia|].
  destruct (p a) eqn:Hp.
  - rewrite (Hpq a Hp). simpl. lia.
  - destruct (q a); simpl; lia.
Qed.

Lemma isWorkingDay_nil d : isWorkingDay [] d = negb (isWeekend d).
Proof. unfold isWorkingDay. simpl. apply andb_true_r. Qed.

Lemma isWorkingDay_app E x d :
  isWorkingDay (E ++ [x]) d = isWorkingDay E d && negb (withinExclusion d x).
Proof.
  unfold isWorkingDay. rewrite existsb_app. simpl. rewrite orb_false_r, negb_orb.
  apply andb_assoc.
Qed.

End WorkingDays.

(** *** The scenarios of the specification *)


Example weekday_of_zero_time : WeekdayOf zeroTime = Monday.
Proof. reflexivity. Qed.

Example weekday_2024_06_03 : WeekdayOf (day 2024 6 3) = Monday.
Proof. reflexivity. Qed.

Example scenario_two_weeks :
  calculateWorkingDays (day 2024 6 3) (day 2024 6 14) [] = 10.
Proof. vm_compute. reflexivity. Qed.

Example scenario_two_days_off :
  calculateWorkingDays (day 2024 6 3) (day 2024 6 14)
    [mkDayOff (day 2024 6 10) (day 2024 6 11)] = 8.
Proof. vm_compute. reflexivity. Qed.

Example scenario_single_day :
  calculateWorkingDays (day 2024 6 3) (day 2024 6 3) [] = 1
  /\ calculateWorkingDays (day 2024 6 8) (day 2024 6 8) [] = 0.
Proof. split; vm_compute; reflexivity. Qed.

(** A Saturday, a Sunday and a Monday of the calendar, as the
    specification numbers the days. *)
Example specWeekend_2024_06 :
  specWeekend (specCalendarDay (day 2024 6 7)) = false
  /\ specWeekend (specCalendarDay (day 2024 6 8)) = true
  /\ specWeekend (specCalendarDay (day 2024 6 9)) = true
  /\ specWeekend (specCalendarDay (day 2024 6 10)) = false.
Proof. repeat split; reflexivity. Qed.

(** C1 (corrected).  For all timestamps [start], [finish] and every list of
    exclusion intervals, the loop of [calculateWorkingDays] leaves (any fuel
    of at least [loopTurns] gives the same result) and the result is the
    number of instants [start], [start] plus 24 hours, [start] plus 48
    hours, ... that are not after [finish], whose calendar day in the
    location of [start] is neither a Saturday nor a Sunday, and which lie
    in no exclusion interval, the bounds included and compared as instants.
    When [start] is after [finish] the result is 0, and without exclusions
    it is the number of visited instants that fall on a weekday.  The
    result is the number of calendar days of the range that are no
    Saturday or Sunday and within no exclusion interval's days when the
    inputs are aligned:
    one offset over the range, [finish] at a time of day not before that
    of [start], each exclusion interval from a time of day not after that
    of [start] to one not before it. *)
Theorem calculateWorkingDays_counts_working_days
    (start finish : Time) (exclusions : list DayOff) :
  (forall fuel : nat, (loopTurns start finish <= fuel)%nat ->
     workingDaysLoop fuel start finish exclusions 0 =
     Some (calculateWorkingDays start finish exclusions))
  /\ calculateWorkingDays start finish exclusions =
     Z.of_nat (length (List.filter (countedInstant exclusions)
                         (visitedDays start finish)))
  /\ (forall d, In d (visitedDays start finish) <->
        exists k : Z, 0 <= k /\ d = Add start (k * (24 * Hour))
                      /\ instant d <= instant finish)
  /\ List.NoDup (visitedDays start finish)
  /\ (instant finish < instant start ->
      calculateWorkingDays start finish exclusions = 0)
  /\ calculateWorkingDays start finish [] =
     Z.of_nat (length (List.filter (fun d => negb (specWeekend (specCalendarDay d)))
                         (visitedDays start finish)))
  /\ (aligned start finish exclusions ->
      calculateWorkingDays start finish exclusions =
      specWorkingDays start finish exclusions).
Proof.
  split; [intros fuel; apply calculateWorkingDays_fuel|].
  split.
  { rewrite calculateWorkingDays_spec. unfold visitedWorkingDays. do 2 f_equal.
    apply List.filter_ext. intros d. symmetry. apply countedInstant_isWorkingDay. }
  split; [intros d; apply visitedDays_In|].
  split; [apply visitedDays_NoDup|].
  split.
  { intros Hlt. rewrite calculateWorkingDays_spec.
    unfold visitedWorkingDays, visitedDays. rewrite (loopTurns_zero _ _ Hlt). reflexivity. }
  split.
  - rewrite calculateWorkingDays_spec. unfold visitedWorkingDays.
    do 2 f_equal. apply List.filter_ext. intros d.
    rewrite isWorkingDay_nil, isWeekend_spec. reflexivity.
  - apply calculateWorkingDays_aligned.
Qed.

Lemma calculateWorkingDays_counts_working_days_witness :
  let start := Date 2024 6 3 8 0 0 0 0 in
  let finish := Date 2024 6 14 17 30 0 0 0 in
  let exclusions := [mkDayOff (day 2024 6 10) (Date 2024 6 11 23 59 59 0 0)] in
  workingDaysLoop 12 start finish exclusions 0 =
    Some (calculateWorkingDays start finish exclusions)
  /\ calculateWorkingDays finish start exclusions = 0
  /\ aligned start finish exclusions
  /\ calculateWorkingDays start finish exclusions = 8
  /\ specWorkingDays start finish exclusions = 8.
Proof.
  intros start finish exclusions.
  assert (Haligned : aligned start finish exclusions).
  { split; [intros k _ _; reflexivity|]. split; [reflexivity|].
    split; [vm_compute; discriminate|].
    constructor; [|constructor].
    split; [reflexivity|]. split; [reflexivity|].
    split; vm_compute; discriminate. }
  split; [|split; [|split; [exact Haligned|]]].
  - apply (proj1 (calculateWorkingDays_counts_working_days start finish exclusions)).
    vm_compute. apply le_n.
  - destruct (calculateWorkingDays_counts_working_days finish start exclusions)
      as (_ & _ & _ & _ & Hinverted & _).
    apply Hinverted. vm_compute. reflexivity.
  - destruct (calculateWorkingDays_counts_working_days start finish exclusions)
      as (_ & _ & _ & _ & _ & _ & Hdays).
    rewrite <- (Hdays Haligned). split; vm_compute; reflexivity.
Defined.

(** The range of the specification's scenario with [start] in the morning
    and [finish] at midnight: the calendar days from 3 to 14 June hold ten
    weekdays, but the last instant visited is 13 June at 08:00 and the
    result is 9.  With [start] and [finish] at 08:00 and the two days off
    of the scenario written at midnight, the second day off ends before
    the instant visited on that day: the specification counts 8 days, the
    code 9. *)
Lemma time_of_day_changes_the_count :
  let morning d := Date 2024 6 d 8 0 0 0 0 in
  specWorkingDays (morning 3) (day 2024 6 14) [] = 10
  /\ calculateWorkingDays (morning 3) (day 2024 6 14) [] = 9
  /\ specWorkingDays (morning 3) (morning 14)
       [mkDayOff (day 2024 6 10) (day 2024 6 11)] = 8
  /\ calculateWorkingDays (morning 3) (morning 14)
       [mkDayOff (day 2024 6 10) (day 2024 6 11)] = 9.
Proof. repeat split; vm_compute; reflexivity. Qed.

(** C9 (confirmed).  With [start] and [finish] fixed, appending an exclusion
    interval to the list never increases the count. *)
Theorem calculateWorkingDays_monotone
    (start finish : Time) (E : list DayOff) (x : DayOff) :
  calculateWorkingDays start finish (E ++ [x]) <= calculateWorkingDays start finish E.
Proof.
  rewrite !calculateWorkingDays_spec. unfold visitedWorkingDays.
  apply Nat2Z.inj_le, filter_length_le.
  intros d. rewrite isWorkingDay_app. intros H. apply andb_true_iff in H. apply H.
Qed.


(** ** Properties of the sprint scan and window *)

Section SprintScan.

Variable now : Time.

Implicit Types (iteration : work.TeamSettingsIteration)
               (iterations : list work.TeamSettingsIteration)
               (st : ScanState).

Lemma currentCheck_true startDate endDate :
  currentCheck now startDate endDate = true <->
  instant startDate <> 0 /\ instant endDate <> 0
  /\ instant startDate < instant now /\ instant now < instant endDate.
Proof.
  unfold currentCheck, IsZero, After, Before.
  destruct (Z.eqb_spec (instant startDate) 0), (Z.eqb_spec (instant endDate) 0);
    simpl; try (split; [discriminate|intros (? & ? & _); contradiction]).
  rewrite andb_true_iff, !Z.ltb_lt. tauto.
Qed.

Lemma toSprint_named iteration name :
  work.Name iteration = Some name ->
  exists sprint, toSprint now iteration = Some sprint /\ Name sprint = name
                 /\ (IsCurrent sprint = true <-> strictlyInside now iteration).
Proof.
  intros Hname. unfold toSprint, strictlyInside. rewrite Hname.
  destruct (work.Attributes iteration) as [a|] eqn:Ha; simpl.
  - eexists. split; [reflexivity|]. split; [reflexivity|]. simpl.
    rewrite currentCheck_true. split.
    + intros (Hs & He & Hlo & Hhi).
      destruct (work.StartDate a) as [s|] eqn:Es; [|simpl in Hs; contradiction].
      destruct (work.FinishDate a) as [e|] eqn:Ee; [|simpl in He; contradiction].
      exists a, s, e. auto 10.
    + intros (a' & s & e & Ea & Es & Ee & H). injection Ea as <-.
      rewrite Es, Ee. exact H.
  - eexists. split; [reflexivity|]. split; [reflexivity|]. simpl.
    split; [discriminate|]. intros (a & s & e & Ea & _). discriminate.
Qed.

Lemma toSprint_nameless iteration :
  work.Name iteration = None -> toSprint now iteration = None.
Proof. intros H. unfold toSprint. rewrite H. reflexivity. Qed.

Lemma marked_true iteration :
  marked now iteration = true <->
  work.Name iteration <> None /\ strictlyInside now iteration.
Proof.
  unfold marked. destruct (work.Name iteration) as [name|] eqn:Hname.
  - destruct (toSprint_named iteration name Hname) as (sprint & -> & _ & Hiff).
    rewrite Hiff. split; [intros H; split; [discriminate|exact H]|intros [_ H]; exact H].
  - rewrite (toSprint_nameless _ Hname). split; [discriminate|intros [H _]; contradiction].
Qed.

Lemma scanFrom_allSprints iterations : forall i st,
  allSprints (scanFrom now i iterations st) =
  allSprints st ++ omap (toSprint now) iterations.
Proof.
  induction iterations as [|iteration rest IH]; intros i st; simpl.
  - symmetry. apply app_nil_r.
  - rewrite IH. unfold scanStep.
    destruct (toSprint now iteration) as [sprint|]; simpl; [|reflexivity].
    rewrite <- app_assoc. reflexivity.
Qed.

Lemma scanStep_index st i iteration :
  currentSprintIndex (scanStep now st i iteration) =
  if marked now iteration then i else currentSprintIndex st.
Proof.
  unfold scanStep, marked. destruct (toSprint now iteration) as [sprint|]; reflexivity.
Qed.

(** The index left by the scan is that of the last marked iteration, counted
    in the list that was fetched; it is unchanged when none is marked. *)
Lemma scanFrom_index iterations : forall i st,
  (currentSprintIndex (scanFrom now i iterations st) = currentSprintIndex st
   /\ forall (k : nat) iteration,
        iterations !! k = Some iteration -> marked now iteration = false)
  \/ (exists (k : nat) iteration,
        iterations !! k = Some iteration /\ marked now iteration = true
        /\ currentSprintIndex (scanFrom now i iterations st) = i + Z.of_nat k
        /\ forall (k' : nat) iteration',
             (k < k')%nat -> iterations !! k' = Some iteration' ->
             marked now iteration' = false).
Proof.
  induction iterations as [|iteration rest IH]; intros i st; simpl.
  - left. split; [reflexivity|]. intros k it H. discriminate.
  - destruct (IH (i + 1) (scanStep now st i iteration))
      as [[Hidx Hnone]|(k & it & Hk & Hm & Hidx & Hlast)].
    + rewrite scanStep_index in Hidx.
      destruct (marked now iteration) eqn:Hm.
      * right. exists O, iteration. split; [reflexivity|]. split; [exact Hm|].
        split; [rewrite Hidx; simpl; lia|].
        intros [|k'] it' Hlt Hk'; [lia|]. exact (Hnone k' it' Hk').
      * left. split; [exact Hidx|]. intros [|k] it Hk.
        -- injection Hk as <-. exact Hm.
        -- exact (Hnone k it Hk).
    + right. exists (S k), it. split; [exact Hk|]. split; [exact Hm|].
      split; [rewrite Hidx; lia|].
      intros [|k'] it' Hlt Hk'; [lia|]. apply (Hlast k' it'); [lia|exact Hk'].
Qed.

Lemma omap_all_named iterations :
  (forall iteration, In iteration iterations -> work.Name iteration <> None) ->
  forall (k : nat), omap (toSprint now) iterations !! k = iterations !! k ≫= toSprint now.
Proof.
  induction iterations as [|iteration rest IH]; intros Hnamed k; [reflexivity|].
  simpl. destruct (work.Name iteration) as [name|] eqn:Hname.
  - destruct (toSprint_named iteration name Hname) as (sprint & E & _). rewrite E.
    destruct k as [|k]; simpl; [symmetry; exact E|].
    apply IH. intros it Hin. apply Hnamed. right. exact Hin.
  - exfalso. apply (Hnamed iteration); [left; reflexivity|exact Hname].
Qed.

Lemma omap_length_named iterations :
  (forall iteration, In iteration iterations -> work.Name iteration <> None) ->
  length (omap (toSprint now) iterations) = length iterations.
Proof.
  induction iterations as [|iteration rest IH]; intros Hnamed; [reflexivity|].
  simpl. destruct (work.Name iteration) as [name|] eqn:Hname.
  - destruct (toSprint_named iteration name Hname) as (sprint & -> & _). simpl.
    f_equal. apply IH. intros it Hin. apply Hnamed. right. exact Hin.
  - exfalso. apply (Hnamed iteration); [left; reflexivity|exact Hname].
Qed.

End SprintScan.

Lemma filterSprints_current (sprints : list Sprint) (i : Z) :
  0 <= i < len sprints -> filterSprints sprints i = Ok (windowAround sprints i).
Proof.
  intros [Hlo Hhi]. unfold filterSprints, windowAround, slice.
  destruct (Z.leb_spec 0 i); [|lia].
  replace (if i - 3 <? 0 then 0 else i - 3) with (Z.max 0 (i - 3))
    by (destruct (Z.ltb_spec (i - 3) 0); lia).
  replace (if len sprints <? i + 4 then len sprints else i + 4)
    with (Z.min (len sprints) (i + 4))
    by (destruct (Z.ltb_spec (len sprints) (i + 4)); lia).
  destruct (Z.leb_spec 0 (Z.max 0 (i - 3))); [|lia].
  destruct (Z.leb_spec (Z.max 0 (i - 3)) (Z.min (len sprints) (i + 4))); [|lia].
  destruct (Z.leb_spec (Z.min (len sprints) (i + 4)) (len sprints)); [|lia].
  reflexivity.
Qed.

Lemma filterSprints_no_current (sprints : list Sprint) (i : Z) :
  i < 0 -> exists window, filterSprints sprints i = Ok window.
Proof.
  intros Hneg. unfold filterSprints, slice.
  destruct (Z.leb_spec 0 i); [lia|].
  destruct (Z.ltb_spec 7 (len sprints)); [|eexists; reflexivity].
  destruct (Z.leb_spec 0 (len sprints - 7)); [|lia].
  destruct (Z.leb_spec (len sprints - 7) (len sprints)); [|lia].
  rewrite Z.leb_refl. eexists; reflexivity.
Qed.

Example window_of_ten_current_at_5 :
  windowAround [0; 1; 2; 3; 4; 5; 6; 7; 8; 9] 5 = [2; 3; 4; 5; 6; 7; 8].
Proof. reflexivity. Qed.

(** C3 (corrected).  The scan keeps exactly the iterations that have a name,
    in order, and such an iteration is marked current if and only if both
    its dates are present (non-zero) and [now] lies strictly between them:
    [start < now] and [now < end], both ends excluded. *)
Theorem marked_current_iff_strictly_inside
    (iterations : list work.TeamSettingsIteration) (now : Time) :
  allSprints (scan now iterations) = omap (toSprint now) iterations
  /\ forall iteration,
       (work.Name iteration = None -> toSprint now iteration = None)
       /\ (forall name, work.Name iteration = Some name ->
             exists sprint,
               toSprint now iteration = Some sprint /\ Name sprint = name
               /\ (In iteration iterations -> In sprint (allSprints (scan now iterations)))
               /\ (IsCurrent sprint = true <-> strictlyInside now iteration)).
Proof.
  assert (Hall : allSprints (scan now iterations) = omap (toSprint now) iterations)
    by (unfold scan; rewrite scanFrom_allSprints; reflexivity).
  split; [exact Hall|]. intros iteration. split; [apply toSprint_nameless|].
  intros name Hname.
  destruct (toSprint_named now iteration name Hname) as (sprint & E & Hn & Hiff).
  exists sprint. split; [exact E|]. split; [exact Hn|]. split; [|exact Hiff].
  intros Hin. rewrite Hall. apply list_elem_of_In, list_elem_of_omap.
  exists iteration. split; [apply list_elem_of_In; exact Hin|exact E].
Qed.

Lemma marked_current_iff_strictly_inside_witness :
  exists sprint,
    toSprint noon_2024_06_10
      (datedIteration (Some "S5"%string) (day 2024 6 1) (day 2024 6 15)) = Some sprint
    /\ Name sprint = "S5"%string
    /\ In sprint (allSprints (scan noon_2024_06_10 overlappingIterations)).
Proof.
  destruct (marked_current_iff_strictly_inside overlappingIterations noon_2024_06_10)
    as [_ H].
  destruct (H (datedIteration (Some "S5"%string) (day 2024 6 1) (day 2024 6 15)))
    as [_ Hnamed].
  destruct (Hnamed "S5"%string eq_refl) as (sprint & E & Hn & Hin & _).
  exists sprint. split; [exact E|]. split; [exact Hn|].
  apply Hin. simpl. do 5 right. left. reflexivity.
Defined.

(** At the very instant at which the sprint starts the specification calls
    it current, the scan does not. *)
Lemma start_instant_is_not_current :
  let iteration := datedIteration (Some "Sprint 1"%string) (day 2024 6 3) (day 2024 6 17) in
  let now := day 2024 6 3 in
  halfOpenInside now iteration
  /\ sprintsHandler (Some [iteration]) now =
     Ok [mkSprint "Sprint 1" (day 2024 6 3) (day 2024 6 17) false].
Proof.
  split.
  - eexists _, _, _. repeat split; try reflexivity; vm_compute; discriminate.
  - vm_compute. reflexivity.
Qed.

(** C4 (corrected).  When every iteration has a name and the date range of
    one or more of them strictly contains [now], each such iteration is
    marked current, and the window is cut around the last of them in input
    order. *)
Theorem window_follows_last_current
    (iterations : list work.TeamSettingsIteration) (now : Time) :
  (forall iteration, In iteration iterations -> work.Name iteration <> None) ->
  (exists iteration, In iteration iterations /\ strictlyInside now iteration) ->
  exists (j : nat) last,
    iterations !! j = Some last /\ strictlyInside now last
    /\ (forall (j' : nat) iteration,
          (j < j')%nat -> iterations !! j' = Some iteration ->
          ~ strictlyInside now iteration)
    /\ (forall (k : nat) iteration,
          iterations !! k = Some iteration -> strictlyInside now iteration ->
          exists sprint, allSprints (scan now iterations) !! k = Some sprint
                         /\ IsCurrent sprint = true)
    /\ currentSprintIndex (scan now iterations) = Z.of_nat j
    /\ sprintsHandler (Some iterations) now =
       Ok (windowAround (allSprints (scan now iterations)) (Z.of_nat j)).
Proof.
  intros Hnamed (it0 & Hin0 & Hit0).
  assert (Hall : allSprints (scan now iterations) = omap (toSprint now) iterations)
    by (unfold scan; rewrite scanFrom_allSprints; reflexivity).
  assert (Hlookup : forall (k : nat) iteration, iterations !! k = Some iteration ->
            In iteration iterations).
  { intros k it Hk. apply list_elem_of_In, list_elem_of_lookup. eauto. }
  destruct (scanFrom_index now iterations 0 (mkScan [] (-1)))
    as [[_ Hnone]|(j & last & Hj & Hm & Hidx & Hlast)].
  - exfalso. apply list_elem_of_In, list_elem_of_lookup in Hin0 as [k Hk].
    assert (marked now it0 = true) as Hm
      by (apply marked_true; split; [eapply Hnamed, Hlookup, Hk|exact Hit0]).
    rewrite (Hnone k it0 Hk) in Hm. discriminate.
  - exists j, last. split; [exact Hj|].
    split; [apply marked_true in Hm; apply Hm|].
    split.
    { intros j' it Hlt Hj' Hin. specialize (Hlast j' it Hlt Hj').
      assert (marked now it = true) as Hm'
        by (apply marked_true; split; [eapply Hnamed, Hlookup, Hj'|exact Hin]).
      congruence. }
    split.
    { intros k it Hk Hin. rewrite Hall, (omap_all_named now iterations Hnamed k), Hk.
      simpl. destruct (work.Name it) as [name|] eqn:Hname.
      - destruct (toSprint_named now it name Hname) as (sprint & E & _ & Hiff).
        exists sprint. split; [exact E|]. apply Hiff, Hin.
      - exfalso. exact (Hnamed it (Hlookup k it Hk) Hname). }
    split; [exact Hidx|].
    unfold sprintsHandler. fold (scan now iterations) in Hidx.
    assert (Hlen : (j < length iterations)%nat) by (eapply lookup_lt_Some, Hj).
    destruct (Z.ltb_spec 0 (len iterations)); [|unfold len in *; lia].
    rewrite Hidx. apply filterSprints_current.
    unfold len. rewrite Hall, (omap_length_named now iterations Hnamed). lia.
Qed.

Lemma window_follows_last_current_witness :
  exists (j : nat) last,
    overlappingIterations !! j = Some last
    /\ currentSprintIndex (scan noon_2024_06_10 overlappingIterations) = Z.of_nat j
    /\ sprintsHandler (Some overlappingIterations) noon_2024_06_10 =
       Ok (windowAround (allSprints (scan noon_2024_06_10 overlappingIterations))
             (Z.of_nat j)).
Proof.
  destruct (window_follows_last_current overlappingIterations noon_2024_06_10)
    as (j & last & Hj & _ & _ & _ & Hidx & Hwin).
  - intros iteration Hin. simpl in Hin.
    repeat (destruct Hin as [<-|Hin]; [discriminate|]). contradiction.
  - exists (datedIteration (Some "S6"%string) (day 2024 6 8) (day 2024 6 22)).
    split; [simpl; do 6 right; left; reflexivity|].
    eexists _, _, _. repeat split; try reflexivity; vm_compute; discriminate.
  - exists j, last. auto.
Defined.

(** Three ranges contain [now]: two of them come out marked current, and
    the window is the one around [S6], the last, so that [S1], the first, is
    not even in it. *)
Lemma overlapping_marks_several_and_follows_last :
  (exists s1 s5 s6,
     overlappingIterations !! 1%nat = Some s1 /\ halfOpenInside noon_2024_06_10 s1
     /\ overlappingIterations !! 5%nat = Some s5 /\ halfOpenInside noon_2024_06_10 s5
     /\ overlappingIterations !! 6%nat = Some s6 /\ halfOpenInside noon_2024_06_10 s6)
  /\ sprintsHandler (Some overlappingIterations) noon_2024_06_10 =
     Ok [ mkSprint "S3" zeroTime zeroTime false;
          mkSprint "S4" zeroTime zeroTime false;
          mkSprint "S5" (day 2024 6 1) (day 2024 6 15) true;
          mkSprint "S6" (day 2024 6 8) (day 2024 6 22) true;
          mkSprint "S7" zeroTime zeroTime false;
          mkSprint "S8" zeroTime zeroTime false;
          mkSprint "S9" zeroTime zeroTime false ].
Proof.
  split.
  - eexists _, _, _.
    repeat (split; [reflexivity|]).
    repeat split;
      try (eexists _, _, _; repeat split; try reflexivity; vm_compute; discriminate).
  - vm_compute. reflexivity.
Qed.

(** C5 (code defect).  Four nameless iterations precede the only named one,
    which is current: it is the one sprint of the name-filtered list, at
    index 0 there, so the window of the specification is that sprint; the
    handler cuts at the index counted in the fetched list and returns an
    empty window. *)
Theorem window_misses_current_after_nameless :
  let sprint := mkSprint "Sprint 1" (day 2024 6 3) (day 2024 6 17) true in
  allSprints (scan noon_2024_06_10 (namelessThenCurrent 4)) = [sprint]
  /\ windowAround [sprint] 0 = [sprint]
  /\ currentSprintIndex (scan noon_2024_06_10 (namelessThenCurrent 4)) = 4
  /\ sprintsHandler (Some (namelessThenCurrent 4)) noon_2024_06_10 = Ok [].
Proof. repeat split; vm_compute; reflexivity. Qed.

(** C10 (code defect).  Five nameless iterations precede the only named
    one, which is current: the bounds computed are 2 and 1 on a list of one
    sprint, and the slice expression panics. *)
Theorem window_panics_after_nameless :
  length (allSprints (scan noon_2024_06_10 (namelessThenCurrent 5))) = 1%nat
  /\ currentSprintIndex (scan noon_2024_06_10 (namelessThenCurrent 5)) = 5
  /\ sprintsHandler (Some (namelessThenCurrent 5)) noon_2024_06_10 =
     Panic "slice bounds out of range".
Proof. repeat split; vm_compute; reflexivity. Qed.

(** When every iteration has a name, the handler returns a window. *)
Lemma sprintsHandler_returns_when_named
    (iterations : option (list work.TeamSettingsIteration)) (now : Time) :
  (forall its iteration, iterations = Some its -> In iteration its ->
     work.Name iteration <> None) ->
  exists window, sprintsHandler iterations now = Ok window.
Proof.
  intros Hnamed. destruct iterations as [its|]; [|eexists; reflexivity].
  unfold sprintsHandler. destruct (0 <? len its); [|eexists; reflexivity].
  specialize (Hnamed its). 
  assert (Hall : allSprints (scan now its) = omap (toSprint now) its)
    by (unfold scan; rewrite scanFrom_allSprints; reflexivity).
  destruct (scanFrom_index now its 0 (mkScan [] (-1)))
    as [[Hidx _]|(j & last & Hj & _ & Hidx & _)].
  - apply filterSprints_no_current. unfold scan. rewrite Hidx. simpl. lia.
  - eexists. unfold scan. rewrite Hidx. apply filterSprints_current.
    apply lookup_lt_Some in Hj. unfold len.
    fold (scan now its). rewrite Hall, omap_length_named; [lia|].
    intros it Hin. apply Hnamed; [reflexivity|exact Hin].
Qed.

(** ** Properties of the capacity aggregation *)

Section Aggregation.

Variables sprintStart sprintEnd : Time.

Implicit Types (order : list (string * Dev.Developer)) (dev : Dev.Developer)
               (devCapacities : gmap string Capacity.TeamMemberCapacity).

Lemma setDefaultCapacities_from order : forall devCapacities (name : string),
  foldl (fun m entry => <[Dev.Name entry.2 := defaultCapacity]> m) devCapacities order
    !! name =
  if decide (name ∈ (fun entry => Dev.Name entry.2) <$> order)
  then Some defaultCapacity else devCapacities !! name.
Proof.
  induction order as [|entry rest IH]; intros devCapacities name.
  - cbn [foldl]. case_decide as Hin; [|reflexivity].
    rewrite fmap_nil in Hin. apply not_elem_of_nil in Hin. contradiction.
  - cbn [foldl]. rewrite IH, fmap_cons.
    destruct (decide (name ∈ (fun e => Dev.Name e.2) <$> rest)) as [Hin|Hnin].
    + rewrite decide_True; [reflexivity|]. right. exact Hin.
    + destruct (decide (name = Dev.Name entry.2)) as [->|Hne].
      * rewrite lookup_insert_eq, decide_True; [reflexivity|]. left.
      * rewrite lookup_insert_ne by congruence.
        rewrite decide_False; [reflexivity|].
        intros Hin. apply elem_of_cons in Hin as [?|?]; contradiction.
Qed.

Lemma setDefaultCapacities_lookup order (name : string) dev :
  (name, dev) ∈ order ->
  setDefaultCapacities order !! Dev.Name dev = Some defaultCapacity.
Proof.
  intros Hin. unfold setDefaultCapacities. rewrite setDefaultCapacities_from.
  rewrite decide_True; [reflexivity|].
  apply list_elem_of_fmap. exists (name, dev). split; [reflexivity|exact Hin].
Qed.

Lemma aggregate_developers devCapacities order : forall st,
  developers (foldl (aggregateStep sprintStart sprintEnd devCapacities) st order) =
  developers st
  ++ map (fun entry => developerOf sprintStart sprintEnd devCapacities entry.2) order.
Proof.
  induction order as [|entry rest IH]; intros st; simpl.
  - symmetry. apply app_nil_r.
  - rewrite IH. unfold aggregateStep.
    destruct (devCapacities !! Dev.Name entry.2); simpl; rewrite <- app_assoc; reflexivity.
Qed.

Lemma aggregate_totalCapacity_zero devCapacities order : forall st,
  totalCapacity st = 0%float ->
  (forall entry, entry ∈ order ->
     Dev.TotalCapacity (developerOf sprintStart sprintEnd devCapacities entry.2) = 0%float) ->
  totalCapacity (foldl (aggregateStep sprintStart sprintEnd devCapacities) st order)
  = 0%float.
Proof.
  induction order as [|entry rest IH]; intros st Hst Hzero; simpl; [exact Hst|].
  apply IH.
  - unfold aggregateStep. destruct (devCapacities !! Dev.Name entry.2); simpl; [|exact Hst].
    rewrite Hst, Hzero by left. reflexivity.
  - intros e He. apply Hzero. right. exact He.
Qed.

Lemma developerOf_configured devCapacities dev capacity :
  devCapacities !! Dev.Name dev = Some capacity ->
  developerOf sprintStart sprintEnd devCapacities dev =
  Dev.mkDeveloper (Dev.Name dev) "" (Dev.Tasks dev)
    (sumCapacityPerDay (Capacity.Activities capacity))
    (PrimFloat.mul
       (float64_of_int
          (calculateWorkingDays sprintStart sprintEnd (Capacity.DaysOff capacity)))
       (sumCapacityPerDay (Capacity.Activities capacity)))
    (len (Capacity.DaysOff capacity)).
Proof. intros H. unfold developerOf. rewrite H. reflexivity. Qed.

End Aggregation.

Lemma insertByName_Permutation d (l : list Dev.Developer) : insertByName d l ≡ₚ d :: l.
Proof.
  induction l as [|x rest IH]; simpl; [reflexivity|].
  destruct (String.ltb (Dev.Name d) (Dev.Name x)); [reflexivity|].
  rewrite IH. apply Permutation_swap.
Qed.

Lemma sortByName_Permutation (l : list Dev.Developer) : sortByName l ≡ₚ l.
Proof.
  induction l as [|d rest IH]; simpl; [reflexivity|].
  rewrite insertByName_Permutation, IH. reflexivity.
Qed.

(** Every entry of the task-count map carries its key as its name. *)
Lemma countTask_keyed (devMap : gmap string Dev.Developer) (assignedTo : string) :
  (forall k d, devMap !! k = Some d -> Dev.Name d = k) ->
  forall k d, countTask devMap assignedTo !! k = Some d -> Dev.Name d = k.
Proof.
  intros Hkeyed k d. unfold countTask.
  destruct (decide (assignedTo = ""%string)); [apply Hkeyed|].
  destruct (devMap !! assignedTo) as [dev|] eqn:Hdev.
  - destruct (decide (k = assignedTo)) as [->|Hne].
    + rewrite lookup_insert_eq. intros [= <-]. simpl. exact (Hkeyed _ _ Hdev).
    + rewrite lookup_insert_ne by congruence. apply Hkeyed.
  - destruct (decide (k = assignedTo)) as [->|Hne].
    + rewrite lookup_insert_eq. intros [= <-]. reflexivity.
    + rewrite lookup_insert_ne by congruence. apply Hkeyed.
Qed.

Lemma countTasks_keyed (assigned : list string) k d :
  countTasks assigned !! k = Some d -> Dev.Name d = k.
Proof.
  unfold countTasks. revert k d.
  induction assigned as [|a l IH] using rev_ind; intros k d.
  - simpl. rewrite lookup_empty. discriminate.
  - rewrite foldl_app. simpl. apply countTask_keyed. exact IH.
Qed.

(** The task-count map: a developer is present when one task or more is
    assigned to the name, which is not empty, and [Tasks] is their number. *)
Lemma countTasks_lookup (assigned : list string) (name : string) :
  countTasks assigned !! name =
  if decide (name = ""%string) then None
  else match count_occ string_dec assigned name with
       | O => None
       | S n => Some (Dev.mkDeveloper name "" (Z.of_nat (S n)) 0 0 0)
       end.
Proof.
  unfold countTasks. induction assigned as [|a l IH] using rev_ind.
  - simpl. rewrite lookup_empty. case_decide; reflexivity.
  - rewrite foldl_app, count_occ_app. cbn [foldl count_occ].
    set (devMap := foldl countTask ∅ l) in *. unfold countTask.
    destruct (decide (a = ""%string)) as [->|Ha].
    + rewrite IH. case_decide as Hname; [reflexivity|].
      destruct (string_dec ""%string name) as [E|_]; [congruence|].
      rewrite Nat.add_0_r. reflexivity.
    + destruct (decide (name = a)) as [->|Hne].
      * rewrite decide_False in IH |- * by exact Ha.
        destruct (string_dec a a) as [_|N]; [|contradiction].
        rewrite IH.
        destruct (count_occ string_dec l a) as [|n]; rewrite lookup_insert_eq;
          simpl; repeat f_equal; lia.
      * destruct (string_dec a name) as [E|_]; [congruence|].
        rewrite Nat.add_0_r.
        destruct (devMap !! a); rewrite lookup_insert_ne by congruence;
          exact IH.
Qed.

Lemma specSumOfFirst_ext (n : nat) (f g : nat -> float) :
  (forall i, (i < n)%nat -> f i = g i) -> specSumOfFirst n f = specSumOfFirst n g.
Proof.
  induction n as [|n IH]; intros H; [reflexivity|].
  cbn [specSumOfFirst]. rewrite IH, (H n) by (intros; try apply H; lia). reflexivity.
Qed.

Lemma specDailyCapacityHours_snoc (activities : list Capacity.Activity)
    (activity : Capacity.Activity) :
  specDailyCapacityHours (activities ++ [activity]) =
  PrimFloat.add (specDailyCapacityHours activities) (Capacity.CapacityPerDay activity).
Proof.
  unfold specDailyCapacityHours.
  rewrite length_app, Nat.add_1_r. cbn [specSumOfFirst]. f_equal.
  - apply specSumOfFirst_ext. intros i Hi.
    rewrite map_app, app_nth1 by (rewrite length_map; exact Hi). reflexivity.
  - rewrite map_app, app_nth2 by (rewrite length_map; lia).
    rewrite length_map, Nat.sub_diag. reflexivity.
Qed.

(** The loop of lines 715-717 computes the sum of the allocations. *)
Lemma sumCapacityPerDay_spec (activities : list Capacity.Activity) :
  sumCapacityPerDay activities = specDailyCapacityHours activities.
Proof.
  induction activities as [|activity activities IH] using rev_ind; [reflexivity|].
  rewrite specDailyCapacityHours_snoc, <- IH. unfold sumCapacityPerDay.
  rewrite foldl_app. reflexivity.
Qed.

(** C6 (confirmed).  For every developer of the task-count map, whatever
    the order in which the map is ranged over: no capacity configuration is
    read from upstream, the developer gets the default of one activity of 8
    hours a day and no days off; [CapacityPerDay] is the sum of the
    per-day allocations of the activities, here 8; and [TotalCapacity] is
    the working-day count of the sprint range under the developer's days
    off, converted to [float64], times that sum.  The last two hold of
    [developerOf] for any configuration found in the capacity map,
    whatever the number of its activities. *)
Theorem developer_capacity_from_default
    (assigned : list string) (sprintStart sprintEnd : Time)
    (order1 order2 : list (string * Dev.Developer))
    (name : string) (dev : Dev.Developer) :
  iterationOrder (countTasks assigned) order1 ->
  iterationOrder (countTasks assigned) order2 ->
  countTasks assigned !! name = Some dev ->
  setDefaultCapacities order1 !! name = Some defaultCapacity
  /\ Capacity.Activities defaultCapacity = [Capacity.mkActivity 8 "Desenvolvimento"]
  /\ Capacity.DaysOff defaultCapacity = []
  /\ (exists d,
        In d (Response.Developers (developersResponse sprintStart sprintEnd order1 order2))
        /\ Dev.Name d = name
        /\ Dev.Tasks d = Z.of_nat (count_occ string_dec assigned name)
        /\ Dev.CapacityPerDay d = specDailyCapacityHours (Capacity.Activities defaultCapacity)
        /\ Dev.CapacityPerDay d = 8%float
        /\ Dev.DaysOff d = 0
        /\ Dev.TotalCapacity d =
           PrimFloat.mul
             (float64_of_int
                (calculateWorkingDays sprintStart sprintEnd
                   (Capacity.DaysOff defaultCapacity)))
             (Dev.CapacityPerDay d))
  /\ (forall devCapacities capacity d0,
        devCapacities !! Dev.Name d0 = Some capacity ->
        let d := developerOf sprintStart sprintEnd devCapacities d0 in
        Dev.CapacityPerDay d = specDailyCapacityHours (Capacity.Activities capacity)
        /\ Dev.TotalCapacity d =
           PrimFloat.mul
             (float64_of_int
                (calculateWorkingDays sprintStart sprintEnd (Capacity.DaysOff capacity)))
             (specDailyCapacityHours (Capacity.Activities capacity))).
Proof.
  intros Horder1 Horder2 Hdev.
  pose proof (countTasks_keyed assigned name dev Hdev) as Hname.
  assert (Hin1 : (name, dev) ∈ order1)
    by (rewrite Horder1; apply elem_of_map_to_list; exact Hdev).
  assert (Hin2 : (name, dev) ∈ order2)
    by (rewrite Horder2; apply elem_of_map_to_list; exact Hdev).
  pose proof (setDefaultCapacities_lookup order1 name dev Hin1) as Hcap.
  split; [rewrite <- Hname; exact Hcap|].
  split; [reflexivity|]. split; [reflexivity|].
  split.
  - exists (developerOf sprintStart sprintEnd (setDefaultCapacities order1) dev).
    split.
    + apply list_elem_of_In. unfold developersResponse. cbn [Response.Developers].
      rewrite sortByName_Permutation, aggregate_developers. cbn [developers app].
      apply (list_elem_of_fmap_2
               (fun entry => developerOf sprintStart sprintEnd
                               (setDefaultCapacities order1) entry.2) order2 (name, dev)).
      exact Hin2.
    + rewrite (developerOf_configured _ _ _ _ _ Hcap). cbn.
      split; [exact Hname|]. split; [|repeat split].
      rewrite countTasks_lookup in Hdev. case_decide; [discriminate|].
      destruct (count_occ string_dec assigned name); [discriminate|].
      injection Hdev as <-. reflexivity.
  - intros devCapacities capacity d0 Hd0.
    rewrite (developerOf_configured _ _ _ _ _ Hd0).
    cbn [Dev.CapacityPerDay Dev.TotalCapacity].
    rewrite sumCapacityPerDay_spec. split; reflexivity.
Qed.

Lemma developer_capacity_from_default_witness :
  (exists d,
     In d (Response.Developers
             (developersResponse (day 2024 6 3) (day 2024 6 14)
                [ana 2; bia 1] [bia 1; ana 2]))
     /\ Dev.Name d = "Ana"%string
     /\ Dev.Tasks d = 2
     /\ Dev.CapacityPerDay d = 8%float
     /\ Dev.TotalCapacity d = 80%float)
  /\ (let d := developerOf (day 2024 6 3) (day 2024 6 14) twoActivities (ana 3).2 in
      Dev.CapacityPerDay d = 7.5%float /\ Dev.TotalCapacity d = 60%float).
Proof.
  destruct (developer_capacity_from_default ["Ana"; "Bia"; "Ana"]%string
              (day 2024 6 3) (day 2024 6 14) [ana 2; bia 1] [bia 1; ana 2]
              "Ana"%string (ana 2).2)
    as (_ & _ & _ & (d & Hin & Hname & Htasks & _ & Hcap & _ & Htotal) & Hany).
  - unfold iterationOrder.
    replace (map_to_list (countTasks ["Ana"; "Bia"; "Ana"]%string))
      with [ana 2; bia 1] by (vm_compute; reflexivity).
    reflexivity.
  - unfold iterationOrder.
    replace (map_to_list (countTasks ["Ana"; "Bia"; "Ana"]%string))
      with [ana 2; bia 1] by (vm_compute; reflexivity).
    apply Permutation_swap.
  - vm_compute. reflexivity.
  - split.
    + exists d. split; [exact Hin|]. split; [exact Hname|]. split; [exact Htasks|].
      split; [exact Hcap|]. rewrite Htotal, Hcap. vm_compute. reflexivity.
    + destruct (Hany twoActivities twoActivitiesOfAna (ana 3).2) as [Hsum Hprod];
        [vm_compute; reflexivity|].
      cbv zeta. rewrite Hprod, Hsum. split; vm_compute; reflexivity.
Defined.

Example scenario_default_capacity :
  developersResponse (day 2024 6 3) (day 2024 6 14) [ana 2; bia 1] [bia 1; ana 2] =
  Response.mkResponse
    [ Dev.mkDeveloper "Ana" "" 2 8 80 0; Dev.mkDeveloper "Bia" "" 1 8 80 0 ]
    (day 2024 6 3) (day 2024 6 14) 160 0 10.
Proof. vm_compute. reflexivity. Qed.

(** Two activities of 4 hours and one interval off of two working days:
    8 hours a day, one interval counted, 8 days times 8 hours. *)
Example scenario_two_activities :
  developerOf (day 2024 6 3) (day 2024 6 14)
    {[ "Ana"%string :=
         Capacity.mkCapacity
           [Capacity.mkActivity 4 "Desenvolvimento"; Capacity.mkActivity 4 "Suporte"]
           [mkDayOff (day 2024 6 10) (day 2024 6 11)] ]}
    (ana 3).2 =
  Dev.mkDeveloper "Ana" "" 3 8 64 1.
Proof. vm_compute. reflexivity. Qed.

Section ZeroDates.

Lemma sprintRange_no_finish targetIteration a :
  work.Attributes targetIteration = Some a -> work.FinishDate a = None ->
  (sprintRange targetIteration).2 = zeroTime.
Proof. intros Ha Hf. unfold sprintRange. rewrite Ha, Hf. reflexivity. Qed.

Lemma inverted_range_is_empty (start finish : Time) (exclusions : list DayOff) :
  instant finish < instant start -> calculateWorkingDays start finish exclusions = 0.
Proof.
  intros Hlt. rewrite calculateWorkingDays_spec.
  unfold visitedWorkingDays, visitedDays. rewrite (loopTurns_zero _ _ Hlt). reflexivity.
Qed.

(** With the zero time as [start] the first day visited is Monday
    0001-01-01, a working day. *)
Lemma absent_start_counts_from_year_one (finish : Time) :
  0 <= instant finish -> 1 <= calculateWorkingDays zeroTime finish [].
Proof.
  intros Hle. rewrite calculateWorkingDays_spec. unfold visitedWorkingDays, visitedDays.
  rewrite (loopTurns_step zeroTime finish Hle).
  fold (daysFrom zeroTime (S (loopTurns (Add zeroTime (24 * Hour)) finish))).
  rewrite daysFrom_S. cbn [List.filter].
  replace (isWorkingDay [] zeroTime) with true by reflexivity.
  cbn [length]. lia.
Qed.

Lemma default_total_of_no_days (devCapacities : gmap string Capacity.TeamMemberCapacity)
    (start finish : Time) (dev : Dev.Developer) :
  (forall capacity, devCapacities !! Dev.Name dev = Some capacity ->
     capacity = defaultCapacity) ->
  calculateWorkingDays start finish [] = 0 ->
  Dev.TotalCapacity (developerOf start finish devCapacities dev) = 0%float.
Proof.
  intros Hdefault Hzero. unfold developerOf.
  destruct (devCapacities !! Dev.Name dev) as [capacity|] eqn:E; [|reflexivity].
  rewrite (Hdefault capacity eq_refl). cbn. rewrite Hzero. reflexivity.
Qed.

Lemma setDefaultCapacities_only_default order (name : string) capacity :
  setDefaultCapacities order !! name = Some capacity -> capacity = defaultCapacity.
Proof.
  unfold setDefaultCapacities. rewrite setDefaultCapacities_from.
  case_decide; [intros [= <-]; reflexivity|]. rewrite lookup_empty. discriminate.
Qed.

End ZeroDates.

(** C2 (corrected).  When the end date of the sprint range is absent (the
    zero timestamp) and the start date is later than the zero timestamp,
    [calculateWorkingDays] over the range is 0 under any exclusions, and
    the total capacity of every developer, the total capacity of the
    summary and its working days are 0. *)
Theorem absent_end_gives_zero_capacity
    (targetIteration : work.TeamSettingsIteration)
    (order1 order2 : list (string * Dev.Developer)) :
  IsZero (sprintRange targetIteration).2 = true ->
  0 < instant (sprintRange targetIteration).1 ->
  (forall exclusions,
     calculateWorkingDays (sprintRange targetIteration).1
       (sprintRange targetIteration).2 exclusions = 0)
  /\ (forall d, In d (Response.Developers (developersHandler targetIteration order1 order2)) ->
        Dev.TotalCapacity d = 0%float)
  /\ Response.TotalCapacity (developersHandler targetIteration order1 order2) = 0%float
  /\ Response.WorkingDays (developersHandler targetIteration order1 order2) = 0.
Proof.
  intros Hend Hstart. unfold IsZero in Hend. apply Z.eqb_eq in Hend.
  set (sprintStart := (sprintRange targetIteration).1) in *.
  set (sprintEnd := (sprintRange targetIteration).2) in *.
  assert (Hzero : forall exclusions,
            calculateWorkingDays sprintStart sprintEnd exclusions = 0)
    by (intros exclusions; apply inverted_range_is_empty; lia).
  assert (Hdev : forall dev,
            Dev.TotalCapacity
              (developerOf sprintStart sprintEnd (setDefaultCapacities order1) dev)
            = 0%float).
  { intros dev. apply default_total_of_no_days; [|apply Hzero].
    intros capacity. apply setDefaultCapacities_only_default. }
  split; [exact Hzero|].
  unfold developersHandler, developersResponse. fold sprintStart sprintEnd. cbn.
  split; [|split].
  - intros d Hin. apply list_elem_of_In in Hin.
    rewrite sortByName_Permutation, aggregate_developers in Hin. cbn [developers app] in Hin.
    apply list_elem_of_fmap in Hin as (entry & -> & _). apply Hdev.
  - apply aggregate_totalCapacity_zero; [reflexivity|]. intros entry _. apply Hdev.
  - apply Hzero.
Qed.

Lemma absent_end_gives_zero_capacity_witness :
  calculateWorkingDays (day 2024 6 3) zeroTime [] = 0
  /\ Response.TotalCapacity (developersHandler openEndedIteration [ana 2] [ana 2]) = 0%float
  /\ Response.WorkingDays (developersHandler openEndedIteration [ana 2] [ana 2]) = 0.
Proof.
  destruct (absent_end_gives_zero_capacity openEndedIteration [ana 2] [ana 2])
    as (Hdays & _ & Htotal & Hworking).
  - vm_compute. reflexivity.
  - vm_compute. reflexivity.
  - split; [exact (Hdays [])|]. split; [exact Htotal|exact Hworking].
Defined.

(** An iteration without attributes has neither date: the range runs from
    the zero time to the zero time, the loop visits that one Monday, and
    the developer gets 8 hours instead of 0. *)
Lemma absent_dates_give_one_working_day :
  sprintRange (undatedIteration (Some "Sprint 1"%string)) = (zeroTime, zeroTime)
  /\ IsZero zeroTime = true
  /\ calculateWorkingDays zeroTime zeroTime [] = 1
  /\ developersHandler (undatedIteration (Some "Sprint 1"%string)) [ana 1] [ana 1] =
     Response.mkResponse [Dev.mkDeveloper "Ana" "" 1 8 8 0] zeroTime zeroTime 8 0 1.
Proof. repeat split; vm_compute; reflexivity. Qed.

(** ** Properties of [parseDate] *)

Example layouts_tokenised :
  map TimeParse.layoutChunks layouts =
  [ dateChunks ++ clockChunks ++ [TimeParse.literal "Z"];
    dateChunks ++ clockChunks;
    dateChunks ++ clockChunks ++ [TimeParse.stdNumColonTZ];
    dateChunks;
    dayFirstChunks ++ [ TimeParse.literal " "; TimeParse.stdHour;
                        TimeParse.literal ":"; TimeParse.stdZeroMinute ];
    dayFirstChunks;
    monthFirstChunks;
    [ TimeParse.stdLongMonth; TimeParse.literal " "; TimeParse.stdDay;
      TimeParse.literal ", "; TimeParse.stdLongYear ];
    [ TimeParse.stdLongYear; TimeParse.literal "/"; TimeParse.stdZeroMonth;
      TimeParse.literal "/"; TimeParse.stdZeroDay ] ]
  /\ TimeParse.layoutChunks TimeParse.RFC3339 =
     dateChunks ++ clockChunks ++ [TimeParse.stdISO8601ColonTZ].
Proof. split; reflexivity. Qed.

Example parse_iso_utc :
  parseDate "2024-06-03T10:20:30Z" = (Date 2024 6 3 10 20 30 0 0, None).
Proof. vm_compute. reflexivity. Qed.

Example parse_iso_fraction :
  parseDate "2024-06-03T10:20:30.5" = (Date 2024 6 3 10 20 30 500000000 0, None).
Proof. vm_compute. reflexivity. Qed.

Example parse_iso_offset :
  parseDate "2024-06-03T10:20:30-03:00" = (Date 2024 6 3 10 20 30 0 (-10800), None).
Proof. vm_compute. reflexivity. Qed.

Example parse_plain_date : parseDate "2024-06-03" = (day 2024 6 3, None).
Proof. vm_compute. reflexivity. Qed.

Example parse_regional_with_time :
  parseDate "03/06/2024 9:30" = (Date 2024 6 3 9 30 0 0 0, None).
Proof. vm_compute. reflexivity. Qed.

Example parse_short : parseDate "6/3/2024" = (day 2024 6 3, None).
Proof. vm_compute. reflexivity. Qed.

Example parse_long : parseDate "june 3, 2024" = (day 2024 6 3, None).
Proof. vm_compute. reflexivity. Qed.

Example parse_slashes : parseDate "2024/06/03" = (day 2024 6 3, None).
Proof. vm_compute. reflexivity. Qed.

Example parse_no_such_day :
  parseDate "2023-02-29" = (zeroTime, Some (unrecognized "2023-02-29")).
Proof. vm_compute. reflexivity. Qed.

Section ParseLemmas.

Import TimeParse.

Implicit Types (value : string) (f : fields) (chunks : list chunk).

Lemma parseChunks_app chunks1 chunks2 value f :
  parseChunks (chunks1 ++ chunks2) value f =
  match parseChunks chunks1 value f with
  | Some (f', value') => parseChunks chunks2 value' f'
  | None => None
  end.
Proof.
  revert value f. induction chunks1 as [|c rest IH]; intros value f; simpl; [reflexivity|].
  destruct (parseChunk c value f) as [[f' value']|]; [apply IH|reflexivity].
Qed.

(** A layout that ends with the element [c]. *)
Lemma parse_snoc chunks c value :
  parse (chunks ++ [c]) value =
  match parseChunks chunks value initialFields with
  | Some (f, rest) =>
      match parseChunk c rest f with
      | Some (f', EmptyString) => finish f'
      | _ => None
      end
  | None => None
  end.
Proof.
  unfold parse. rewrite parseChunks_app.
  destruct (parseChunks chunks value initialFields) as [[f rest]|]; [|reflexivity].
  simpl. destruct (parseChunk c rest f) as [[f' rest']|]; reflexivity.
Qed.

Lemma parseChunk_zone c value f f' value' :
  zoneFree c = true -> parseChunk c value f = Some (f', value') ->
  zUTC f' = zUTC f /\ zoneOffset f' = zoneOffset f.
Proof.
  intros Hfree H. destruct c; try discriminate Hfree; simpl in H;
    repeat match type of H with
           | match ?x with _ => _ end = _ => destruct x eqn:?; try discriminate H
           | (if ?b then _ else _) = _ => destruct b eqn:?; try discriminate H
           | (let '(_, _) := ?p in _) = _ => destruct p
           end;
    injection H as <- _; split; reflexivity.
Qed.

Lemma parseChunks_zone chunks : forall value f f' value',
  forallb zoneFree chunks = true -> parseChunks chunks value f = Some (f', value') ->
  zUTC f' = zUTC f /\ zoneOffset f' = zoneOffset f.
Proof.
  induction chunks as [|c rest IH]; intros value f f' value' Hfree H; simpl in *.
  - injection H as <- _. split; reflexivity.
  - apply andb_true_iff in Hfree as [Hc Hrest].
    destruct (parseChunk c value f) as [[f1 value1]|] eqn:E; [|discriminate].
    destruct (parseChunk_zone _ _ _ _ _ Hc E) as [H1 H2].
    destruct (IH _ _ _ _ Hrest H) as [H3 H4]. split; congruence.
Qed.

Lemma finish_utc f :
  zUTC f = false -> zoneOffset f = -1 ->
  finish (withZone f true (zoneOffset f)) = finish f.
Proof.
  intros Hutc Hoff. unfold finish, withZone. simpl. rewrite Hutc, Hoff. simpl.
  reflexivity.
Qed.

Lemma skip_Z value : skip value "Z" = match value with
                                      | String c rest => if Ascii.eqb c "Z" then Some rest else None
                                      | EmptyString => None
                                      end.
Proof. destruct value; reflexivity. Qed.

(** Whatever the layout of RFC 3339 accepts is accepted, with the same
    result, by the first or by the third layout of the list. *)
Lemma RFC3339_redundant value t :
  Parse RFC3339 value = Some t ->
  Parse "2006-01-02T15:04:05Z" value = Some t
  \/ Parse "2006-01-02T15:04:05-07:00" value = Some t.
Proof.
  unfold Parse.
  change (layoutChunks RFC3339)
    with ((dateChunks ++ clockChunks) ++ [stdISO8601ColonTZ]).
  change (layoutChunks "2006-01-02T15:04:05Z")
    with ((dateChunks ++ clockChunks) ++ [literal "Z"]).
  change (layoutChunks "2006-01-02T15:04:05-07:00")
    with ((dateChunks ++ clockChunks) ++ [stdNumColonTZ]).
  rewrite !parse_snoc.
  destruct (parseChunks (dateChunks ++ clockChunks) value initialFields)
    as [[f rest]|] eqn:E; [|discriminate].
  destruct (parseChunks_zone (dateChunks ++ clockChunks) _ _ _ _ eq_refl E) as [Hutc Hoff].
  simpl in Hutc, Hoff.
  cbn [parseChunk]. rewrite skip_Z.
  destruct rest as [|c rest]; [discriminate|].
  destruct (Ascii.eqb c "Z").
  - destruct rest; [|discriminate]. rewrite (finish_utc f Hutc Hoff). intros H. left. exact H.
  - intros H. right. exact H.
Qed.

Lemma tryLayouts_none (ls : list string) value :
  tryLayouts ls value = None <-> forall l, In l ls -> Parse l value = None.
Proof.
  induction ls as [|l rest IH]; simpl.
  - split; [intros _ l []|reflexivity].
  - destruct (Parse l value) as [t|] eqn:E.
    + split; [discriminate|]. intros H. rewrite (H l) in E by (left; reflexivity).
      discriminate.
    + rewrite IH. split.
      * intros H l' [<-|Hin]; [exact E|exact (H l' Hin)].
      * intros H l' Hin. apply H. right. exact Hin.
Qed.


End ParseLemmas.



(** *** Which layouts can accept the same input *)

Section LayoutShapes.

Import TimeParse.

Local Arguments isDigit : simpl never.
Local Arguments digit : simpl never.

Implicit Types (value : string) (f : fields) (chunks : list chunk).

Lemma getyear_inv value y rest :
  getyear value = Some (y, rest) ->
  exists a b c d,
    value = String a (String b (String c (String d rest)))
    /\ isDigit a = true /\ isDigit b = true /\ isDigit c = true /\ isDigit d = true.
Proof.
  destruct value as [|a [|b [|c [|d value]]]]; simpl; try discriminate.
  destruct (isDigit a) eqn:Ha, (isDigit b) eqn:Hb, (isDigit c) eqn:Hc,
    (isDigit d) eqn:Hd; try discriminate.
  intros [= _ <-]. exists a, b, c, d. auto.
Qed.

Lemma getnum_fixed_inv value n rest :
  getnum value true = Some (n, rest) ->
  exists a b, value = String a (String b rest) /\ isDigit a = true /\ isDigit b = true.
Proof.
  destruct value as [|a [|b value]]; simpl; try discriminate;
    destruct (isDigit a) eqn:Ha; try discriminate.
  destruct (isDigit b) eqn:Hb; try discriminate.
  intros [= _ <-]. exists a, b. auto.
Qed.

Lemma getnum_free_inv value n rest :
  getnum value false = Some (n, rest) ->
  exists a, isDigit a = true
    /\ ((exists b, value = String a (String b rest) /\ isDigit b = true)
        \/ (value = String a rest
            /\ match rest with
               | String b _ => isDigit b = false
               | EmptyString => True
               end)).
Proof.
  destruct value as [|a [|b value]]; simpl; try discriminate;
    destruct (isDigit a) eqn:Ha; try discriminate.
  - intros [= _ <-]. exists a. auto.
  - destruct (isDigit b) eqn:Hb.
    + intros [= _ <-]. exists a. split; [exact Ha|]. left. exists b. auto.
    + intros [= _ <-]. exists a. split; [exact Ha|]. right. auto.
Qed.

Lemma skip_char_inv value (p : ascii) rest :
  Ascii.eqb p " " = false ->
  skip value (String p EmptyString) = Some rest -> value = String p rest.
Proof.
  intros Hp. unfold skip. simpl. rewrite Hp.
  destruct value as [|v value]; [discriminate|].
  destruct (Ascii.eqb_spec v p) as [->|]; [|discriminate].
  intros [= <-]. reflexivity.
Qed.

Lemma digit_is_no_slash (c : ascii) : isDigit c = true -> Ascii.eqb c "/" = false.
Proof.
  intros H. destruct (Ascii.eqb_spec c "/") as [->|]; [discriminate H|reflexivity].
Qed.

Lemma parseChunks_cons c chunks value f r :
  parseChunks (c :: chunks) value f = Some r ->
  exists f' value', parseChunk c value f = Some (f', value')
                    /\ parseChunks chunks value' f' = Some r.
Proof.
  simpl. destruct (parseChunk c value f) as [[f' value']|]; [|discriminate].
  intros H. exists f', value'. auto.
Qed.

Lemma year_then_char (p : ascii) chunks value f r :
  Ascii.eqb p " " = false ->
  parseChunks (stdLongYear :: literal (String p EmptyString) :: chunks) value f = Some r ->
  exists a b c d rest,
    value = String a (String b (String c (String d (String p rest))))
    /\ isDigit a = true /\ isDigit b = true /\ isDigit c = true /\ isDigit d = true.
Proof.
  intros Hp H.
  apply parseChunks_cons in H as (f1 & v1 & H1 & H).
  apply parseChunks_cons in H as (f2 & v2 & H2 & _).
  simpl in H1, H2.
  destruct (getyear value) as [[y v]|] eqn:Ey; [|discriminate]. injection H1 as _ ->.
  destruct (skip v1 (String p EmptyString)) as [v|] eqn:Es; [|discriminate].
  apply (skip_char_inv _ _ _ Hp) in Es as ->.
  apply getyear_inv in Ey as (a & b & c & d & -> & Ha & Hb & Hc & Hd).
  exists a, b, c, d, v. auto 10.
Qed.

Lemma shape_year (p : ascii) value :
  forall a b c d rest,
    value = String a (String b (String c (String d (String p rest)))) ->
    isDigit a = true -> isDigit b = true -> isDigit c = true -> isDigit d = true ->
    shapeOf value =
    if Ascii.eqb p "-" then YearDash
    else if Ascii.eqb p "/" then YearSlash else OtherShape.
Proof.
  intros a b c d rest -> Ha Hb Hc Hd. simpl.
  rewrite Ha, Hb, Hc, Hd, (digit_is_no_slash b Hb), (digit_is_no_slash c Hc).
  reflexivity.
Qed.

Lemma shape_two_digits chunks value f r :
  parseChunks (stdZeroDay :: literal "/" :: chunks) value f = Some r ->
  shapeOf value = TwoDigitsSlash.
Proof.
  intros H.
  apply parseChunks_cons in H as (f1 & v1 & H1 & H).
  apply parseChunks_cons in H as (f2 & v2 & H2 & _).
  simpl in H1, H2.
  destruct (getnum value true) as [[n v]|] eqn:En; [|discriminate]. injection H1 as _ ->.
  destruct (skip v1 "/") as [v|] eqn:Es; [|discriminate].
  apply skip_char_inv in Es as ->; [|reflexivity].
  apply getnum_fixed_inv in En as (a & b & -> & Ha & Hb).
  simpl. rewrite Ha, Hb, (digit_is_no_slash b Hb). reflexivity.
Qed.

Lemma shape_month_first chunks value f r :
  parseChunks (stdNumMonth :: literal "/" :: chunks) value f = Some r ->
  shapeOf value = DigitSlash \/ shapeOf value = TwoDigitsSlash.
Proof.
  intros H.
  apply parseChunks_cons in H as (f1 & v1 & H1 & H).
  apply parseChunks_cons in H as (f2 & v2 & H2 & _).
  simpl in H1, H2.
  destruct (getnum value false) as [[n v]|] eqn:En; [|discriminate].
  destruct ((n <=? 0) || (12 <? n)); [discriminate|]. injection H1 as _ ->.
  destruct (skip v1 "/") as [v|] eqn:Es; [|discriminate].
  apply skip_char_inv in Es as ->; [|reflexivity].
  apply getnum_free_inv in En as (a & Ha & [(b & -> & Hb)|[-> _]]).
  - right. simpl. rewrite Ha, Hb, (digit_is_no_slash b Hb). reflexivity.
  - left. simpl. rewrite Ha. reflexivity.
Qed.

(** A character that matches a letter of a month name is not a digit. *)
Lemma matchChar_no_digit (c1 c2 : ascii) :
  matchChar c1 c2 = true -> isDigit c2 = false -> isDigit c1 = false.
Proof.
  unfold matchChar. intros H Hc2.
  destruct (Ascii.eqb_spec c1 c2) as [->|_]; [exact Hc2|]. simpl in H.
  destruct (isDigit c1) eqn:Hc1; [|reflexivity]. exfalso.
  unfold isDigit in Hc1. apply andb_true_iff in Hc1 as [Hlo Hhi].
  apply N.leb_le in Hlo, Hhi.
  set (n := N_of_ascii c1) in *.
  assert (Hcases : (n = 48 \/ n = 49 \/ n = 50 \/ n = 51 \/ n = 52 \/ n = 53
                    \/ n = 54 \/ n = 55 \/ n = 56 \/ n = 57)%N) by lia.
  apply andb_true_iff in H as [H _]. apply andb_true_iff in H as [_ H].
  clearbody n. decompose [or] Hcases; subst n; vm_compute in H; discriminate H.
Qed.

Lemma matchName_no_digit (c2 : ascii) (v val rest : string) :
  isDigit c2 = false -> matchName (String c2 v) val = Some rest -> shapeOf val = NoDigit.
Proof.
  intros Hc2. simpl. destruct val as [|c1 val]; [discriminate|].
  destruct (matchChar c1 c2) eqn:Hm; [|discriminate]. intros _.
  simpl. rewrite (matchChar_no_digit c1 c2 Hm Hc2). reflexivity.
Qed.

Lemma lookupFrom_no_digit (tab : list string) :
  Forall (fun name => exists c v, name = String c v /\ isDigit c = false) tab ->
  forall (i : Z) (val : string) r, lookupFrom i tab val = Some r -> shapeOf val = NoDigit.
Proof.
  induction 1 as [|name tab (c & v & -> & Hc) _ IH]; intros i val r H; [discriminate|].
  cbn [lookupFrom] in H.
  destruct (matchName (String c v) val) as [rest|] eqn:Em.
  - exact (matchName_no_digit c v val rest Hc Em).
  - exact (IH _ _ _ H).
Qed.

Lemma shape_long_month chunks value f r :
  parseChunks (stdLongMonth :: chunks) value f = Some r -> shapeOf value = NoDigit.
Proof.
  intros H. apply parseChunks_cons in H as (f1 & v1 & H1 & _).
  cbn [parseChunk] in H1.
  destruct (lookup longMonthNames value) as [[m v]|] eqn:El; [|discriminate].
  apply (lookupFrom_no_digit longMonthNames) in El; [exact El|].
  unfold longMonthNames. repeat constructor; eexists _, _; split; reflexivity.
Qed.

Lemma parse_accepts chunks value t :
  parse chunks value = Some t ->
  exists f, parseChunks chunks value initialFields = Some (f, EmptyString)
            /\ finish f = Some t.
Proof.
  unfold parse. destruct (parseChunks chunks value initialFields) as [[f rest]|];
    [|discriminate].
  destruct rest; [|discriminate]. intros H. exists f. auto.
Qed.

(** An accepted input has one of the shapes of the layout. *)
Lemma Parse_shape (layout value : string) t :
  In layout layouts -> Parse layout value = Some t ->
  In (shapeOf value) (layoutShapes layout).
Proof.
  intros Hin H. unfold Parse in H. apply parse_accepts in H as (f & H & _).
  simpl in Hin.
  repeat (destruct Hin as [<-|Hin];
          [match type of H with
           | parseChunks (layoutChunks ?l) _ _ = _ =>
               let chunks := eval vm_compute in (layoutChunks l) in
               change (layoutChunks l) with chunks in H
           end;
           match type of H with
           | parseChunks (stdLongYear :: literal "-" :: _) _ _ = _ =>
               apply (year_then_char "-") in H
                 as (a & b & c & d & rest & E & Ha & Hb & Hc & Hd);
               [rewrite (shape_year "-" value a b c d rest E Ha Hb Hc Hd)|reflexivity]
           | parseChunks (stdLongYear :: literal "/" :: _) _ _ = _ =>
               apply (year_then_char "/") in H
                 as (a & b & c & d & rest & E & Ha & Hb & Hc & Hd);
               [rewrite (shape_year "/" value a b c d rest E Ha Hb Hc Hd)|reflexivity]
           | parseChunks (stdZeroDay :: _) _ _ = _ =>
               apply shape_two_digits in H; rewrite H
           | parseChunks (stdNumMonth :: _) _ _ = _ =>
               apply shape_month_first in H as [H|H]; rewrite H
           | parseChunks (stdLongMonth :: _) _ _ = _ =>
               apply shape_long_month in H; rewrite H
           end; simpl; tauto|]).
  contradiction.
Qed.

End LayoutShapes.

Section LayoutPairs.

Import TimeParse.

Local Arguments isDigit : simpl never.
Local Arguments digit : simpl never.

Implicit Types (value : string) (f : fields) (chunks : list chunk).

Lemma parse_app_accepts chunks1 chunks2 value t :
  parse (chunks1 ++ chunks2) value = Some t ->
  exists f rest f',
    parseChunks chunks1 value initialFields = Some (f, rest)
    /\ parseChunks chunks2 rest f = Some (f', EmptyString).
Proof.
  intros H. apply parse_accepts in H as (f' & H & _). rewrite parseChunks_app in H.
  destruct (parseChunks chunks1 value initialFields) as [[f rest]|]; [|discriminate].
  exists f, rest, f'. auto.
Qed.

(** A layout and the same layout followed by elements that need input. *)
Lemma prefix_layout_disjoint chunks1 chunks2 value t1 t2 :
  (forall f, parseChunks chunks2 EmptyString f = None) ->
  parse chunks1 value = Some t1 -> parse (chunks1 ++ chunks2) value = Some t2 -> False.
Proof.
  intros Hneeds H1 H2.
  apply parse_accepts in H1 as (f1 & H1 & _).
  apply parse_app_accepts in H2 as (f & rest & f' & H2 & H3).
  rewrite H1 in H2. injection H2 as <- <-. rewrite Hneeds in H3. discriminate.
Qed.

Lemma utc_offset_disjoint value t1 t2 :
  parse ((dateChunks ++ clockChunks) ++ [literal "Z"]) value = Some t1 ->
  parse ((dateChunks ++ clockChunks) ++ [stdNumColonTZ]) value = Some t2 -> False.
Proof.
  rewrite !parse_snoc.
  destruct (parseChunks (dateChunks ++ clockChunks) value initialFields)
    as [[f rest]|]; [|discriminate].
  cbn [parseChunk]. rewrite skip_Z.
  destruct rest as [|c rest]; [discriminate|].
  destruct (Ascii.eqb_spec c "Z") as [->|]; [|discriminate].
  destruct rest; [|discriminate]. intros _. simpl. discriminate.
Qed.

Lemma dayFirst_inv value f0 f rest :
  parseChunks dayFirstChunks value f0 = Some (f, rest) ->
  exists a b c d y1 y2 y3 y4,
    value = String a (String b (String "/" (String c (String d (String "/"
              (String y1 (String y2 (String y3 (String y4 rest)))))))))
    /\ isDigit a = true /\ isDigit b = true /\ isDigit c = true /\ isDigit d = true
    /\ isDigit y1 = true /\ isDigit y2 = true /\ isDigit y3 = true /\ isDigit y4 = true.
Proof.
  intros H. unfold dayFirstChunks in H.
  apply parseChunks_cons in H as (f1 & v1 & H1 & H).
  apply parseChunks_cons in H as (f2 & v2 & H2 & H).
  apply parseChunks_cons in H as (f3 & v3 & H3 & H).
  apply parseChunks_cons in H as (f4 & v4 & H4 & H).
  apply parseChunks_cons in H as (f5 & v5 & H5 & H).
  injection H as _ ->.
  cbn [parseChunk] in H1, H2, H3, H4, H5.
  destruct (getnum value true) as [[n1 w1]|] eqn:E1; [|discriminate]. injection H1 as _ ->.
  destruct (skip v1 "/") as [w2|] eqn:E2; [|discriminate]. injection H2 as _ ->.
  destruct (getnum v2 true) as [[n3 w3]|] eqn:E3; [|discriminate].
  destruct ((n3 <=? 0) || (12 <? n3)); [discriminate|]. injection H3 as _ ->.
  destruct (skip v3 "/") as [w4|] eqn:E4; [|discriminate]. injection H4 as _ ->.
  destruct (getyear v4) as [[y w5]|] eqn:E5; [|discriminate]. injection H5 as _ ->.
  apply getnum_fixed_inv in E1 as (a & b & -> & Ha & Hb).
  apply skip_char_inv in E2 as ->; [|reflexivity].
  apply getnum_fixed_inv in E3 as (c & d & -> & Hc & Hd).
  apply skip_char_inv in E4 as ->; [|reflexivity].
  apply getyear_inv in E5 as (y1 & y2 & y3 & y4 & -> & Hy1 & Hy2 & Hy3 & Hy4).
  exists a, b, c, d, y1, y2, y3, y4. auto 15.
Qed.

(** On an input with two digits in both of the first fields, the layout
    "1/2/2006" reads as far as "02/01/2006" does. *)
Lemma monthFirst_rest (a b c d y1 y2 y3 y4 : ascii) rest f0 g rest' :
  isDigit a = true -> isDigit b = true -> isDigit c = true -> isDigit d = true ->
  isDigit y1 = true -> isDigit y2 = true -> isDigit y3 = true -> isDigit y4 = true ->
  parseChunks monthFirstChunks
    (String a (String b (String "/" (String c (String d (String "/"
       (String y1 (String y2 (String y3 (String y4 rest)))))))))) f0 = Some (g, rest') ->
  rest' = rest.
Proof.
  intros Ha Hb Hc Hd Hy1 Hy2 Hy3 Hy4 H. unfold monthFirstChunks in H.
  cbn [parseChunks parseChunk getnum] in H. rewrite Ha, Hb in H.
  destruct ((digit a * 10 + digit b <=? 0) || (12 <? digit a * 10 + digit b));
    [discriminate|].
  cbn [parseChunks parseChunk getnum skip skipFrom] in H.
  change (Ascii.eqb "/" " ") with false in H. cbv iota in H.
  rewrite Ascii.eqb_refl in H.
  cbn [parseChunks parseChunk getnum] in H. rewrite Hc, Hd in H.
  cbn [parseChunks parseChunk getnum skip skipFrom] in H.
  change (Ascii.eqb "/" " ") with false in H. cbv iota in H.
  rewrite Ascii.eqb_refl in H.
  cbn [parseChunks parseChunk getyear] in H. rewrite Hy1, Hy2, Hy3, Hy4 in H.
  cbn [andb parseChunks] in H. injection H as _ <-. reflexivity.
Qed.

Lemma dayFirst_time_monthFirst_disjoint chunks value t1 t2 :
  (forall f, parseChunks chunks EmptyString f = None) ->
  parse (dayFirstChunks ++ chunks) value = Some t1 ->
  parse monthFirstChunks value = Some t2 -> False.
Proof.
  intros Hneeds H1 H2.
  apply parse_app_accepts in H1 as (f & rest & f' & H1 & H3).
  apply parse_accepts in H2 as (g & H2 & _).
  apply dayFirst_inv in H1
    as (a & b & c & d & y1 & y2 & y3 & y4 & -> & Ha & Hb & Hc & Hd & Hy1 & Hy2 & Hy3 & Hy4).
  apply monthFirst_rest in H2; try assumption.
  subst rest. rewrite Hneeds in H3. discriminate.
Qed.

End LayoutPairs.

Section LayoutOverlap.

Import TimeParse.

Variable value : string.

Lemma plain_date_alone t1 t2 :
  Parse "2006-01-02" value = Some t1 ->
  Parse "2006-01-02T15:04:05Z" value = Some t2
  \/ Parse "2006-01-02T15:04:05" value = Some t2
  \/ Parse "2006-01-02T15:04:05-07:00" value = Some t2 -> False.
Proof.
  unfold Parse. intros H1 [H2|[H2|H2]].
  - apply (prefix_layout_disjoint dateChunks (clockChunks ++ [literal "Z"])
             value t1 t2); [reflexivity|exact H1|exact H2].
  - apply (prefix_layout_disjoint dateChunks clockChunks value t1 t2);
      [reflexivity|exact H1|exact H2].
  - apply (prefix_layout_disjoint dateChunks (clockChunks ++ [stdNumColonTZ])
             value t1 t2); [reflexivity|exact H1|exact H2].
Qed.

Lemma no_zone_alone t1 t2 :
  Parse "2006-01-02T15:04:05" value = Some t1 ->
  Parse "2006-01-02T15:04:05Z" value = Some t2
  \/ Parse "2006-01-02T15:04:05-07:00" value = Some t2 -> False.
Proof.
  unfold Parse. intros H1 [H2|H2].
  - apply (prefix_layout_disjoint (dateChunks ++ clockChunks) [literal "Z"]
             value t1 t2); [reflexivity|exact H1|exact H2].
  - apply (prefix_layout_disjoint (dateChunks ++ clockChunks) [stdNumColonTZ]
             value t1 t2); [reflexivity|exact H1|exact H2].
Qed.

Lemma utc_alone t1 t2 :
  Parse "2006-01-02T15:04:05Z" value = Some t1 ->
  Parse "2006-01-02T15:04:05-07:00" value = Some t2 -> False.
Proof. unfold Parse. intros H1 H2. exact (utc_offset_disjoint value t1 t2 H1 H2). Qed.

Lemma regional_time_alone t1 t2 :
  Parse "02/01/2006 15:04" value = Some t1 ->
  Parse "02/01/2006" value = Some t2 \/ Parse "1/2/2006" value = Some t2 -> False.
Proof.
  unfold Parse. intros H1 [H2|H2].
  - apply (prefix_layout_disjoint dayFirstChunks
             [literal " "; stdHour; literal ":"; stdZeroMinute] value t2 t1);
      [reflexivity|exact H2|exact H1].
  - apply (dayFirst_time_monthFirst_disjoint
             [literal " "; stdHour; literal ":"; stdZeroMinute] value t1 t2);
      [reflexivity|exact H1|exact H2].
Qed.

(** Two different layouts of the list that accept the same input are
    "02/01/2006" and "1/2/2006". *)
Lemma layouts_pairwise (l1 l2 : string) t1 t2 :
  In l1 layouts -> In l2 layouts -> l1 <> l2 ->
  Parse l1 value = Some t1 -> Parse l2 value = Some t2 ->
  (l1 = "02/01/2006" /\ l2 = "1/2/2006")%string
  \/ (l1 = "1/2/2006" /\ l2 = "02/01/2006")%string.
Proof.
  intros Hin1 Hin2 Hne H1 H2.
  pose proof (Parse_shape l1 value t1 Hin1 H1) as S1.
  pose proof (Parse_shape l2 value t2 Hin2 H2) as S2.
  simpl in Hin1, Hin2.
  repeat (destruct Hin1 as [<-|Hin1]); try contradiction;
    repeat (destruct Hin2 as [<-|Hin2]); try contradiction;
    try (exfalso; apply Hne; reflexivity);
    try (left; split; reflexivity); try (right; split; reflexivity);
    try (exfalso; simpl in S1, S2; intuition congruence);
    exfalso; clear S1 S2 Hne;
    eauto using plain_date_alone, no_zone_alone, utc_alone, regional_time_alone.
Qed.

Lemma tryLayouts_some (ls : list string) t :
  tryLayouts ls value = Some t -> exists l, In l ls /\ Parse l value = Some t.
Proof.
  induction ls as [|l rest IH]; simpl; [discriminate|].
  destruct (Parse l value) as [t'|] eqn:E.
  - intros [= ->]. exists l. auto.
  - intros H. destruct (IH H) as (l' & Hin & Hl'). exists l'. auto.
Qed.

(** When the layouts that accept the input agree on the result, the order
    of the list does not matter. *)
Lemma tryLayouts_reordered (ls ls' : list string) :
  (forall l, In l ls <-> In l ls') ->
  (forall l1 l2 t1 t2, In l1 ls -> In l2 ls ->
     Parse l1 value = Some t1 -> Parse l2 value = Some t2 -> t1 = t2) ->
  tryLayouts ls' value = tryLayouts ls value.
Proof.
  intros Hsame Hagree.
  destruct (tryLayouts ls value) as [t|] eqn:E.
  - apply tryLayouts_some in E as (l & Hin & Hl).
    destruct (tryLayouts ls' value) as [t'|] eqn:E'.
    + apply tryLayouts_some in E' as (l' & Hin' & Hl'). f_equal.
      apply (Hagree l' l t' t); [apply Hsame; exact Hin'|exact Hin|exact Hl'|exact Hl].
    + rewrite tryLayouts_none in E'. rewrite (E' l) in Hl by (apply Hsame; exact Hin).
      discriminate.
  - rewrite tryLayouts_none in E |- *. intros l Hin. apply E, Hsame, Hin.
Qed.

End LayoutOverlap.

Lemma layoutsMonthFirst_Permutation : Permutation layouts layoutsMonthFirst.
Proof. unfold layouts, layoutsMonthFirst. do 5 apply perm_skip. apply perm_swap. Qed.

(** C8 (corrected).  For every input string, two distinct layouts of the
    list both parse it only if they are "02/01/2006" (day first) and
    "1/2/2006" (month first); every other pair is disjoint.  Whenever these
    two do not give different timestamps for the string, [parseDate] returns
    the same for every reordering of the list. *)
Theorem layouts_overlap_only_day_month (dateStr : string) :
  (forall l1 l2 t1 t2,
     In l1 layouts -> In l2 layouts -> l1 <> l2 ->
     TimeParse.Parse l1 dateStr = Some t1 -> TimeParse.Parse l2 dateStr = Some t2 ->
     (l1 = "02/01/2006" /\ l2 = "1/2/2006")%string
     \/ (l1 = "1/2/2006" /\ l2 = "02/01/2006")%string)
  /\ (forall reordered,
        Permutation layouts reordered ->
        (forall t1 t2,
           TimeParse.Parse "02/01/2006" dateStr = Some t1 ->
           TimeParse.Parse "1/2/2006" dateStr = Some t2 -> t1 = t2) ->
        parseDateWith reordered dateStr = parseDate dateStr).
Proof.
  split; [intros l1 l2 t1 t2; apply layouts_pairwise|].
  intros reordered Hperm Hagree. unfold parseDate, parseDateWith.
  rewrite (tryLayouts_reordered dateStr layouts reordered); [reflexivity| |].
  - intros l. split; intros Hin.
    + apply list_elem_of_In. rewrite <- Hperm. apply list_elem_of_In, Hin.
    + apply list_elem_of_In. rewrite Hperm. apply list_elem_of_In, Hin.
  - intros l1 l2 t1 t2 Hin1 Hin2 H1 H2.
    destruct (string_dec l1 l2) as [->|Hne]; [congruence|].
    destruct (layouts_pairwise dateStr l1 l2 t1 t2 Hin1 Hin2 Hne H1 H2)
      as [[-> ->]|[-> ->]].
    + exact (Hagree t1 t2 H1 H2).
    + symmetry. exact (Hagree t2 t1 H2 H1).
Qed.

Lemma layouts_overlap_only_day_month_witness :
  parseDateWith layoutsMonthFirst "2024-06-03" = parseDate "2024-06-03".
Proof.
  destruct (layouts_overlap_only_day_month "2024-06-03") as [_ Horder].
  apply Horder.
  - unfold layouts, layoutsMonthFirst. do 5 apply perm_skip. apply perm_swap.
  - intros t1 t2 H1 H2. vm_compute in H1. discriminate H1.
Defined.

(** Both "02/01/2006" and "1/2/2006" parse "05/06/2024", as the fifth of
    June and as the sixth of May; [parseDate] returns the former, and the
    latter once the two layouts change places. *)
Lemma day_month_layouts_overlap :
  In "02/01/2006"%string layouts /\ In "1/2/2006"%string layouts
  /\ TimeParse.Parse "02/01/2006" "05/06/2024" = Some (day 2024 6 5)
  /\ TimeParse.Parse "1/2/2006" "05/06/2024" = Some (day 2024 5 6)
  /\ day 2024 6 5 <> day 2024 5 6
  /\ Permutation layouts layoutsMonthFirst
  /\ parseDate "05/06/2024" = (day 2024 6 5, None)
  /\ parseDateWith layoutsMonthFirst "05/06/2024" = (day 2024 5 6, None).
Proof.
  split; [simpl; tauto|]. split; [simpl; tauto|].
  split; [vm_compute; reflexivity|]. split; [vm_compute; reflexivity|].
  split; [vm_compute; discriminate|].
  split; [apply layoutsMonthFirst_Permutation|].
  split; vm_compute; reflexivity.
Qed.

(** ** Further properties of [calculateWorkingDays] *)

Section WorkingDaysAlgebra.

Implicit Types (start finish current d : Time) (E : list DayOff) (x : DayOff).

Lemma daysFrom_app current (a b : nat) :
  daysFrom current (a + b) =
  daysFrom current a ++ daysFrom (Add current (Z.of_nat a * (24 * Hour))) b.
Proof.
  unfold daysFrom. rewrite seq_app, map_app. f_equal. generalize 0%nat.
  induction b as [|b IH]; intros s; simpl; [reflexivity|].
  f_equal; [rewrite Add_Add; f_equal; lia|]. exact (IH (S s)).
Qed.

Lemma loopTurns_exact start finish (n : Z) :
  0 <= n -> instant start + n * (24 * Hour) <= instant finish ->
  instant finish < instant start + (n + 1) * (24 * Hour) ->
  loopTurns start finish = Z.to_nat (n + 1).
Proof.
  intros Hn Hlo Hhi. unfold loopTurns. pose proof day_positive as HD.
  destruct (Z.leb_spec (instant start) (instant finish)); [|nia].
  f_equal. f_equal. symmetry. apply (Z.div_unique_pos _ _ n (instant finish - instant start - n * (24 * Hour))); lia.
Qed.

Lemma loopTurns_skip start finish (k : nat) :
  instant start + Z.of_nat k * (24 * Hour) <= instant finish + 24 * Hour ->
  loopTurns start finish =
  (k + loopTurns (Add start (Z.of_nat k * (24 * Hour))%Z) finish)%nat.
Proof.
  pose proof day_positive as HD.
  induction k as [|k IH]; intros Hle.
  - rewrite Add_zero. reflexivity.
  - rewrite Nat2Z.inj_succ, Z.mul_succ_l in Hle |- *.
    rewrite IH by lia.
    rewrite (loopTurns_step (Add start (Z.of_nat k * (24 * Hour))) finish)
      by (simpl; lia).
    rewrite Add_Add. lia.
Qed.

Lemma calculateWorkingDays_count start finish E :
  calculateWorkingDays start finish E =
  countWorking E (daysFrom start (loopTurns start finish)).
Proof. rewrite calculateWorkingDays_spec. reflexivity. Qed.

Lemma countWorking_app E (l1 l2 : list Time) :
  countWorking E (l1 ++ l2) = countWorking E l1 + countWorking E l2.
Proof. unfold countWorking. rewrite List.filter_app, length_app. lia. Qed.

Lemma countWorking_bounds E (l : list Time) :
  0 <= countWorking E l <= countWorking [] l /\ countWorking [] l <= Z.of_nat (length l).
Proof.
  unfold countWorking. split; [split; [lia|]|].
  - apply Nat2Z.inj_le, filter_length_le. intros d.
    rewrite isWorkingDay_nil. unfold isWorkingDay. intros H.
    apply andb_true_iff in H. apply H.
  - apply Nat2Z.inj_le, List.filter_length_le.
Qed.

End WorkingDaysAlgebra.

(** X1.  The count is never negative, never more than the count without
    exclusions, and that one never more than the number of days of the
    range: the whole days between [start] and [finish] plus one, or none
    when [start] is after [finish]. *)
Theorem workingDays_bounded (start finish : Time) (E : list DayOff) :
  0 <= calculateWorkingDays start finish E
  /\ calculateWorkingDays start finish E <= calculateWorkingDays start finish []
  /\ calculateWorkingDays start finish [] <=
     Z.max 0 ((instant finish - instant start) / (24 * Hour) + 1).
Proof.
  rewrite !calculateWorkingDays_count.
  destruct (countWorking_bounds E (daysFrom start (loopTurns start finish)))
    as [[H0 H1] H2].
  split; [exact H0|]. split; [exact H1|].
  etransitivity; [exact H2|].
  unfold daysFrom. rewrite length_map, length_seq. unfold loopTurns.
  destruct (Z.leb_spec (instant start) (instant finish)); lia.
Qed.

(** X2.  A range can be cut after any whole number [k] of days: the count
    over the range is the count over its first [k] days plus the count
    from day [k] on. *)
Theorem workingDays_split (start finish : Time) (E : list DayOff) (k : Z) :
  0 <= k -> instant start + k * (24 * Hour) <= instant finish ->
  calculateWorkingDays start finish E =
  calculateWorkingDays start (Add start ((k - 1) * (24 * Hour))) E
  + calculateWorkingDays (Add start (k * (24 * Hour))) finish E.
Proof.
  intros Hk Hle. pose proof day_positive as HD.
  rewrite !calculateWorkingDays_count.
  rewrite (loopTurns_skip start finish (Z.to_nat k)) by (rewrite Z2Nat.id; lia).
  rewrite daysFrom_app, countWorking_app, Z2Nat.id by lia. f_equal. f_equal. f_equal.
  destruct (Z.eq_dec k 0) as [->|Hne].
  - rewrite loopTurns_zero by (simpl; lia). reflexivity.
  - rewrite (loopTurns_exact start _ (k - 1)) by (simpl; lia). f_equal. lia.
Qed.

Lemma workingDays_split_witness :
  calculateWorkingDays (day 2024 6 3) (day 2024 6 14) [] =
  calculateWorkingDays (day 2024 6 3) (Add (day 2024 6 3) ((7 - 1) * (24 * Hour))) []
  + calculateWorkingDays (Add (day 2024 6 3) (7 * (24 * Hour))) (day 2024 6 14) [].
Proof.
  apply (workingDays_split (day 2024 6 3) (day 2024 6 14) [] 7);
    vm_compute; discriminate.
Defined.

Section WorkingWeeks.

Lemma isWeekend_Add (start : Time) (k : Z) :
  zoneOffset (Add start (k * (24 * Hour))) = zoneOffset start ->
  isWeekend (Add start (k * (24 * Hour))) =
  match weekdayOfZ (((localDay start + 1) mod 7 + k) mod 7) with
  | Saturday | Sunday => true
  | _ => false
  end.
Proof.
  intros Hzone. unfold isWeekend, WeekdayOf. rewrite (localDay_Add _ _ Hzone).
  rewrite Z.add_mod_idemp_l by lia.
  replace (localDay start + 1 + k) with (localDay start + k + 1) by lia. reflexivity.
Qed.

(** Seven consecutive days at one offset hold five working days. *)
Lemma one_week (start : Time) :
  (forall k : Z, 0 <= k < 7 ->
     zoneOffset (Add start (k * (24 * Hour))) = zoneOffset start) ->
  countWorking [] (daysFrom start 7) = 5.
Proof.
  intros Hloc. unfold countWorking, daysFrom. cbn [seq map].
  rewrite (List.filter_ext _ (fun d => negb (isWeekend d)) isWorkingDay_nil).
  cbn [List.filter]. change (Z.of_nat 0) with 0. change (Z.of_nat 1) with 1.
  change (Z.of_nat 2) with 2. change (Z.of_nat 3) with 3. change (Z.of_nat 4) with 4.
  change (Z.of_nat 5) with 5. change (Z.of_nat 6) with 6.
  rewrite !isWeekend_Add by (apply Hloc; lia).
  pose proof (Z.mod_pos_bound (localDay start + 1) 7 eq_refl) as Hr.
  set (r := (localDay start + 1) mod 7) in *.
  assert (Hcases : r = 0 \/ r = 1 \/ r = 2 \/ r = 3 \/ r = 4 \/ r = 5 \/ r = 6) by lia.
  clearbody r. decompose [or] Hcases; subst r; reflexivity.
Qed.

End WorkingWeeks.

(** X3.  Without exclusions a range of [n] whole weeks, from [start] to the
    same time of day on the last of its [7 n] days, has [5 n] working days,
    whatever the weekday and the time of day of [start], provided the
    location of [start] keeps one offset at the instants visited. *)
Theorem workingDays_whole_weeks (start : Time) (n : nat) :
  (forall k : Z, 0 <= k < 7 * Z.of_nat n ->
     zoneOffset (Add start (k * (24 * Hour))) = zoneOffset start) ->
  calculateWorkingDays start (Add start ((7 * Z.of_nat n - 1) * (24 * Hour))) [] =
  5 * Z.of_nat n.
Proof.
  intros Hloc. pose proof day_positive as HD.
  rewrite calculateWorkingDays_count.
  replace (loopTurns start (Add start ((7 * Z.of_nat n - 1) * (24 * Hour))))
    with (7 * n)%nat.
  - revert start Hloc. induction n as [|n IH]; intros start Hloc; [reflexivity|].
    replace (7 * S n)%nat with (7 + 7 * n)%nat by lia.
    rewrite daysFrom_app, countWorking_app, one_week, IH; [lia| |].
    + intros k Hk. rewrite Add_Add. change (Z.of_nat 7) with 7.
      replace (7 * (24 * Hour) + k * (24 * Hour)) with ((7 + k) * (24 * Hour)) by lia.
      rewrite (Hloc (7 + k)) by lia. symmetry. apply Hloc. lia.
    + intros k Hk. apply Hloc. lia.
  - destruct n as [|n].
    + rewrite loopTurns_zero by (simpl; lia). reflexivity.
    + rewrite (loopTurns_exact start _ (7 * Z.of_nat (S n) - 1)) by (simpl; lia). lia.
Qed.

Lemma workingDays_whole_weeks_witness :
  let start := Date 2024 6 5 13 30 0 0 7200 in
  calculateWorkingDays start (Add start ((7 * 2 - 1) * (24 * Hour))) [] = 10.
Proof.
  intros start. apply (workingDays_whole_weeks start 2).
  intros k Hk. reflexivity.
Defined.

(** Across a change of the clocks the visited instants do not fall on
    consecutive calendar days.  From Monday 25 March 2024 at 23:30 in a
    location that goes from one to two hours east of UTC on 31 March, the
    seventh instant visited is Monday 1 April at 00:30, no instant falls
    on the Sunday, and the week holds six working days. *)
Example week_across_clock_change :
  WeekdayOf mondayBeforeClockChange = Monday
  /\ WeekdayOf (Add mondayBeforeClockChange (5 * (24 * Hour))) = Saturday
  /\ WeekdayOf (Add mondayBeforeClockChange (6 * (24 * Hour))) = Monday
  /\ zoneOffset mondayBeforeClockChange = 3600
  /\ zoneOffset (Add mondayBeforeClockChange (6 * (24 * Hour))) = 7200
  /\ calculateWorkingDays mondayBeforeClockChange
       (Add mondayBeforeClockChange (6 * (24 * Hour))) [] = 6.
Proof. repeat split; vm_compute; reflexivity. Qed.

(** X4.  Only the days that the exclusions cover matter: when every
    interval of [E] is also in [E'], the count under [E'] is at most the
    count under [E]; hence lists with the same intervals, in any order and
    with any repetitions, give the same count. *)
Theorem workingDays_exclusions_as_set (start finish : Time) (E E' : list DayOff) :
  ((forall x, In x E -> In x E') ->
   calculateWorkingDays start finish E' <= calculateWorkingDays start finish E)
  /\ ((forall x, In x E <-> In x E') ->
      calculateWorkingDays start finish E' = calculateWorkingDays start finish E).
Proof.
  assert (Hle : forall A B : list DayOff, (forall x, In x A -> In x B) ->
            calculateWorkingDays start finish B <= calculateWorkingDays start finish A).
  { intros A B Hsub. rewrite !calculateWorkingDays_spec. unfold visitedWorkingDays.
    apply Nat2Z.inj_le, filter_length_le. intros d. unfold isWorkingDay.
    rewrite !andb_true_iff, !negb_true_iff. intros [Hw Hb]. split; [exact Hw|].
    destruct (existsb (withinExclusion d) A) eqn:Ha; [|reflexivity].
    apply existsb_exists in Ha as (x & Hin & Hx).
    rewrite <- Hb. symmetry. apply existsb_exists. exists x. auto. }
  split; [apply Hle|].
  intros Hsame. apply Z.le_antisymm; apply Hle; intros x; apply Hsame.
Qed.

Lemma workingDays_exclusions_as_set_witness :
  calculateWorkingDays (day 2024 6 3) (day 2024 6 14)
    [mkDayOff (day 2024 6 5) (day 2024 6 5); mkDayOff (day 2024 6 10) (day 2024 6 11);
     mkDayOff (day 2024 6 5) (day 2024 6 5)] =
  calculateWorkingDays (day 2024 6 3) (day 2024 6 14)
    [mkDayOff (day 2024 6 10) (day 2024 6 11); mkDayOff (day 2024 6 5) (day 2024 6 5)].
Proof.
  apply workingDays_exclusions_as_set. intros x. simpl. tauto.
Defined.

Lemma filter_none {A} (p : A -> bool) (l : list A) :
  (forall a, In a l -> p a = false) -> List.filter p l = [].
Proof.
  induction l as [|a l IH]; intros H; simpl; [reflexivity|].
  rewrite (H a) by (left; reflexivity). apply IH. intros b Hb. apply H. right. exact Hb.
Qed.

(** X5.  An exclusion interval that reaches from [start] or before to
    [finish] or after leaves no working day. *)
Theorem workingDays_fully_excluded (start finish : Time) (E : list DayOff) (x : DayOff) :
  In x E -> instant (Start x) <= instant start -> instant finish <= instant (End x) ->
  calculateWorkingDays start finish E = 0.
Proof.
  intros Hin Hlo Hhi. pose proof day_positive as HD.
  rewrite calculateWorkingDays_spec. unfold visitedWorkingDays.
  rewrite filter_none; [reflexivity|]. intros d Hd.
  apply visitedDays_In in Hd as (k & Hk & -> & Hle). simpl in Hle.
  unfold isWorkingDay. apply andb_false_iff. right.
  rewrite negb_false_iff. apply existsb_exists. exists x. split; [exact Hin|].
  unfold withinExclusion. simpl. apply andb_true_iff. split; apply Z.leb_le; nia.
Qed.

Lemma workingDays_fully_excluded_witness :
  calculateWorkingDays (day 2024 6 3) (day 2024 6 14)
    [mkDayOff (day 2024 6 10) (day 2024 6 11); mkDayOff (day 2024 6 1) (day 2024 6 30)] = 0.
Proof.
  apply (workingDays_fully_excluded _ _ _ (mkDayOff (day 2024 6 1) (day 2024 6 30)));
    [simpl; tauto|vm_compute; discriminate|vm_compute; discriminate].
Defined.

(** X6.  Exclusion intervals that end before [start], begin after [finish]
    or end before they begin change nothing. *)
Theorem workingDays_ignores_outside_exclusions
    (start finish : Time) (E : list DayOff) :
  (forall x, In x E ->
     instant (End x) < instant start \/ instant finish < instant (Start x)
     \/ instant (End x) < instant (Start x)) ->
  calculateWorkingDays start finish E = calculateWorkingDays start finish [].
Proof.
  intros Hout. pose proof day_positive as HD.
  rewrite !calculateWorkingDays_spec. unfold visitedWorkingDays. do 2 f_equal.
  apply List.filter_ext_in. intros d Hd.
  apply visitedDays_In in Hd as (k & Hk & -> & Hle). simpl in Hle.
  unfold isWorkingDay. f_equal. simpl. f_equal.
  destruct (existsb _ E) eqn:Hex; [|reflexivity].
  apply existsb_exists in Hex as (x & Hin & Hx). exfalso.
  unfold withinExclusion in Hx. simpl in Hx.
  apply andb_true_iff in Hx as [H1 H2]. apply Z.leb_le in H1, H2.
  destruct (Hout x Hin) as [H|[H|H]]; nia.
Qed.

Lemma workingDays_ignores_outside_exclusions_witness :
  calculateWorkingDays (day 2024 6 3) (day 2024 6 14)
    [mkDayOff (day 2024 5 1) (day 2024 5 31); mkDayOff (day 2024 6 12) (day 2024 6 10)] =
  calculateWorkingDays (day 2024 6 3) (day 2024 6 14) [].
Proof.
  apply workingDays_ignores_outside_exclusions. intros x Hin. simpl in Hin.
  destruct Hin as [<-|[<-|[]]].
  - left. vm_compute. reflexivity.
  - right. right. vm_compute. reflexivity.
Defined.

(** X7.  A last day that [finish] does not reach at the time of day of
    [start] is not counted: the count is that of the range cut back to the
    last whole day. *)
Theorem workingDays_ignores_partial_last_day
    (start finish : Time) (E : list DayOff) (n : Z) :
  0 <= n -> instant start + n * (24 * Hour) <= instant finish ->
  instant finish < instant start + (n + 1) * (24 * Hour) ->
  calculateWorkingDays start finish E =
  calculateWorkingDays start (Add start (n * (24 * Hour))) E.
Proof.
  intros Hn Hlo Hhi. pose proof day_positive as HD.
  rewrite !calculateWorkingDays_count.
  rewrite (loopTurns_exact start finish n Hn Hlo Hhi).
  rewrite (loopTurns_exact start (Add start (n * (24 * Hour))) n) by (simpl; lia).
  reflexivity.
Qed.

(** From Sunday noon to Monday 11 o'clock only the Sunday is visited. *)
Lemma workingDays_ignores_partial_last_day_witness :
  calculateWorkingDays (Date 2024 6 2 12 0 0 0 0) (Date 2024 6 3 11 0 0 0 0) [] =
  calculateWorkingDays (Date 2024 6 2 12 0 0 0 0)
    (Add (Date 2024 6 2 12 0 0 0 0) (0 * (24 * Hour))) [].
Proof.
  apply (workingDays_ignores_partial_last_day _ _ [] 0);
    [lia|vm_compute; discriminate|vm_compute; reflexivity].
Defined.

(** ** Further properties of the [/sprints] handler *)

Section SprintWindow.

Lemma slice_segment {A} (s : list A) (low high : Z) (window : list A) :
  slice s low high = Ok window ->
  exists before after,
    s = before ++ window ++ after /\ len window = high - low
    /\ len before = low.
Proof.
  unfold slice.
  destruct (Z.leb_spec 0 low); [|discriminate].
  destruct (Z.leb_spec low high); [|discriminate].
  destruct (Z.leb_spec high (len s)) as [Hhi|]; [|discriminate].
  simpl. intros [= <-]. unfold len in *.
  exists (take (Z.to_nat low) s), (drop (Z.to_nat (high - low)) (drop (Z.to_nat low) s)).
  rewrite !take_drop. split; [reflexivity|].
  rewrite !length_take, length_drop. lia.
Qed.

Lemma filterSprints_segment (sprints : list Sprint) (i : Z) (window : list Sprint) :
  filterSprints sprints i = Ok window ->
  exists before after, sprints = before ++ window ++ after /\ len window <= 7.
Proof.
  unfold filterSprints.
  destruct (Z.leb_spec 0 i) as [Hi|Hi].
  - intros Hw. apply slice_segment in Hw as (before & after & Hs & Hlen & _).
    exists before, after. split; [exact Hs|]. rewrite Hlen.
    destruct (Z.ltb_spec (i - 3) 0), (Z.ltb_spec (len sprints) (i + 4)); lia.
  - destruct (Z.ltb_spec 7 (len sprints)) as [Hlong|Hshort].
    + intros Hw. apply slice_segment in Hw as (before & after & Hs & Hlen & _).
      exists before, after. split; [exact Hs|]. lia.
    + intros [= <-]. exists [], []. rewrite app_nil_r. split; [reflexivity|exact Hshort].
Qed.

Lemma filterSprints_panics (sprints : list Sprint) (i : Z) :
  (exists msg, filterSprints sprints i = Panic msg) <-> len sprints < i - 3.
Proof.
  assert (Hlen : 0 <= len sprints) by (unfold len; lia).
  unfold filterSprints, slice.
  destruct (Z.leb_spec 0 i).
  - destruct (Z.ltb_spec (i - 3) 0), (Z.ltb_spec (len sprints) (i + 4));
      repeat match goal with
             | |- context [?a <=? ?b] => destruct (Z.leb_spec a b)
             end; simpl;
      (split; [intros [msg Hm]; try discriminate; lia
              |intros Hlt; try lia; eexists; reflexivity]).
  - destruct (Z.ltb_spec 7 (len sprints)).
    + repeat match goal with
             | |- context [?a <=? ?b] => destruct (Z.leb_spec a b)
             end; simpl;
        (split; [intros [msg Hm]; try discriminate; lia|intros Hlt; lia]).
    + split; [intros [msg Hm]; discriminate|lia].
Qed.

End SprintWindow.

(** X8.  Whenever the handler returns, the window is a run of at most seven
    consecutive sprints of the name-filtered list, in their order. *)
Theorem sprints_window_is_segment
    (iterations : option (list work.TeamSettingsIteration)) (now : Time)
    (window : list Sprint) :
  sprintsHandler iterations now = Ok window ->
  exists before after,
    omap (toSprint now) (default [] iterations) = before ++ window ++ after
    /\ (length window <= 7)%nat.
Proof.
  destruct iterations as [its|]; simpl.
  - destruct (Z.ltb_spec 0 (len its)) as [Hpos|Hempty].
    + intros H. apply filterSprints_segment in H as (before & after & Hs & Hlen).
      exists before, after. unfold scan in Hs. rewrite scanFrom_allSprints in Hs.
      split; [exact Hs|]. unfold len in Hlen. lia.
    + intros [= <-]. destruct its; [|unfold len in Hempty; simpl in Hempty; lia].
      exists [], []. split; [reflexivity|simpl; lia].
  - intros [= <-]. exists [], []. split; [reflexivity|simpl; lia].
Qed.

Lemma sprints_window_is_segment_witness :
  exists before after,
    omap (toSprint noon_2024_06_10) overlappingIterations =
    before
    ++ [ mkSprint "S3" zeroTime zeroTime false;
         mkSprint "S4" zeroTime zeroTime false;
         mkSprint "S5" (day 2024 6 1) (day 2024 6 15) true;
         mkSprint "S6" (day 2024 6 8) (day 2024 6 22) true;
         mkSprint "S7" zeroTime zeroTime false;
         mkSprint "S8" zeroTime zeroTime false;
         mkSprint "S9" zeroTime zeroTime false ]
    ++ after.
Proof.
  destruct (sprints_window_is_segment (Some overlappingIterations) noon_2024_06_10
              [ mkSprint "S3" zeroTime zeroTime false;
                mkSprint "S4" zeroTime zeroTime false;
                mkSprint "S5" (day 2024 6 1) (day 2024 6 15) true;
                mkSprint "S6" (day 2024 6 8) (day 2024 6 22) true;
                mkSprint "S7" zeroTime zeroTime false;
                mkSprint "S8" zeroTime zeroTime false;
                mkSprint "S9" zeroTime zeroTime false ])
    as (before & after & H & _).
  - vm_compute. reflexivity.
  - exists before, after. exact H.
Defined.

(** X9.  When no iteration is marked current, the handler returns the last
    seven sprints of the name-filtered list, or all of them when there are
    fewer; it does not panic. *)
Theorem sprints_no_current_last_seven
    (iterations : list work.TeamSettingsIteration) (now : Time) :
  (forall iteration, In iteration iterations -> marked now iteration = false) ->
  sprintsHandler (Some iterations) now =
  Ok (drop (length (omap (toSprint now) iterations) - 7) (omap (toSprint now) iterations)).
Proof.
  intros Hnone. unfold sprintsHandler.
  destruct (Z.ltb_spec 0 (len iterations)) as [Hpos|Hempty].
  - assert (Hall : allSprints (scan now iterations) = omap (toSprint now) iterations)
      by (unfold scan; rewrite scanFrom_allSprints; reflexivity).
    destruct (scanFrom_index now iterations 0 (mkScan [] (-1)))
      as [[Hidx _]|(j & last & Hj & Hm & _)].
    + fold (scan now iterations) in Hidx. rewrite Hidx, Hall. simpl.
      set (all := omap (toSprint now) iterations).
      unfold filterSprints, slice. simpl.
      destruct (Z.ltb_spec 7 (len all)) as [Hlong|Hshort]; unfold len in *.
      * destruct (Z.leb_spec 0 (Z.of_nat (length all) - 7)); [|lia].
        destruct (Z.leb_spec (Z.of_nat (length all) - 7) (Z.of_nat (length all))); [|lia].
        rewrite Z.leb_refl. simpl. f_equal.
        replace (Z.to_nat (Z.of_nat (length all) - 7)) with (length all - 7)%nat by lia.
        apply take_ge. rewrite length_drop. lia.
      * replace (length all - 7)%nat with 0%nat by lia. reflexivity.
    + rewrite Hnone in Hm; [discriminate|].
      apply list_elem_of_In, list_elem_of_lookup. eauto.
  - destruct iterations; [reflexivity|unfold len in Hempty; simpl in Hempty; lia].
Qed.

Lemma sprints_no_current_last_seven_witness :
  sprintsHandler (Some overlappingIterations) (day 2023 1 1) =
  Ok (drop (length (omap (toSprint (day 2023 1 1)) overlappingIterations) - 7)
        (omap (toSprint (day 2023 1 1)) overlappingIterations)).
Proof.
  apply sprints_no_current_last_seven. intros iteration Hin. simpl in Hin.
  repeat (destruct Hin as [<-|Hin]; [vm_compute; reflexivity|]). contradiction.
Defined.

(** X10.  The handler panics exactly when some iteration is marked current
    and the position of the last such iteration in the fetched list exceeds
    the number of named iterations by more than three. *)
Theorem sprints_panic_iff
    (iterations : list work.TeamSettingsIteration) (now : Time) :
  (exists msg, sprintsHandler (Some iterations) now = Panic msg)
  <-> exists (j : nat) last,
        iterations !! j = Some last /\ marked now last = true
        /\ (forall (j' : nat) iteration,
              (j < j')%nat -> iterations !! j' = Some iteration ->
              marked now iteration = false)
        /\ (length (omap (toSprint now) iterations) + 3 < j)%nat.
Proof.
  assert (Hall : allSprints (scan now iterations) = omap (toSprint now) iterations)
    by (unfold scan; rewrite scanFrom_allSprints; reflexivity).
  unfold sprintsHandler.
  destruct (Z.ltb_spec 0 (len iterations)) as [Hpos|Hempty].
  - rewrite filterSprints_panics, Hall. unfold len.
    destruct (scanFrom_index now iterations 0 (mkScan [] (-1)))
      as [[Hidx Hnone]|(j & last & Hj & Hm & Hidx & Hlast)];
      fold (scan now iterations) in Hidx; rewrite Hidx; simpl.
    + split; [lia|]. intros (j & last & Hj & Hm & _).
      rewrite (Hnone j last Hj) in Hm. discriminate.
    + split.
      * intros Hlt. exists j, last. repeat split; try assumption. lia.
      * intros (j2 & last2 & Hj2 & Hm2 & Hlast2 & Hlt).
        assert (j2 = j).
        { destruct (Nat.lt_trichotomy j j2) as [Hc|[Hc|Hc]]; [|symmetry; exact Hc|].
          - rewrite (Hlast j2 last2 Hc Hj2) in Hm2. discriminate.
          - rewrite (Hlast2 j last Hc Hj) in Hm. discriminate. }
        subst j2. lia.
  - destruct iterations; [|unfold len in Hempty; simpl in Hempty; lia].
    split; [intros [msg H]; discriminate|].
    intros (j & last & Hj & _). discriminate.
Qed.

(** X11.  When every iteration has a name and one or more are marked
    current, the handler returns a window, and the sprint of the last
    marked iteration is in it, marked, at position [min j 3] for [j] its
    position in the fetched list. *)
Theorem sprints_window_contains_current
    (iterations : list work.TeamSettingsIteration) (now : Time)
    (j : nat) (last : work.TeamSettingsIteration) :
  (forall iteration, In iteration iterations -> work.Name iteration <> None) ->
  iterations !! j = Some last -> marked now last = true ->
  (forall (j' : nat) iteration,
     (j < j')%nat -> iterations !! j' = Some iteration -> marked now iteration = false) ->
  exists window sprint,
    sprintsHandler (Some iterations) now = Ok window
    /\ toSprint now last = Some sprint
    /\ window !! Nat.min j 3 = Some sprint
    /\ IsCurrent sprint = true.
Proof.
  intros Hnamed Hj Hm Hlast.
  assert (Hall : allSprints (scan now iterations) = omap (toSprint now) iterations)
    by (unfold scan; rewrite scanFrom_allSprints; reflexivity).
  assert (Hlen : (j < length iterations)%nat) by (eapply lookup_lt_Some, Hj).
  destruct (scanFrom_index now iterations 0 (mkScan [] (-1)))
    as [[_ Hnone]|(j2 & last2 & Hj2 & Hm2 & Hidx & Hlast2)].
  { rewrite (Hnone j last Hj) in Hm. discriminate. }
  assert (j2 = j).
  { destruct (Nat.lt_trichotomy j j2) as [Hc|[Hc|Hc]]; [|symmetry; exact Hc|].
    - rewrite (Hlast j2 last2 Hc Hj2) in Hm2. discriminate.
    - rewrite (Hlast2 j last Hc Hj) in Hm. discriminate. }
  subst j2. fold (scan now iterations) in Hidx.
  unfold marked in Hm. destruct (toSprint now last) as [sprint|] eqn:Es; [|discriminate].
  exists (windowAround (omap (toSprint now) iterations) (Z.of_nat j)), sprint.
  pose proof (omap_length_named now iterations Hnamed) as Hlen'.
  split.
  - unfold sprintsHandler.
    destruct (Z.ltb_spec 0 (len iterations)); [|unfold len in *; lia].
    rewrite Hidx, Hall. apply filterSprints_current. unfold len. lia.
  - split; [reflexivity|]. split; [|exact Hm].
    unfold windowAround, len. rewrite Hlen'.
    rewrite lookup_take_lt by lia. rewrite lookup_drop.
    rewrite (omap_all_named now iterations Hnamed).
    replace (Z.to_nat (Z.max 0 (Z.of_nat j - 3)) + Nat.min j 3)%nat with j by lia.
    rewrite Hj. exact Es.
Qed.

Lemma sprints_window_contains_current_witness :
  exists window sprint,
    sprintsHandler (Some overlappingIterations) noon_2024_06_10 = Ok window
    /\ window !! 3%nat = Some sprint /\ IsCurrent sprint = true.
Proof.
  destruct (sprints_window_contains_current overlappingIterations noon_2024_06_10 6
              (datedIteration (Some "S6"%string) (day 2024 6 8) (day 2024 6 22)))
    as (window & sprint & Hw & _ & Hl & Hc).
  - intros iteration Hin. simpl in Hin.
    repeat (destruct Hin as [<-|Hin]; [discriminate|]). contradiction.
  - reflexivity.
  - vm_compute. reflexivity.
  - intros j' iteration Hlt Hj'.
    do 7 (destruct j' as [|j']; [lia|]).
    do 3 (destruct j' as [|j']; [injection Hj' as <-; vm_compute; reflexivity|]).
    discriminate Hj'.
  - exists window, sprint. auto.
Defined.

(** ** Further properties of the [/developers] handler *)

Section FindIteration.

Variable sprintName : string.

Implicit Types (iterations : list work.TeamSettingsIteration).

Lemma findByName_found iterations target :
  findByName iterations sprintName = Ok (Some target) <->
  exists before after,
    iterations = before ++ target :: after
    /\ work.Name target = Some sprintName
    /\ Forall (otherName sprintName) before.
Proof.
  induction iterations as [|iteration rest IH]; simpl.
  - split; [discriminate|]. intros (before & after & H & _). destruct before; discriminate.
  - destruct (work.Name iteration) as [name|] eqn:Hname.
    + destruct (String.eqb_spec name sprintName) as [->|Hne].
      * split.
        -- intros [= <-]. exists [], rest. auto.
        -- intros (before & after & H & Ht & Hb). destruct before as [|b before].
           ++ injection H as -> _. reflexivity.
           ++ injection H as -> _. apply Forall_cons in Hb as [(n & Hn & Hdiff) _].
              congruence.
      * rewrite IH. split.
        -- intros (before & after & -> & Ht & Hb). exists (iteration :: before), after.
           split; [reflexivity|]. split; [exact Ht|].
           constructor; [exists name; auto|exact Hb].
        -- intros (before & after & H & Ht & Hb). destruct before as [|b before].
           ++ injection H as -> _. congruence.
           ++ injection H as -> ->. apply Forall_cons in Hb as [_ Hb].
              exists before, after. auto.
    + split; [discriminate|].
      intros (before & after & H & Ht & Hb). destruct before as [|b before].
      * injection H as -> _. congruence.
      * injection H as -> _. apply Forall_cons in Hb as [(n & Hn & _) _]. congruence.
Qed.

Lemma findByName_missing iterations :
  findByName iterations sprintName = Ok None <-> Forall (otherName sprintName) iterations.
Proof.
  induction iterations as [|iteration rest IH]; simpl.
  - split; [constructor|reflexivity].
  - destruct (work.Name iteration) as [name|] eqn:Hname.
    + destruct (String.eqb_spec name sprintName) as [->|Hne].
      * split; [discriminate|]. intros H. apply Forall_cons in H as [(n & Hn & Hdiff) _].
        congruence.
      * rewrite IH. split.
        -- intros H. constructor; [exists name; auto|exact H].
        -- intros H. apply Forall_cons in H as [_ H]. exact H.
    + split; [discriminate|]. intros H. apply Forall_cons in H as [(n & Hn & _) _].
      congruence.
Qed.

Lemma findByName_panics iterations :
  (exists msg, findByName iterations sprintName = Panic msg) <->
  exists before nameless after,
    iterations = before ++ nameless :: after
    /\ work.Name nameless = None
    /\ Forall (otherName sprintName) before.
Proof.
  induction iterations as [|iteration rest IH]; simpl.
  - split; [intros [msg H]; discriminate|].
    intros (before & x & after & H & _). destruct before; discriminate.
  - destruct (work.Name iteration) as [name|] eqn:Hname.
    + destruct (String.eqb_spec name sprintName) as [->|Hne].
      * split; [intros [msg H]; discriminate|].
        intros (before & x & after & H & Hx & Hb). destruct before as [|b before].
        -- injection H as -> _. congruence.
        -- injection H as -> _. apply Forall_cons in Hb as [(n & Hn & Hdiff) _].
           congruence.
      * rewrite IH. split.
        -- intros (before & x & after & -> & Hx & Hb).
           exists (iteration :: before), x, after.
           split; [reflexivity|]. split; [exact Hx|].
           constructor; [exists name; auto|exact Hb].
        -- intros (before & x & after & H & Hx & Hb). destruct before as [|b before].
           ++ injection H as -> _. congruence.
           ++ injection H as -> ->. apply Forall_cons in Hb as [_ Hb].
              exists before, x, after. auto.
    + split.
      * intros _. exists [], iteration, rest. auto.
      * intros _. eexists. reflexivity.
Qed.

End FindIteration.

(** X12.  The search for the requested sprint returns the first iteration
    that carries the name, provided every iteration before it has a name;
    it reports that there is none when all iterations have other names; and
    it panics when the list pointer is nil or when an iteration without a
    name comes before any iteration with the requested name. *)
Theorem findIteration_outcomes
    (iterations : option (list work.TeamSettingsIteration)) (sprintName : string) :
  (forall target,
     findIteration iterations sprintName = Ok (Some target) <->
     exists before after,
       iterations = Some (before ++ target :: after)
       /\ work.Name target = Some sprintName
       /\ Forall (otherName sprintName) before)
  /\ (findIteration iterations sprintName = Ok None <->
      exists its, iterations = Some its /\ Forall (otherName sprintName) its)
  /\ ((exists msg, findIteration iterations sprintName = Panic msg) <->
      iterations = None
      \/ exists before nameless after,
           iterations = Some (before ++ nameless :: after)
           /\ work.Name nameless = None
           /\ Forall (otherName sprintName) before).
Proof.
  destruct iterations as [its|]; simpl.
  - split; [|split].
    + intros target. rewrite findByName_found. split.
      * intros (before & after & -> & H). exists before, after. auto.
      * intros (before & after & [= ->] & H). exists before, after. auto.
    + rewrite findByName_missing. split.
      * intros H. exists its. auto.
      * intros (its' & [= <-] & H). exact H.
    + rewrite findByName_panics. split.
      * intros (before & x & after & -> & H). right. exists before, x, after. auto.
      * intros [H|(before & x & after & [= ->] & H)]; [discriminate|].
        exists before, x, after. auto.
  - split; [|split].
    + intros target. split; [discriminate|]. intros (before & after & H & _). discriminate.
    + split; [discriminate|]. intros (its & H & _). discriminate.
    + split; [intros _; left; reflexivity|]. intros _. eexists. reflexivity.
Qed.

Section NameOrder.

Lemma ascii_compare_lt_trans (a b c : ascii) :
  Ascii.compare a b = Lt -> Ascii.compare b c = Lt -> Ascii.compare a c = Lt.
Proof.
  unfold Ascii.compare. rewrite !N.compare_lt_iff. intros H1 H2.
  exact (N.lt_trans _ _ _ H1 H2).
Qed.

Lemma string_compare_lt_trans (s1 : string) : forall s2 s3 : string,
  String.compare s1 s2 = Lt -> String.compare s2 s3 = Lt -> String.compare s1 s3 = Lt.
Proof.
  induction s1 as [|c1 s1 IH]; intros [|c2 s2] [|c3 s3]; simpl; try discriminate;
    try reflexivity.
  destruct (Ascii.compare c1 c2) eqn:E12; try discriminate;
    destruct (Ascii.compare c2 c3) eqn:E23; try discriminate; intros H1 H2.
  - apply Ascii.compare_eq_iff in E12, E23. subst.
    assert (Ascii.compare c3 c3 = Eq) as -> by (unfold Ascii.compare; apply N.compare_refl).
    exact (IH _ _ H1 H2).
  - apply Ascii.compare_eq_iff in E12. subst. rewrite E23. reflexivity.
  - apply Ascii.compare_eq_iff in E23. subst. rewrite E12. reflexivity.
  - rewrite (ascii_compare_lt_trans _ _ _ E12 E23). reflexivity.
Qed.

Lemma ltb_trans (s1 s2 s3 : string) :
  String.ltb s1 s2 = true -> String.ltb s2 s3 = true -> String.ltb s1 s3 = true.
Proof.
  unfold String.ltb.
  destruct (String.compare s1 s2) eqn:E12; try discriminate.
  destruct (String.compare s2 s3) eqn:E23; try discriminate.
  rewrite (string_compare_lt_trans _ _ _ E12 E23). reflexivity.
Qed.

(** Two different names are ordered one way or the other. *)
Lemma ltb_total (s1 s2 : string) :
  s1 <> s2 -> String.ltb s1 s2 = false -> String.ltb s2 s1 = true.
Proof.
  unfold String.ltb. intros Hne H.
  destruct (String.compare s1 s2) eqn:E; try discriminate H.
  - apply String.compare_eq_iff in E. contradiction.
  - rewrite (String.compare_antisym s2 s1), E. reflexivity.
Qed.

Lemma insertByName_sorted d (l : list Dev.Developer) :
  Dev.Name d ∉ Dev.Name <$> l ->
  StronglySorted nameBefore l -> StronglySorted nameBefore (insertByName d l).
Proof.
  induction l as [|x rest IH]; intros Hfresh Hs; simpl.
  - constructor; constructor.
  - apply StronglySorted_inv in Hs as [Hrest Hx].
    rewrite fmap_cons, not_elem_of_cons in Hfresh. destruct Hfresh as [Hdx Hfresh].
    destruct (String.ltb (Dev.Name d) (Dev.Name x)) eqn:Hlt.
    + constructor; [constructor; assumption|].
      constructor; [exact Hlt|].
      eapply Forall_impl; [exact Hx|]. intros y Hy. exact (ltb_trans _ _ _ Hlt Hy).
    + assert (Hxd : nameBefore x d).
      { apply ltb_total; [exact Hdx|exact Hlt]. }
      constructor.
      * apply IH; [exact Hfresh|exact Hrest].
      * apply Forall_forall. intros y Hy. rewrite insertByName_Permutation in Hy.
        apply elem_of_cons in Hy as [->|Hy].
        -- exact Hxd.
        -- rewrite Forall_forall in Hx. exact (Hx y Hy).
Qed.

Lemma sortByName_sorted (l : list Dev.Developer) :
  NoDup (Dev.Name <$> l) -> StronglySorted nameBefore (sortByName l).
Proof.
  induction l as [|d rest IH]; intros Hnd; simpl; [constructor|].
  rewrite fmap_cons in Hnd. apply NoDup_cons in Hnd as [Hfresh Hnd].
  apply insertByName_sorted; [|exact (IH Hnd)].
  rewrite sortByName_Permutation. exact Hfresh.
Qed.

End NameOrder.

Section Roster.

Variables sprintStart sprintEnd : Time.

Implicit Types (order : list (string * Dev.Developer))
               (devMap : gmap string Dev.Developer).

Lemma developerOf_name devCapacities (dev : Dev.Developer) :
  Dev.Name (developerOf sprintStart sprintEnd devCapacities dev) = Dev.Name dev
  /\ Dev.Tasks (developerOf sprintStart sprintEnd devCapacities dev) = Dev.Tasks dev.
Proof. unfold developerOf. destruct (devCapacities !! Dev.Name dev); split; reflexivity. Qed.

Lemma response_developers order1 order2 :
  Response.Developers (developersResponse sprintStart sprintEnd order1 order2) ≡ₚ
  map (fun entry => developerOf sprintStart sprintEnd (setDefaultCapacities order1) entry.2)
      order2.
Proof.
  unfold developersResponse. cbn [Response.Developers].
  rewrite sortByName_Permutation, aggregate_developers. reflexivity.
Qed.

Lemma response_names order1 order2 :
  Dev.Name <$>
    ((fun entry => developerOf sprintStart sprintEnd (setDefaultCapacities order1) entry.2)
       <$> order2) =
  (fun entry => Dev.Name entry.2) <$> order2.
Proof.
  rewrite <- list_fmap_compose. apply list_fmap_ext. intros i entry _.
  apply developerOf_name.
Qed.

Lemma keyed_names devMap order :
  (forall k d, devMap !! k = Some d -> Dev.Name d = k) ->
  iterationOrder devMap order ->
  (fun entry => Dev.Name entry.2) <$> order = order.*1.
Proof.
  intros Hkeyed Horder. apply list_fmap_ext. intros i [k d] Hi. simpl.
  apply Hkeyed. apply elem_of_map_to_list. rewrite <- Horder.
  apply list_elem_of_lookup. eauto.
Qed.

Lemma order_NoDup devMap order :
  iterationOrder devMap order -> NoDup order.*1.
Proof.
  intros Horder. unfold iterationOrder in Horder. rewrite Horder.
  apply NoDup_fst_map_to_list.
Qed.

End Roster.

(** X13.  For any order in which the map is ranged over, the developers of
    the response are strictly ascending by name (bytewise), and their names
    are exactly the non-empty assignees of the tasks, each once. *)
Theorem developers_sorted_by_name
    (assigned : list string) (sprintStart sprintEnd : Time)
    (order1 order2 : list (string * Dev.Developer)) :
  iterationOrder (countTasks assigned) order2 ->
  let developers :=
    Response.Developers (developersResponse sprintStart sprintEnd order1 order2) in
  StronglySorted nameBefore developers
  /\ NoDup (map Dev.Name developers)
  /\ (forall name, In name (map Dev.Name developers) <-> In name (assignees assigned)).
Proof.
  intros Horder developers.
  pose proof (response_developers sprintStart sprintEnd order1 order2) as Hperm.
  fold developers in Hperm.
  pose proof (keyed_names (countTasks assigned) order2
                (countTasks_keyed assigned) Horder) as Hnames.
  pose proof (order_NoDup (countTasks assigned) order2 Horder) as Hnd.
  rewrite <- Hnames, <- (response_names sprintStart sprintEnd order1) in Hnd.
  change (map Dev.Name developers) with (Dev.Name <$> developers).
  split; [|split].
  - unfold developers, developersResponse. cbn [Response.Developers].
    apply sortByName_sorted. rewrite aggregate_developers. exact Hnd.
  - rewrite Hperm. exact Hnd.
  - intros name. rewrite <- list_elem_of_In, Hperm.
    change (name ∈ Dev.Name <$>
              ((fun entry => developerOf sprintStart sprintEnd
                               (setDefaultCapacities order1) entry.2) <$> order2)
            <-> In name (assignees assigned)).
    rewrite response_names, Hnames, Horder.
    rewrite list_elem_of_fmap. unfold assignees. rewrite filter_In. split.
    + intros ([k d] & -> & Hin). apply elem_of_map_to_list in Hin. simpl.
      rewrite countTasks_lookup in Hin. case_decide as Hk; [discriminate|].
      destruct (count_occ string_dec assigned k) eqn:Hc; [discriminate|].
      split.
      * apply (count_occ_In string_dec). lia.
      * destruct (String.eqb_spec k ""); [contradiction|reflexivity].
    + intros [Hin Hne]. destruct (String.eqb_spec name ""); [discriminate|].
      apply (count_occ_In string_dec) in Hin.
      destruct (count_occ string_dec assigned name) as [|c] eqn:Hc; [lia|].
      exists (name, Dev.mkDeveloper name "" (Z.of_nat (S c)) 0 0 0).
      split; [reflexivity|]. apply elem_of_map_to_list.
      rewrite countTasks_lookup, decide_False by assumption. rewrite Hc. reflexivity.
Qed.

Lemma developers_sorted_by_name_witness :
  StronglySorted nameBefore
    (Response.Developers
       (developersResponse (day 2024 6 3) (day 2024 6 14) [ana 2; bia 1] [bia 1; ana 2])).
Proof.
  apply (developers_sorted_by_name ["Ana"; "Bia"; "Ana"]%string).
  unfold iterationOrder.
  replace (map_to_list (countTasks ["Ana"; "Bia"; "Ana"]%string))
    with [ana 2; bia 1] by (vm_compute; reflexivity).
  apply Permutation_swap.
Defined.

Section TaskConservation.

Lemma totalTasks_Permutation (l1 l2 : list Dev.Developer) :
  l1 ≡ₚ l2 -> totalTasks l1 = totalTasks l2.
Proof.
  induction 1 as [|x l1 l2 _ IH|x y l|l1 l2 l3 _ IH1 _ IH2]; simpl; lia.
Qed.

Lemma entryTasks_insert_fresh (devMap : gmap string Dev.Developer) (k : string) d :
  devMap !! k = None ->
  entryTasks (map_to_list (<[k := d]> devMap)) =
  Dev.Tasks d + entryTasks (map_to_list devMap).
Proof.
  intros Hk. unfold entryTasks.
  rewrite (totalTasks_Permutation _ (snd <$> ((k, d) :: map_to_list devMap))).
  - reflexivity.
  - apply fmap_Permutation, map_to_list_insert, Hk.
Qed.

Lemma entryTasks_insert (devMap : gmap string Dev.Developer) (k : string) d d' :
  devMap !! k = Some d ->
  entryTasks (map_to_list (<[k := d']> devMap)) =
  Dev.Tasks d' - Dev.Tasks d + entryTasks (map_to_list devMap).
Proof.
  intros Hk.
  rewrite <- (insert_delete_eq devMap k d').
  rewrite entryTasks_insert_fresh by apply lookup_delete_eq.
  rewrite <- (insert_delete_id devMap k d Hk) at 2.
  rewrite entryTasks_insert_fresh by apply lookup_delete_eq. lia.
Qed.

Lemma countTasks_total (assigned : list string) :
  entryTasks (map_to_list (countTasks assigned)) = len (assignees assigned).
Proof.
  unfold countTasks, assignees, len.
  induction assigned as [|a l IH] using rev_ind.
  - simpl. unfold entryTasks. rewrite map_to_list_empty. reflexivity.
  - rewrite foldl_app, List.filter_app, length_app. cbn [foldl List.filter].
    set (devMap := foldl countTask ∅ l) in *. unfold countTask.
    destruct (decide (a = ""%string)) as [->|Ha].
    + simpl. rewrite IH. lia.
    + destruct (String.eqb_spec a ""); [contradiction|]. cbn [negb length].
      destruct (devMap !! a) as [dev|] eqn:Hdev.
      * rewrite (entryTasks_insert devMap a dev _ Hdev). simpl. rewrite IH. lia.
      * rewrite (entryTasks_insert_fresh devMap a _ Hdev). simpl. rewrite IH. lia.
Qed.

End TaskConservation.

(** X14.  No task is lost or counted twice: the task counts of the
    developers of the response add up to the number of tasks with a
    non-empty assignee. *)
Theorem developers_tasks_add_up
    (assigned : list string) (sprintStart sprintEnd : Time)
    (order1 order2 : list (string * Dev.Developer)) :
  iterationOrder (countTasks assigned) order2 ->
  totalTasks (Response.Developers (developersResponse sprintStart sprintEnd order1 order2))
  = len (assignees assigned).
Proof.
  intros Horder.
  rewrite (totalTasks_Permutation _ _ (response_developers _ _ order1 order2)).
  rewrite <- countTasks_total. unfold entryTasks.
  rewrite <- (totalTasks_Permutation _ _ (fmap_Permutation snd _ _ Horder)).
  clear Horder. induction order2 as [|entry rest IH]; simpl; [reflexivity|].
  rewrite IH. f_equal. apply developerOf_name.
Qed.

Lemma developers_tasks_add_up_witness :
  totalTasks (Response.Developers
                (developersResponse (day 2024 6 3) (day 2024 6 14)
                   [ana 2; bia 1] [bia 1; ana 2]))
  = len (assignees ["Ana"; ""; "Bia"; "Ana"]%string).
Proof.
  apply developers_tasks_add_up. unfold iterationOrder.
  replace (map_to_list (countTasks ["Ana"; ""; "Bia"; "Ana"]%string))
    with [ana 2; bia 1] by (vm_compute; reflexivity).
  apply Permutation_swap.
Defined.

Section Totals.

Variables sprintStart sprintEnd : Time.

Lemma aggregate_totalDaysOff_zero devCapacities order : forall st,
  totalDaysOff st = 0 ->
  (forall name capacity, devCapacities !! name = Some capacity ->
     capacity = defaultCapacity) ->
  totalDaysOff (foldl (aggregateStep sprintStart sprintEnd devCapacities) st order) = 0.
Proof.
  induction order as [|entry rest IH]; intros st Hst Hdefault; simpl; [exact Hst|].
  apply IH; [|exact Hdefault].
  unfold aggregateStep, developerOf.
  destruct (devCapacities !! Dev.Name entry.2) as [capacity|] eqn:E; simpl; [|exact Hst].
  rewrite (Hdefault _ _ E), Hst. reflexivity.
Qed.

End Totals.

(** X15.  Whatever the tasks and the orders of the two loops, the response
    has one developer for each entry of the map, its total of days off is
    0, its working days are those of the sprint range without exclusions,
    and every developer has 0 days off, 8 hours a day and the same total
    capacity, 8 hours times the working days of the response. *)
Theorem developers_response_uniform
    (devMap : gmap string Dev.Developer) (sprintStart sprintEnd : Time)
    (order1 order2 : list (string * Dev.Developer)) :
  iterationOrder devMap order1 -> iterationOrder devMap order2 ->
  let response := developersResponse sprintStart sprintEnd order1 order2 in
  length (Response.Developers response) = size devMap
  /\ Response.TotalDaysOff response = 0
  /\ Response.WorkingDays response = calculateWorkingDays sprintStart sprintEnd []
  /\ Response.SprintStart response = sprintStart
  /\ Response.SprintEnd response = sprintEnd
  /\ (forall d, In d (Response.Developers response) ->
        Dev.DaysOff d = 0 /\ Dev.CapacityPerDay d = 8%float
        /\ Dev.TotalCapacity d =
           PrimFloat.mul (float64_of_int (Response.WorkingDays response)) 8%float).
Proof.
  intros Horder1 Horder2 response.
  pose proof (response_developers sprintStart sprintEnd order1 order2) as Hperm.
  fold response in Hperm.
  split; [|split; [|split; [|split; [|split]]]]; try reflexivity.
  - rewrite Hperm, length_map, Horder2. apply length_map_to_list.
  - unfold response, developersResponse. cbn [Response.TotalDaysOff].
    apply aggregate_totalDaysOff_zero; [reflexivity|].
    intros name capacity. apply setDefaultCapacities_only_default.
  - intros d Hd. apply list_elem_of_In in Hd. rewrite Hperm in Hd.
    apply list_elem_of_fmap in Hd as ([k dev] & -> & Hin). simpl.
    assert (Hcap : setDefaultCapacities order1 !! Dev.Name dev = Some defaultCapacity).
    { apply (setDefaultCapacities_lookup order1 k). rewrite Horder1, <- Horder2. exact Hin. }
    rewrite (developerOf_configured _ _ _ _ _ Hcap). cbn. repeat split.
Qed.

Lemma developers_response_uniform_witness :
  Response.TotalDaysOff
    (developersResponse (day 2024 6 3) (day 2024 6 14) [ana 2; bia 1] [bia 1; ana 2]) = 0
  /\ length (Response.Developers
               (developersResponse (day 2024 6 3) (day 2024 6 14)
                  [ana 2; bia 1] [bia 1; ana 2])) =
     size (countTasks ["Ana"; "Bia"; "Ana"]%string).
Proof.
  destruct (developers_response_uniform (countTasks ["Ana"; "Bia"; "Ana"]%string)
              (day 2024 6 3) (day 2024 6 14) [ana 2; bia 1] [bia 1; ana 2])
    as (Hlen & Hoff & _).
  - unfold iterationOrder.
    replace (map_to_list (countTasks ["Ana"; "Bia"; "Ana"]%string))
      with [ana 2; bia 1] by (vm_compute; reflexivity).
    reflexivity.
  - unfold iterationOrder.
    replace (map_to_list (countTasks ["Ana"; "Bia"; "Ana"]%string))
      with [ana 2; bia 1] by (vm_compute; reflexivity).
    apply Permutation_swap.
  - split; [exact Hoff|exact Hlen].
Defined.

(** ** Properties of the [/user-stories] loop *)

Section UserStoryFacts.

Variable Value : Type.
Variable asString : Value -> option string.
Variable asMap : Value -> option (gmap string Value).
Variable sprintV : Value -> string.

Local Abbreviation field := (getFieldValue Value asString asMap sprintV).
Local Abbreviation stories := (userStories Value asString asMap sprintV).
Local Abbreviation storiesFrom := (userStoriesFrom Value asString asMap sprintV).
Local Abbreviation storyOf := (userStoryOf Value asString asMap sprintV).
Local Abbreviation isStory := (isUserStory Value asString asMap sprintV).

Lemma firstDateText_first fields (before after : list string) (name : string) :
  (forall n, In n before -> field fields n = ""%string) ->
  field fields name <> ""%string ->
  firstDateText Value asString asMap sprintV fields (before ++ name :: after) =
  field fields name.
Proof.
  intros Hbefore Hname. induction before as [|b before IH]; simpl.
  - destruct (String.eqb_spec (field fields name) ""); [contradiction|reflexivity].
  - rewrite (Hbefore b) by (left; reflexivity). simpl. apply IH.
    intros n Hn. apply Hbefore. right. exact Hn.
Qed.

Lemma firstDateText_none fields (names : list string) :
  (forall n, In n names -> field fields n = ""%string) ->
  firstDateText Value asString asMap sprintV fields names = ""%string.
Proof.
  intros Hnone. induction names as [|b names IH]; simpl; [reflexivity|].
  rewrite (Hnone b) by (left; reflexivity). simpl. apply IH.
  intros n Hn. apply Hnone. right. exact Hn.
Qed.

Lemma userStoriesFrom_acc (details : list (WorkItemDetail Value)) :
  forall acc,
    storiesFrom details acc =
    match storiesFrom details [] with
    | Ok items => Ok (acc ++ items)
    | Panic msg => Panic msg
    end.
Proof.
  induction details as [|detail rest IH]; intros acc; simpl.
  - rewrite app_nil_r. reflexivity.
  - destruct (storyOf detail) as [[item|]|msg]; [| apply IH | reflexivity].
    rewrite (IH (acc ++ [item])), (IH [item]).
    destruct (storiesFrom rest []); [|reflexivity].
    rewrite <- app_assoc. reflexivity.
Qed.

Lemma userStoryOf_cases (detail : WorkItemDetail Value) :
  (isStory detail = false /\ storyOf detail = Ok None)
  \/ (isStory detail = true /\ Id detail = None /\ exists msg, storyOf detail = Panic msg)
  \/ (isStory detail = true /\ exists id item,
        Id detail = Some id /\ storyOf detail = Ok (Some item)
        /\ Story.ID item = id /\ Story.Type_ item = "User Story"%string
        /\ Story.DueDate item = dueDateOf Value asString asMap sprintV (Fields detail)).
Proof.
  unfold isUserStory, userStoryOf.
  destruct (String.eqb_spec (field (Fields detail) "System.WorkItemType") "User Story")
    as [E|_]; [|left; auto].
  right. destruct (Id detail) as [id|].
  - right. split; [reflexivity|]. eexists id, _. repeat split. simpl. exact E.
  - left. split; [reflexivity|]. split; [reflexivity|]. eexists. reflexivity.
Qed.

End UserStoryFacts.

(** X16.  The due date of a story comes from the first of the three date
    fields, in the order of the list, whose text is not empty: it is the
    timestamp that [parseDate] returns for that text, and nil when
    [parseDate] fails, whatever the later fields hold; it is nil when all
    three are empty. *)
Theorem dueDate_from_first_nonempty_field
    (Value : Type) (asString : Value -> option string)
    (asMap : Value -> option (gmap string Value)) (sprintV : Value -> string)
    (fields : option (gmap string Value)) :
  (forall before name after,
     dateFields = before ++ name :: after ->
     (forall n, In n before ->
        getFieldValue Value asString asMap sprintV fields n = ""%string) ->
     getFieldValue Value asString asMap sprintV fields name <> ""%string ->
     dueDateOf Value asString asMap sprintV fields =
     match parseDate (getFieldValue Value asString asMap sprintV fields name) with
     | (dueDate, None) => Some dueDate
     | (_, Some _) => None
     end)
  /\ ((forall n, In n dateFields ->
         getFieldValue Value asString asMap sprintV fields n = ""%string) ->
      dueDateOf Value asString asMap sprintV fields = None).
Proof.
  split.
  - intros before name after Hsplit Hbefore Hname. unfold dueDateOf.
    rewrite Hsplit, (firstDateText_first _ _ _ _ _ _ _ _ Hbefore Hname).
    destruct (String.eqb_spec
                (getFieldValue Value asString asMap sprintV fields name) "");
      [contradiction|reflexivity].
  - intros Hnone. unfold dueDateOf.
    rewrite (firstDateText_none _ _ _ _ _ _ Hnone). reflexivity.
Qed.

(** A target date is ignored when the due date field holds text that does
    not parse. *)
Lemma dueDate_from_first_nonempty_field_witness :
  dueDateOf string Some (fun _ => None) id
    (Some {[ "Microsoft.VSTS.Scheduling.DueDate"%string := "soon"%string;
             "Microsoft.VSTS.Scheduling.TargetDate"%string := "2024-06-03"%string ]})
  = None
  /\ dueDateOf string Some (fun _ => None) id (Some ∅) = None.
Proof.
  destruct (dueDate_from_first_nonempty_field string Some (fun _ => None) id
              (Some {[ "Microsoft.VSTS.Scheduling.DueDate"%string := "soon"%string;
                       "Microsoft.VSTS.Scheduling.TargetDate"%string := "2024-06-03"%string ]}))
    as [Hfirst _].
  destruct (dueDate_from_first_nonempty_field string Some (fun _ => None) id (Some ∅))
    as [_ Hnone].
  split.
  - rewrite (Hfirst [] "Microsoft.VSTS.Scheduling.DueDate"%string
               [ "Microsoft.VSTS.Scheduling.TargetDate";
                 "Microsoft.VSTS.Common.DueDate" ]%string).
    + vm_compute. reflexivity.
    + reflexivity.
    + intros n [].
    + vm_compute. discriminate.
  - apply Hnone. intros n Hin. reflexivity.
Defined.

(** X17.  The loop panics exactly when a work item of type "User Story" has
    a nil [Id]; otherwise it returns one item for each such work item, in
    their order, whether or not a due date could be read. *)
Theorem userStories_one_item_per_story
    (Value : Type) (asString : Value -> option string)
    (asMap : Value -> option (gmap string Value)) (sprintV : Value -> string)
    (details : list (WorkItemDetail Value)) :
  ((exists msg, userStories Value asString asMap sprintV details = Panic msg) <->
   exists detail, In detail details
                  /\ isUserStory Value asString asMap sprintV detail = true
                  /\ Id detail = None)
  /\ (forall items,
        userStories Value asString asMap sprintV details = Ok items ->
        Story.ID <$> items = omap (storyId Value asString asMap sprintV) details
        /\ Forall (fun item => Story.Type_ item = "User Story"%string) items
        /\ length items =
           length (List.filter (isUserStory Value asString asMap sprintV) details)).
Proof.
  unfold userStories. induction details as [|detail rest [IHp IHo]].
  - split.
    + split; [intros [msg H]; discriminate|intros (d & [] & _)].
    + intros items [= <-]. repeat split. constructor.
  - cbn [userStoriesFrom omap list_omap List.filter]. unfold storyId at 1.
    destruct (userStoryOf_cases Value asString asMap sprintV detail)
      as [[Hs Ho]|[(Hs & Hid & msg & Hp)|(Hs & id & item & Hid & Ho & Hi & Ht & _)]].
    + rewrite Ho, Hs. split.
      * rewrite IHp. split.
        -- intros (d & Hin & H). exists d. split; [right; exact Hin|exact H].
        -- intros (d & [<-|Hin] & Hd & Hnil); [congruence|]. exists d. auto.
      * exact IHo.
    + rewrite Hp. split.
      * split; [|intros _; eexists; reflexivity].
        intros _. exists detail. split; [left; reflexivity|]. auto.
      * intros items H. discriminate.
    + rewrite Ho, Hs, Hid, userStoriesFrom_acc. split.
      * destruct (userStoriesFrom Value asString asMap sprintV rest []) as [its|m] eqn:E.
        -- split; [intros [msg H]; discriminate|].
           intros (d & [<-|Hin] & Hd & Hnil); [congruence|].
           destruct (proj2 IHp) as [msg Hm]; [exists d; auto|discriminate].
        -- split; [|intros _; eexists; reflexivity].
           intros _. destruct (proj1 IHp) as (d & Hin & H); [eexists; reflexivity|].
           exists d. split; [right; exact Hin|exact H].
      * intros items H.
        destruct (userStoriesFrom Value asString asMap sprintV rest []) as [its|m] eqn:E;
          [|discriminate].
        injection H as <-. destruct (IHo its eq_refl) as (H1 & H2 & H3).
        cbn [app fmap list_fmap length]. rewrite <- H1, Hi, H3.
        split; [reflexivity|]. split; [constructor; assumption|reflexivity].
Qed.

Lemma userStories_one_item_per_story_witness :
  exists items,
    userStories string Some (fun _ => None) id
      [ mkDetail (Some 7) (Some {[ "System.WorkItemType"%string := "User Story"%string;
                                   "Microsoft.VSTS.Scheduling.DueDate"%string := "soon"%string ]});
        mkDetail None (Some {[ "System.WorkItemType"%string := "Bug"%string ]}) ]
    = Ok items
    /\ Story.ID <$> items = [7].
Proof.
  eexists. split; [vm_compute; reflexivity|].
  destruct (userStories_one_item_per_story string Some (fun _ => None) id
              [ mkDetail (Some 7)
                  (Some {[ "System.WorkItemType"%string := "User Story"%string;
                           "Microsoft.VSTS.Scheduling.DueDate"%string := "soon"%string ]});
                mkDetail None (Some {[ "System.WorkItemType"%string := "Bug"%string ]}) ])
    as [_ Hok].
  destruct (Hok _ ltac:(vm_compute; reflexivity)) as (Hids & _).
  rewrite Hids. vm_compute. reflexivity.
Defined.

(** ** [parseDate] on the usual forms of a date *)

Section DateTexts.

Import TimeParse.

Local Arguments isDigit : simpl never.
Local Arguments digit : simpl never.

Lemma digitChar_digit (n : Z) :
  0 <= n <= 9 -> isDigit (digitChar n) = true /\ digit (digitChar n) = n.
Proof.
  intros Hn. rewrite <- (Z2Nat.id n) by lia.
  assert (Hk : (Z.to_nat n < 10)%nat) by lia.
  generalize dependent (Z.to_nat n). clear n Hn. intros k Hk.
  do 10 (destruct k as [|k]; [split; reflexivity|]). lia.
Qed.

Lemma getnum_pad2 (n : Z) (rest : string) (fixed : bool) :
  0 <= n <= 99 -> getnum (pad2 n rest) fixed = Some (n, rest).
Proof.
  intros Hn. unfold pad2, getnum.
  destruct (digitChar_digit (n / 10)) as [Ha Hda];
    [split; [apply Z.div_pos; lia|apply Z.lt_succ_r, Z.div_lt_upper_bound; lia]|].
  destruct (digitChar_digit (n mod 10)) as [Hb Hdb];
    [pose proof (Z.mod_pos_bound n 10); lia|].
  rewrite Ha, Hb, Hda, Hdb. do 2 f_equal.
  pose proof (Z.div_mod n 10). lia.
Qed.

Lemma getyear_pad4 (y : Z) (rest : string) :
  0 <= y <= 9999 -> getyear (pad4 y rest) = Some (y, rest).
Proof.
  intros Hy. unfold pad4, getyear.
  destruct (digitChar_digit (y / 1000)) as [Ha Hda];
    [split; [apply Z.div_pos; lia|apply Z.lt_succ_r, Z.div_lt_upper_bound; lia]|].
  destruct (digitChar_digit (y / 100 mod 10)) as [Hb Hdb];
    [pose proof (Z.mod_pos_bound (y / 100) 10); lia|].
  destruct (digitChar_digit (y / 10 mod 10)) as [Hc Hdc];
    [pose proof (Z.mod_pos_bound (y / 10) 10); lia|].
  destruct (digitChar_digit (y mod 10)) as [Hd Hdd];
    [pose proof (Z.mod_pos_bound y 10); lia|].
  rewrite Ha, Hb, Hc, Hd, Hda, Hdb, Hdc, Hdd. simpl. do 2 f_equal.
  pose proof (Z.div_mod y 10). pose proof (Z.div_mod (y / 10) 10).
  pose proof (Z.div_mod (y / 100) 10).
  replace (y / 100) with (y / 10 / 10) in * by (rewrite Z.div_div by lia; reflexivity).
  replace (y / 1000) with (y / 10 / 10 / 10) in *
    by (rewrite !Z.div_div by lia; reflexivity).
  lia.
Qed.

Lemma skip_char (p : ascii) (rest : string) :
  Ascii.eqb p " " = false -> skip (String p rest) (String p EmptyString) = Some rest.
Proof.
  intros Hp. unfold skip. simpl. rewrite Hp, Ascii.eqb_refl. reflexivity.
Qed.

Lemma pad2_shape (a : Z) (rest : string) :
  0 <= a <= 99 ->
  exists c1 c2, pad2 a rest = String c1 (String c2 rest)
                /\ isDigit c1 = true /\ isDigit c2 = true.
Proof.
  intros Ha. unfold pad2.
  destruct (digitChar_digit (a / 10)) as [H1 _];
    [split; [apply Z.div_pos; lia|apply Z.lt_succ_r, Z.div_lt_upper_bound; lia]|].
  destruct (digitChar_digit (a mod 10)) as [H2 _];
    [pose proof (Z.mod_pos_bound a 10); lia|].
  eexists _, _. split; [reflexivity|]. auto.
Qed.

Lemma pad4_shape (y : Z) (rest : string) :
  0 <= y <= 9999 ->
  exists a b c d, pad4 y rest = String a (String b (String c (String d rest)))
                  /\ isDigit a = true /\ isDigit b = true
                  /\ isDigit c = true /\ isDigit d = true.
Proof.
  intros Hy. unfold pad4.
  destruct (digitChar_digit (y / 1000)) as [Ha _];
    [split; [apply Z.div_pos; lia|apply Z.lt_succ_r, Z.div_lt_upper_bound; lia]|].
  destruct (digitChar_digit (y / 100 mod 10)) as [Hb _];
    [pose proof (Z.mod_pos_bound (y / 100) 10); lia|].
  destruct (digitChar_digit (y / 10 mod 10)) as [Hc _];
    [pose proof (Z.mod_pos_bound (y / 10) 10); lia|].
  destruct (digitChar_digit (y mod 10)) as [Hd _];
    [pose proof (Z.mod_pos_bound y 10); lia|].
  eexists _, _, _, _. split; [reflexivity|]. auto.
Qed.

Local Arguments pad2 : simpl never.
Local Arguments pad4 : simpl never.

Lemma month_test (m : Z) :
  (m <=? 0) || (12 <? m) = negb ((1 <=? m) && (m <=? 12)).
Proof.
  destruct (Z.leb_spec m 0), (Z.ltb_spec 12 m), (Z.leb_spec 1 m), (Z.leb_spec m 12);
    simpl; try reflexivity; lia.
Qed.

Lemma upper_test (n bound : Z) :
  0 <= n -> (n <? 0) || (bound <=? n) = negb (n <? bound).
Proof.
  intros Hn. destruct (Z.ltb_spec n 0), (Z.leb_spec bound n), (Z.ltb_spec n bound);
    simpl; try reflexivity; lia.
Qed.

Local Ltac step :=
  cbn [parseChunks parseChunk year month TimeParse.day hour min sec nsec zUTC zoneOffset
       negb andb orb].

(** The elements "2006-01-02" on a date in digits. *)
Lemma parse_date_part (y m d : Z) (rest : string) (f : fields) :
  0 <= y <= 9999 -> 0 <= m <= 99 -> 0 <= d <= 99 ->
  parseChunks dateChunks
    (pad4 y (String "-" (pad2 m (String "-" (pad2 d rest))))) f =
  if (1 <=? m) && (m <=? 12)
  then Some (mkFields y m d (hour f) (min f) (sec f) (nsec f) (zUTC f) (zoneOffset f),
             rest)
  else None.
Proof.
  intros Hy Hm Hd. unfold dateChunks. step.
  rewrite getyear_pad4 by exact Hy. step.
  rewrite (skip_char "-"%char) by reflexivity. step.
  rewrite getnum_pad2 by exact Hm. step. rewrite month_test.
  destruct ((1 <=? m) && (m <=? 12)); [|reflexivity]. step.
  rewrite (skip_char "-"%char) by reflexivity. step.
  rewrite getnum_pad2 by exact Hd. reflexivity.
Qed.

(** The elements "T15:04:05" on a time in digits that no fraction
    follows. *)
Lemma parse_clock_part (h mi s : Z) (rest : string) (f : fields) :
  0 <= h <= 99 -> 0 <= mi <= 99 -> 0 <= s <= 99 -> fraction rest = None ->
  parseChunks clockChunks
    (String "T" (pad2 h (String ":" (pad2 mi (String ":" (pad2 s rest)))))) f =
  if (h <? 24) && (mi <? 60) && (s <? 60)
  then Some (mkFields (year f) (month f) (TimeParse.day f) h mi s (nsec f)
               (zUTC f) (zoneOffset f), rest)
  else None.
Proof.
  intros Hh Hmi Hs Hfrac. unfold clockChunks. step.
  rewrite (skip_char "T"%char) by reflexivity. step.
  rewrite getnum_pad2 by exact Hh. step. rewrite (upper_test h 24) by lia.
  destruct (h <? 24); [|reflexivity]. step.
  rewrite (skip_char ":"%char) by reflexivity. step.
  rewrite getnum_pad2 by exact Hmi. step. rewrite (upper_test mi 60) by lia.
  destruct (mi <? 60); [|reflexivity]. step.
  rewrite (skip_char ":"%char) by reflexivity. step.
  rewrite getnum_pad2 by exact Hs. step. rewrite (upper_test s 60) by lia.
  destruct (s <? 60); [|reflexivity]. step. rewrite Hfrac. reflexivity.
Qed.

(** The elements "02/01/2006" and "1/2/2006" on two numbers of two digits
    and a year. *)
Lemma parse_day_first (a b y : Z) (rest : string) (f : fields) :
  0 <= a <= 99 -> 0 <= b <= 99 -> 0 <= y <= 9999 ->
  parseChunks dayFirstChunks
    (pad2 a (String "/" (pad2 b (String "/" (pad4 y rest))))) f =
  if (1 <=? b) && (b <=? 12)
  then Some (mkFields y b a (hour f) (min f) (sec f) (nsec f) (zUTC f) (zoneOffset f),
             rest)
  else None.
Proof.
  intros Ha Hb Hy. unfold dayFirstChunks. step.
  rewrite getnum_pad2 by exact Ha. step.
  rewrite (skip_char "/"%char) by reflexivity. step.
  rewrite getnum_pad2 by exact Hb. step. rewrite month_test.
  destruct ((1 <=? b) && (b <=? 12)); [|reflexivity]. step.
  rewrite (skip_char "/"%char) by reflexivity. step.
  rewrite getyear_pad4 by exact Hy. reflexivity.
Qed.

Lemma parse_month_first (a b y : Z) (rest : string) (f : fields) :
  0 <= a <= 99 -> 0 <= b <= 99 -> 0 <= y <= 9999 ->
  parseChunks monthFirstChunks
    (pad2 a (String "/" (pad2 b (String "/" (pad4 y rest))))) f =
  if (1 <=? a) && (a <=? 12)
  then Some (mkFields y a b (hour f) (min f) (sec f) (nsec f) (zUTC f) (zoneOffset f),
             rest)
  else None.
Proof.
  intros Ha Hb Hy. unfold monthFirstChunks. step.
  rewrite getnum_pad2 by exact Ha. step. rewrite month_test.
  destruct ((1 <=? a) && (a <=? 12)); [|reflexivity]. step.
  rewrite (skip_char "/"%char) by reflexivity. step.
  rewrite getnum_pad2 by exact Hb. step.
  rewrite (skip_char "/"%char) by reflexivity. step.
  rewrite getyear_pad4 by exact Hy. reflexivity.
Qed.

(** The end of [parse] on fields without a zone. *)
Lemma finish_plain (y m d h mi s ns : Z) :
  1 <= m -> 0 <= d ->
  finish (mkFields y m d h mi s ns false (-1)) =
  if (1 <=? d) && (d <=? daysIn m y) then Some (Date y m d h mi s ns 0) else None.
Proof.
  intros Hm Hd. unfold finish. cbn.
  destruct (Z.ltb_spec m 0); [lia|]. destruct (Z.ltb_spec d 0); [lia|].
  destruct (Z.ltb_spec d 1), (Z.leb_spec 1 d), (Z.ltb_spec (daysIn m y) d),
    (Z.leb_spec d (daysIn m y)); simpl; try reflexivity; lia.
Qed.

(** A layout whose shapes do not include that of the input rejects it. *)
Lemma Parse_other_shape (layout value : string) :
  In layout layouts -> ~ In (shapeOf value) (layoutShapes layout) ->
  Parse layout value = None.
Proof.
  intros Hin Hshape. destruct (Parse layout value) as [t|] eqn:E; [|reflexivity].
  exfalso. exact (Hshape (Parse_shape layout value t Hin E)).
Qed.

(** The result of [parseDate] from the results of the nine layouts. *)
Lemma parseDate_unfold (dateStr : string) :
  parseDate dateStr =
  match tryLayouts layouts dateStr with
  | Some t => (t, None)
  | None => (zeroTime, Some (unrecognized dateStr))
  end.
Proof.
  unfold parseDate, parseDateWith.
  destruct (tryLayouts layouts dateStr) as [t|] eqn:E; [reflexivity|].
  destruct (Parse RFC3339 dateStr) as [t|] eqn:Er; [|reflexivity].
  exfalso. rewrite tryLayouts_none in E.
  destruct (RFC3339_redundant dateStr t Er) as [H|H]; rewrite E in H;
    try discriminate; simpl; auto.
Qed.

End DateTexts.

Section DateForms.

Import TimeParse.

Local Arguments pad2 : simpl never.
Local Arguments pad4 : simpl never.
Local Arguments isDigit : simpl never.

Local Ltac in_layouts := unfold layouts; simpl; repeat (first [left; reflexivity|right]).

Local Ltac other_shape Hshape :=
  apply Parse_other_shape;
  [in_layouts|rewrite Hshape; vm_compute; intuition discriminate].

Lemma isoDate_shape (y : Z) (rest : string) :
  0 <= y <= 9999 ->
  shapeOf (pad4 y (String "-" rest)) = YearDash.
Proof.
  intros Hy. destruct (pad4_shape y (String "-" rest) Hy)
    as (a & b & c & e & E & Ha & Hb & Hc & He).
  rewrite (shape_year "-" _ a b c e rest E Ha Hb Hc He). reflexivity.
Qed.

Lemma slashDate_shape (a : Z) (rest : string) :
  0 <= a <= 99 -> shapeOf (pad2 a (String "/" rest)) = TwoDigitsSlash.
Proof.
  intros Ha. destruct (pad2_shape a (String "/" rest) Ha) as (c1 & c2 & -> & H1 & H2).
  simpl. rewrite H1, H2, (digit_is_no_slash c2 H2). reflexivity.
Qed.

Lemma valid_split (y m d : Z) :
  validDate y m d = ((1 <=? m) && (m <=? 12)) && ((1 <=? d) && (d <=? daysIn m y)).
Proof. unfold validDate. rewrite !andb_assoc. reflexivity. Qed.

Lemma Parse_plain_date (y m d : Z) :
  0 <= y <= 9999 -> 0 <= m <= 99 -> 0 <= d <= 99 ->
  Parse "2006-01-02" (isoDateText y m d) =
  if validDate y m d then Some (Date y m d 0 0 0 0 0) else None.
Proof.
  intros Hy Hm Hd. unfold Parse, isoDateText.
  change (layoutChunks "2006-01-02") with dateChunks. unfold parse.
  rewrite parse_date_part by assumption. rewrite valid_split.
  destruct (Z.leb_spec 1 m); [|reflexivity].
  destruct (m <=? 12); [|reflexivity]. cbn [andb].
  apply finish_plain; lia.
Qed.

Lemma Parse_date_then_more (y m d : Z) (more : list chunk) :
  0 <= y <= 9999 -> 0 <= m <= 99 -> 0 <= d <= 99 ->
  (forall f, parseChunks more EmptyString f = None) ->
  parse (dateChunks ++ more) (isoDateText y m d) = None.
Proof.
  intros Hy Hm Hd Hmore. unfold parse, isoDateText.
  rewrite parseChunks_app, parse_date_part by assumption.
  destruct ((1 <=? m) && (m <=? 12)); [|reflexivity]. rewrite Hmore. reflexivity.
Qed.

End DateForms.

(** X18.  On a date written "YYYY-MM-DD", [parseDate] returns midnight UTC
    of that date when the day exists in the month of that year, and
    otherwise the zero time with the error. *)
Theorem parseDate_iso_date (y m d : Z) :
  0 <= y <= 9999 -> 0 <= m <= 99 -> 0 <= d <= 99 ->
  parseDate (isoDateText y m d) =
  if validDate y m d then (day y m d, None)
  else (zeroTime, Some (unrecognized (isoDateText y m d))).
Proof.
  intros Hy Hm Hd. rewrite parseDate_unfold.
  assert (Hshape : shapeOf (isoDateText y m d) = YearDash)
    by (apply isoDate_shape; exact Hy).
  unfold layouts. cbn [tryLayouts].
  assert (H0 : TimeParse.Parse "2006-01-02T15:04:05Z" (isoDateText y m d) = None)
    by (apply (Parse_date_then_more y m d
                 (clockChunks ++ [TimeParse.literal "Z"])); auto).
  assert (H1 : TimeParse.Parse "2006-01-02T15:04:05" (isoDateText y m d) = None)
    by (apply (Parse_date_then_more y m d clockChunks); auto).
  assert (H2 : TimeParse.Parse "2006-01-02T15:04:05-07:00" (isoDateText y m d) = None)
    by (apply (Parse_date_then_more y m d
                 (clockChunks ++ [TimeParse.stdNumColonTZ])); auto).
  rewrite H0, H1, H2, (Parse_plain_date y m d Hy Hm Hd).
  destruct (validDate y m d); [reflexivity|].
  assert (Hother : forall l,
            In l [ "02/01/2006 15:04"; "02/01/2006"; "1/2/2006"; "January 2, 2006";
                   "2006/01/02" ]%string ->
            TimeParse.Parse l (isoDateText y m d) = None).
  { intros l Hin. apply Parse_other_shape.
    - unfold layouts. simpl in Hin |- *. tauto.
    - rewrite Hshape. simpl in Hin.
      repeat (destruct Hin as [<-|Hin]; [vm_compute; intuition discriminate|]).
      contradiction. }
  rewrite !Hother by (simpl; auto 10). reflexivity.
Qed.

Lemma parseDate_iso_date_witness :
  parseDate "2024-02-29" = (day 2024 2 29, None)
  /\ parseDate "2023-02-29" = (zeroTime, Some (unrecognized "2023-02-29")).
Proof.
  split.
  - apply (parseDate_iso_date 2024 2 29); lia.
  - apply (parseDate_iso_date 2023 2 29); lia.
Defined.

Section DateTimeForms.

Import TimeParse.

Local Arguments pad2 : simpl never.
Local Arguments pad4 : simpl never.
Local Arguments isDigit : simpl never.

(** The date and clock elements on "YYYY-MM-DDTHH:MM:SSZ": what is parsed
    and the "Z" that is left. *)
Lemma parse_utc_parts (y m d h mi s : Z) :
  0 <= y <= 9999 -> 0 <= m <= 99 -> 0 <= d <= 99 ->
  0 <= h <= 99 -> 0 <= mi <= 99 -> 0 <= s <= 99 ->
  parseChunks (dateChunks ++ clockChunks) (isoUTCText y m d h mi s) initialFields =
  if ((1 <=? m) && (m <=? 12)) && ((h <? 24) && (mi <? 60) && (s <? 60))
  then Some (mkFields y m d h mi s 0 false (-1), "Z"%string)
  else None.
Proof.
  intros Hy Hm Hd Hh Hmi Hs. unfold isoUTCText.
  rewrite parseChunks_app, parse_date_part by assumption.
  destruct ((1 <=? m) && (m <=? 12)); [|reflexivity].
  rewrite parse_clock_part by (try assumption; reflexivity).
  destruct ((h <? 24) && (mi <? 60) && (s <? 60)); reflexivity.
Qed.

Lemma Parse_utc (y m d h mi s : Z) :
  0 <= y <= 9999 -> 0 <= m <= 99 -> 0 <= d <= 99 ->
  0 <= h <= 99 -> 0 <= mi <= 99 -> 0 <= s <= 99 ->
  Parse "2006-01-02T15:04:05Z" (isoUTCText y m d h mi s) =
  if validDate y m d && ((h <? 24) && (mi <? 60) && (s <? 60))
  then Some (Date y m d h mi s 0 0) else None.
Proof.
  intros Hy Hm Hd Hh Hmi Hs. unfold Parse.
  change (layoutChunks "2006-01-02T15:04:05Z")
    with ((dateChunks ++ clockChunks) ++ [literal "Z"]).
  rewrite parse_snoc, parse_utc_parts by assumption. rewrite valid_split.
  destruct (Z.leb_spec 1 m); [|reflexivity].
  destruct (m <=? 12); [|reflexivity]. cbn [andb].
  destruct ((h <? 24) && (mi <? 60) && (s <? 60));
    [|rewrite andb_false_r; reflexivity].
  rewrite andb_true_r. cbn [parseChunk]. rewrite skip_Z. cbn.
  apply finish_plain; lia.
Qed.

Lemma Parse_utc_others (y m d h mi s : Z) :
  0 <= y <= 9999 -> 0 <= m <= 99 -> 0 <= d <= 99 ->
  0 <= h <= 99 -> 0 <= mi <= 99 -> 0 <= s <= 99 ->
  Parse "2006-01-02T15:04:05" (isoUTCText y m d h mi s) = None
  /\ Parse "2006-01-02T15:04:05-07:00" (isoUTCText y m d h mi s) = None
  /\ Parse "2006-01-02" (isoUTCText y m d h mi s) = None.
Proof.
  intros Hy Hm Hd Hh Hmi Hs. unfold Parse. split; [|split].
  - change (layoutChunks "2006-01-02T15:04:05") with (dateChunks ++ clockChunks).
    unfold parse. rewrite parse_utc_parts by assumption.
    destruct (((1 <=? m) && (m <=? 12)) && ((h <? 24) && (mi <? 60) && (s <? 60)));
      reflexivity.
  - change (layoutChunks "2006-01-02T15:04:05-07:00")
      with ((dateChunks ++ clockChunks) ++ [stdNumColonTZ]).
    rewrite parse_snoc, parse_utc_parts by assumption.
    destruct (((1 <=? m) && (m <=? 12)) && ((h <? 24) && (mi <? 60) && (s <? 60)));
      reflexivity.
  - change (layoutChunks "2006-01-02") with dateChunks.
    unfold parse, isoUTCText. rewrite parse_date_part by assumption.
    destruct ((1 <=? m) && (m <=? 12)); reflexivity.
Qed.

Lemma Parse_slash_forms (a b y : Z) :
  0 <= a <= 99 -> 0 <= b <= 99 -> 0 <= y <= 9999 ->
  Parse "02/01/2006 15:04" (slashDateText a b y) = None
  /\ Parse "02/01/2006" (slashDateText a b y) =
     (if validDate y b a then Some (Date y b a 0 0 0 0 0) else None)
  /\ Parse "1/2/2006" (slashDateText a b y) =
     (if validDate y a b then Some (Date y a b 0 0 0 0 0) else None).
Proof.
  intros Ha Hb Hy. unfold Parse, slashDateText. split; [|split].
  - change (layoutChunks "02/01/2006 15:04")
      with (dayFirstChunks ++ [literal " "; stdHour; literal ":"; stdZeroMinute]).
    unfold parse. rewrite parseChunks_app, parse_day_first by assumption.
    destruct ((1 <=? b) && (b <=? 12)); reflexivity.
  - change (layoutChunks "02/01/2006") with dayFirstChunks.
    unfold parse. rewrite parse_day_first by assumption. rewrite valid_split.
    destruct (Z.leb_spec 1 b); [|reflexivity].
    destruct (b <=? 12); [|reflexivity]. cbn [andb]. apply finish_plain; lia.
  - change (layoutChunks "1/2/2006") with monthFirstChunks.
    unfold parse. rewrite parse_month_first by assumption. rewrite valid_split.
    destruct (Z.leb_spec 1 a); [|reflexivity].
    destruct (a <=? 12); [|reflexivity]. cbn [andb]. apply finish_plain; lia.
Qed.

End DateTimeForms.

(** X19.  On a time written "YYYY-MM-DDTHH:MM:SSZ", the form in which the
    service sends its dates, [parseDate] returns that time in UTC when the
    day exists and the hour, minute and second are below 24, 60 and 60, and
    otherwise the zero time with the error. *)
Theorem parseDate_iso_utc (y m d h mi s : Z) :
  0 <= y <= 9999 -> 0 <= m <= 99 -> 0 <= d <= 99 ->
  0 <= h <= 99 -> 0 <= mi <= 99 -> 0 <= s <= 99 ->
  parseDate (isoUTCText y m d h mi s) =
  if validDate y m d && ((h <? 24) && (mi <? 60) && (s <? 60))
  then (Date y m d h mi s 0 0, None)
  else (zeroTime, Some (unrecognized (isoUTCText y m d h mi s))).
Proof.
  intros Hy Hm Hd Hh Hmi Hs. rewrite parseDate_unfold.
  assert (Hshape : shapeOf (isoUTCText y m d h mi s) = YearDash)
    by (apply isoDate_shape; exact Hy).
  unfold layouts. cbn [tryLayouts].
  rewrite (Parse_utc y m d h mi s) by assumption.
  destruct (validDate y m d && ((h <? 24) && (mi <? 60) && (s <? 60)));
    [reflexivity|].
  destruct (Parse_utc_others y m d h mi s) as (H1 & H2 & H3); try assumption.
  rewrite H1, H2, H3.
  assert (Hother : forall l,
            In l [ "02/01/2006 15:04"; "02/01/2006"; "1/2/2006"; "January 2, 2006";
                   "2006/01/02" ]%string ->
            TimeParse.Parse l (isoUTCText y m d h mi s) = None).
  { intros l Hin. apply Parse_other_shape.
    - unfold layouts. simpl in Hin |- *. tauto.
    - rewrite Hshape. simpl in Hin.
      repeat (destruct Hin as [<-|Hin]; [vm_compute; intuition discriminate|]).
      contradiction. }
  rewrite !Hother by (simpl; auto 10). reflexivity.
Qed.

Lemma parseDate_iso_utc_witness :
  parseDate "2024-06-03T10:20:30Z" = (Date 2024 6 3 10 20 30 0 0, None)
  /\ parseDate "2024-06-03T24:00:00Z" =
     (zeroTime, Some (unrecognized "2024-06-03T24:00:00Z")).
Proof.
  split.
  - apply (parseDate_iso_utc 2024 6 3 10 20 30); lia.
  - apply (parseDate_iso_utc 2024 6 3 24 0 0); lia.
Defined.

(** X20.  On a date written "AA/BB/YYYY" with two digits in both fields,
    [parseDate] reads day first whenever that gives a date that exists,
    also when month first would; it reads month first only when day first
    gives no date, and fails when neither does. *)
Theorem parseDate_slash_date (a b y : Z) :
  0 <= a <= 99 -> 0 <= b <= 99 -> 0 <= y <= 9999 ->
  parseDate (slashDateText a b y) =
  if validDate y b a then (day y b a, None)
  else if validDate y a b then (day y a b, None)
  else (zeroTime, Some (unrecognized (slashDateText a b y))).
Proof.
  intros Ha Hb Hy. rewrite parseDate_unfold.
  assert (Hshape : shapeOf (slashDateText a b y) = TwoDigitsSlash)
    by (apply slashDate_shape; exact Ha).
  assert (Hother : forall l,
            In l [ "2006-01-02T15:04:05Z"; "2006-01-02T15:04:05";
                   "2006-01-02T15:04:05-07:00"; "2006-01-02"; "January 2, 2006";
                   "2006/01/02" ]%string ->
            TimeParse.Parse l (slashDateText a b y) = None).
  { intros l Hin. apply Parse_other_shape.
    - unfold layouts. simpl in Hin |- *. tauto.
    - rewrite Hshape. simpl in Hin.
      repeat (destruct Hin as [<-|Hin]; [vm_compute; intuition discriminate|]).
      contradiction. }
  destruct (Parse_slash_forms a b y Ha Hb Hy) as (H4 & H5 & H6).
  unfold layouts. cbn [tryLayouts].
  rewrite !Hother by (simpl; auto 10). rewrite H4, H5.
  destruct (validDate y b a); [reflexivity|]. rewrite H6.
  destruct (validDate y a b); [reflexivity|].
  rewrite !Hother by (simpl; auto 10). reflexivity.
Qed.

Lemma parseDate_slash_date_witness :
  parseDate "05/06/2024" = (day 2024 6 5, None)
  /\ parseDate "05/13/2024" = (day 2024 5 13, None)
  /\ parseDate "31/02/2024" = (zeroTime, Some (unrecognized "31/02/2024")).
Proof.
  split; [|split].
  - apply (parseDate_slash_date 5 6 2024); lia.
  - apply (parseDate_slash_date 5 13 2024); lia.
  - apply (parseDate_slash_date 31 2 2024); lia.
Defined.

Section OffsetForms.

Import TimeParse.

Local Arguments pad2 : simpl never.
Local Arguments pad4 : simpl never.
Local Arguments isDigit : simpl never.

Lemma getoffset_text (east : bool) (oh om : Z) :
  0 <= oh <= 99 -> 0 <= om <= 99 ->
  getoffset (String (if east then "+" else "-")%char
               (pad2 oh (String ":" (pad2 om EmptyString)))) =
  if (oh <=? 24) && (om <=? 60) then Some (offsetSeconds east oh om, EmptyString)
  else None.
Proof.
  intros Hoh Hom. unfold getoffset.
  change (pad2 oh (String ":" (pad2 om EmptyString)))
    with (String (digitChar (oh / 10)) (String (digitChar (oh mod 10))
            (String ":" (String (digitChar (om / 10))
               (String (digitChar (om mod 10)) EmptyString))))).
  cbn [Ascii.eqb]. rewrite ?Ascii.eqb_refl.
  change (String (digitChar (oh / 10)) (String (digitChar (oh mod 10)) EmptyString))
    with (pad2 oh EmptyString).
  change (String (digitChar (om / 10)) (String (digitChar (om mod 10)) EmptyString))
    with (pad2 om EmptyString).
  rewrite !getnum_pad2 by assumption.
  destruct (Z.ltb_spec 24 oh), (Z.leb_spec oh 24), (Z.ltb_spec 60 om), (Z.leb_spec om 60);
    simpl; try reflexivity; try lia; destruct east; reflexivity.
Qed.

Lemma parse_offset_parts (y m d h mi s : Z) (east : bool) (oh om : Z) :
  0 <= y <= 9999 -> 0 <= m <= 99 -> 0 <= d <= 99 ->
  0 <= h <= 99 -> 0 <= mi <= 99 -> 0 <= s <= 99 ->
  parseChunks (dateChunks ++ clockChunks) (isoOffsetText y m d h mi s east oh om)
    initialFields =
  if ((1 <=? m) && (m <=? 12)) && ((h <? 24) && (mi <? 60) && (s <? 60))
  then Some (mkFields y m d h mi s 0 false (-1),
             String (if east then "+" else "-")%char
               (pad2 oh (String ":" (pad2 om EmptyString))))
  else None.
Proof.
  intros Hy Hm Hd Hh Hmi Hs. unfold isoOffsetText.
  rewrite parseChunks_app, parse_date_part by assumption.
  destruct ((1 <=? m) && (m <=? 12)); [|reflexivity].
  rewrite parse_clock_part by (try assumption; destruct east; reflexivity).
  destruct ((h <? 24) && (mi <? 60) && (s <? 60)); reflexivity.
Qed.

Lemma finish_offset (y m d h mi s ns offset : Z) :
  1 <= m -> 0 <= d -> offset <> -1 ->
  finish (mkFields y m d h mi s ns false offset) =
  if (1 <=? d) && (d <=? daysIn m y) then Some (Date y m d h mi s ns offset) else None.
Proof.
  intros Hm Hd Hoff. unfold finish. cbn.
  destruct (Z.ltb_spec m 0); [lia|]. destruct (Z.ltb_spec d 0); [lia|].
  destruct (Z.eqb_spec offset (-1)); [contradiction|].
  destruct (Z.ltb_spec d 1), (Z.leb_spec 1 d), (Z.ltb_spec (daysIn m y) d),
    (Z.leb_spec d (daysIn m y)); simpl; try reflexivity; lia.
Qed.

Lemma offsetSeconds_not_unset (east : bool) (oh om : Z) : offsetSeconds east oh om <> -1.
Proof. unfold offsetSeconds. destruct east; lia. Qed.

End OffsetForms.

(** X21.  On a time written "YYYY-MM-DDTHH:MM:SS+hh:mm" (or with "-"),
    [parseDate] returns, when the date and the time exist and the offset is
    at most 24 hours and 60 minutes, the time whose wall clock at that
    offset is the one written: its instant is the instant of the same wall
    clock in UTC, moved back by the offset. *)
Theorem parseDate_iso_offset (y m d h mi s : Z) (east : bool) (oh om : Z) :
  0 <= y <= 9999 -> 0 <= m <= 99 -> 0 <= d <= 99 ->
  0 <= h <= 99 -> 0 <= mi <= 99 -> 0 <= s <= 99 ->
  0 <= oh <= 99 -> 0 <= om <= 99 ->
  validDate y m d && ((h <? 24) && (mi <? 60) && (s <? 60))
    && ((oh <=? 24) && (om <=? 60)) = true ->
  exists t,
    parseDate (isoOffsetText y m d h mi s east oh om) = (t, None)
    /\ zoneOffset t = offsetSeconds east oh om
    /\ instant t =
       instant (Date y m d h mi s 0 0) - offsetSeconds east oh om * Second.
Proof.
  intros Hy Hm Hd Hh Hmi Hs Hoh Hom Hvalid.
  apply andb_true_iff in Hvalid as [Hvalid Hzone].
  apply andb_true_iff in Hvalid as [Hdate Hclock].
  exists (Date y m d h mi s 0 (offsetSeconds east oh om)).
  split; [|split; [reflexivity|unfold Date; simpl; lia]].
  rewrite parseDate_unfold. unfold layouts. cbn [tryLayouts].
  pose proof (parse_offset_parts y m d h mi s east oh om Hy Hm Hd Hh Hmi Hs) as Hparts.
  rewrite valid_split in Hdate. apply andb_true_iff in Hdate as [Hmonth Hday].
  rewrite Hmonth, Hclock in Hparts. cbn [andb] in Hparts.
  assert (H0 : TimeParse.Parse "2006-01-02T15:04:05Z"
                 (isoOffsetText y m d h mi s east oh om) = None).
  { unfold TimeParse.Parse.
    change (TimeParse.layoutChunks "2006-01-02T15:04:05Z")
      with ((dateChunks ++ clockChunks) ++ [TimeParse.literal "Z"]).
    rewrite parse_snoc, Hparts. destruct east; reflexivity. }
  assert (H1 : TimeParse.Parse "2006-01-02T15:04:05"
                 (isoOffsetText y m d h mi s east oh om) = None).
  { unfold TimeParse.Parse.
    change (TimeParse.layoutChunks "2006-01-02T15:04:05")
      with (dateChunks ++ clockChunks).
    unfold TimeParse.parse. rewrite Hparts. reflexivity. }
  rewrite H0, H1. unfold TimeParse.Parse.
  change (TimeParse.layoutChunks "2006-01-02T15:04:05-07:00")
    with ((dateChunks ++ clockChunks) ++ [TimeParse.stdNumColonTZ]).
  rewrite parse_snoc, Hparts. cbn [TimeParse.parseChunk].
  rewrite getoffset_text, Hzone by assumption.
  unfold TimeParse.withZone. cbn.
  rewrite finish_offset, Hday;
    [reflexivity| | |apply offsetSeconds_not_unset];
    apply andb_true_iff in Hmonth as [H _]; apply Z.leb_le in H; lia.
Qed.

Lemma parseDate_iso_offset_witness :
  exists t,
    parseDate "2024-06-03T10:20:30-03:00" = (t, None)
    /\ zoneOffset t = -10800
    /\ instant t = instant (Date 2024 6 3 13 20 30 0 0).
Proof.
  destruct (parseDate_iso_offset 2024 6 3 10 20 30 false 3 0) as (t & Hp & Hz & Hi);
    try lia; [reflexivity|].
  exists t. split; [exact Hp|]. split; [exact Hz|]. rewrite Hi. reflexivity.
Defined.
